(** * Snowflake Safe NFT retrieval: transfer-instruction builder and
      submission orchestration

    Shallow embedding of the two scripts of the repository:
    - the Snowflake Safe retrieval script (manual Metaplex Core transfer
      instruction, proposal creation, [executeProposal] retry loop,
      [verifyNFTInSafe], [retrieveNFTFromSafe]);
    - [metaplex-core-nft-transfer.js] ([verifyAssetOwnership],
      [transferNFT]).

    Third-party SDK calls (RPC reads, transaction submission, the Umi
    instruction factory) are oracles collected in a [World] record; the
    scripts run in a small state-and-exception monad that records the
    externally visible events in a trace. *)

From Stdlib Require Import ZArith QArith Qpower Lqa String Ascii List Lia Bool.
From stdpp Require Import base option list strings pretty gmap.
Import ListNotations.

Local Open Scope string_scope.
Local Open Scope list_scope.
Local Open Scope Z_scope.

(** ** JavaScript values shared by both scripts *)

(** A thrown [Error]: its message and the optional [logs] array that
    [SendTransactionError] attaches. *)
Record JsError := mkError { message : string; logs : option (list string) }.

Definition Error (msg : string) : JsError := {| message := msg; logs := None |}.

(** Byte buffers: every element is meant to be in [0, 255]. *)
Definition Buffer := list Z.

(** ** A state-and-exception monad for the scripts

    [Eff S A] threads a script state [S] (trace of events, mutable
    globals, call counters) and ends in a returned value or a thrown
    [JsError]. *)

Inductive Result (A : Type) : Type :=
| Ok (a : A)
| Throw (e : JsError).
Arguments Ok {A} a.
Arguments Throw {A} e.

Definition Eff (S A : Type) : Type := S -> S * Result A.

Definition ret {S A} (a : A) : Eff S A := fun s => (s, Ok a).

Definition bind {S A B} (m : Eff S A) (k : A -> Eff S B) : Eff S B :=
  fun s =>
    match m s with
    | (s', Ok a) => k a s'
    | (s', Throw e) => (s', Throw e)
    end.

Definition throw {S A} (e : JsError) : Eff S A := fun s => (s, Throw e).

(** [try { m } catch (error) { h error }] *)
Definition try_catch {S A} (m : Eff S A) (h : JsError -> Eff S A) : Eff S A :=
  fun s =>
    match m s with
    | (s', Ok a) => (s', Ok a)
    | (s', Throw e) => h e s'
    end.

Definition gets {S A} (f : S -> A) : Eff S A := fun s => (s, Ok (f s)).
Definition modify {S} (f : S -> S) : Eff S unit := fun s => (f s, Ok tt).

(** Lifting an oracle answer into the monad. *)
Definition liftR {S A} (r : Result A) : Eff S A := fun s => (s, r).

Declare Scope eff_scope.
Delimit Scope eff_scope with eff.
Notation "'let*' x ':=' m 'in' k" := (bind m (fun x => k))
  (at level 10, x name, m at level 100, k at level 200) : eff_scope.
Notation "'let*' ' p ':=' m 'in' k" := (bind m (fun x => match x with p => k end))
  (at level 10, p pattern, m at level 100, k at level 200) : eff_scope.
Notation "m '>>' k" := (bind m (fun _ => k))
  (at level 90, right associativity) : eff_scope.
Local Open Scope eff_scope.

(** ** Counting events

    [within tr p n m]: whatever the start state, running [m] only
    appends events to the trace, and at most [n] of them satisfy [p]. *)

Definition count {E} (p : E -> bool) (events : list E) : nat :=
  length (List.filter p events).

Definition within {S E A} (tr : S -> list E) (p : E -> bool) (n : nat) (m : Eff S A) : Prop :=
  forall s, exists events, tr (fst (m s)) = tr s ++ events /\ (count p events <= n)%nat.

(** ** Base58 and public keys (bs58 / web3.js [PublicKey]) *)

Module Base58.

Definition ALPHABET : string :=
  "123456789ABCDEFGHJKLMNPQRSTUVWXYZabcdefghijkmnopqrstuvwxyz".

Fixpoint index_from (c : ascii) (s : string) (i : Z) : option Z :=
  match s with
  | EmptyString => None
  | String d r => if Ascii.eqb c d then Some i else index_from c r (i + 1)
  end.

Definition digit (c : ascii) : option Z := index_from c ALPHABET 0.

Fixpoint nth_char (s : string) (i : nat) : ascii :=
  match s, i with
  | EmptyString, _ => "1"%char
  | String d _, O => d
  | String _ r, S j => nth_char r j
  end.

(** Leading ['1'] characters stand for leading zero bytes. *)
Fixpoint leading_ones (s : string) : nat * string :=
  match s with
  | String c r =>
      if Ascii.eqb c "1"%char
      then let '(n, rest) := leading_ones r in (S n, rest)
      else (O, s)
  | EmptyString => (O, EmptyString)
  end.

Fixpoint digits_value (s : string) (acc : Z) : option Z :=
  match s with
  | EmptyString => Some acc
  | String c r =>
      match digit c with
      | Some d => digits_value r (acc * 58 + d)
      | None => None
      end
  end.

(** Minimal big-endian bytes of a non-negative number ([0] is empty). *)
Fixpoint be_bytes_aux (fuel : nat) (n : Z) (acc : Buffer) : Buffer :=
  match fuel with
  | O => acc
  | S f => if n <=? 0 then acc else be_bytes_aux f (n / 256) (n mod 256 :: acc)
  end.

Definition be_bytes (n : Z) : Buffer := be_bytes_aux (S (Z.to_nat (Z.log2 n))) n [].

Definition be_value (bs : Buffer) : Z := fold_left (fun acc b => acc * 256 + b) bs 0.

Definition decode (s : string) : option Buffer :=
  let '(zeroes, rest) := leading_ones s in
  match digits_value rest 0 with
  | Some v => Some (repeat 0 zeroes ++ be_bytes v)
  | None => None
  end.

Fixpoint leading_zeroes (bs : Buffer) : nat * Buffer :=
  match bs with
  | b :: r => if b =? 0 then let '(n, rest) := leading_zeroes r in (S n, rest) else (O, bs)
  | [] => (O, [])
  end.

Fixpoint b58_digits_aux (fuel : nat) (n : Z) (acc : string) : string :=
  match fuel with
  | O => acc
  | S f =>
      if n <=? 0 then acc
      else b58_digits_aux f (n / 58) (String (nth_char ALPHABET (Z.to_nat (n mod 58))) acc)
  end.

Fixpoint ones (n : nat) (tail : string) : string :=
  match n with
  | O => tail
  | S m => String "1"%char (ones m tail)
  end.

Definition encode (bs : Buffer) : string :=
  let '(zeroes, rest) := leading_zeroes bs in
  let v := be_value rest in
  ones zeroes (b58_digits_aux (S (Z.to_nat (Z.log2 v))) v EmptyString).

End Base58.

(** web3.js [PublicKey]: 32 bytes. *)
Record PublicKey := mkPublicKey { toBuffer : Buffer }.

#[global] Instance PublicKey_eq_dec : EqDecision PublicKey.
Proof. solve_decision. Defined.

Module PublicKey.

(** [new PublicKey(str)]: base58-decodes and insists on 32 bytes. *)
Definition new (s : string) : Result PublicKey :=
  match Base58.decode s with
  | None => Throw (Error "Non-base58 character")
  | Some bs =>
      if (length bs =? 32)%nat then Ok (mkPublicKey bs)
      else Throw (Error "Invalid public key input")
  end.

(** [PublicKey.default]: the all-zero key. *)
Definition default : PublicKey := mkPublicKey (repeat 0 32).

Definition toString (k : PublicKey) : string := Base58.encode (toBuffer k).
Definition toBase58 := toString.

Definition equals (a b : PublicKey) : bool := bool_decide (a = b).

(** A key given by a base58 literal in the source. *)
Definition literal (s : string) : PublicKey :=
  match new s with
  | Ok k => k
  | Throw _ => default
  end.

End PublicKey.

(** Well-known program and sysvar addresses. *)
Definition SystemProgram_programId : PublicKey :=
  PublicKey.literal "11111111111111111111111111111111".
Definition SYSVAR_RENT_PUBKEY : PublicKey :=
  PublicKey.literal "SysvarRent111111111111111111111111111111111".
Definition SYSVAR_INSTRUCTIONS_PUBKEY : PublicKey :=
  PublicKey.literal "Sysvar1nstructions1111111111111111111111111".
Definition METAPLEX_CORE_PROGRAM_ID : PublicKey :=
  PublicKey.literal "CoREENxT6tW1HoK8ypY1SxRMZTcVPm7R94rH4PZNhX7d".

(** ** Instructions (web3.js [TransactionInstruction]) *)

Record AccountMeta := mkMeta { pubkey : PublicKey; isWritable : bool; isSigner : bool }.

Record TransactionInstruction := mkInstruction
  { programId : PublicKey; keys : list AccountMeta; data : Buffer }.

#[global] Instance AccountMeta_eq_dec : EqDecision AccountMeta.
Proof. solve_decision. Defined.

#[global] Instance TransactionInstruction_eq_dec : EqDecision TransactionInstruction.
Proof. solve_decision. Defined.

(** bn.js [new BN(n).toArrayLike(Buffer, 'le', len)] for a non-negative
    [n]: [len] little-endian bytes, or an assertion failure when [n]
    needs more than [len] bytes. *)
Module BN.

Fixpoint le_bytes (len : nat) (n : Z) : Buffer :=
  match len with
  | O => []
  | S l => n mod 256 :: le_bytes l (n / 256)
  end.

Definition byteLength (n : Z) : nat := length (Base58.be_bytes n).

Definition toArrayLike_le (n : Z) (len : nat) : option Buffer :=
  if (byteLength n <=? len)%nat then Some (le_bytes len n) else None.

(** Reading a little-endian buffer back as an unsigned integer. *)
Fixpoint le_value (bs : Buffer) : Z :=
  match bs with
  | [] => 0
  | b :: r => b + 256 * le_value r
  end.

End BN.

(** JavaScript truthiness of an environment variable. *)
Definition truthy (v : option string) : bool :=
  match v with
  | Some s => negb (String.eqb s "")
  | None => false
  end.

Definition utf8_encode (s : string) : Buffer :=
  map (fun c => Z.of_nat (nat_of_ascii c)) (list_ascii_of_string s).

(** ** The Snowflake Safe retrieval script *)

(** What [getAccountInfo] answers: the program that owns the account
    and the account's data.  The script reads [owner] and [data.length];
    it never parses the data. *)
Module AccountInfo.
Record t := mk { owner : PublicKey; data : Buffer }.
Definition dataLength (info : t) : Z := Z.of_nat (length (data info)).
End AccountInfo.

Module SafeAccount.
Record t := mk { owners : list PublicKey; approvalsRequired : Z }.
End SafeAccount.

Module Proposal.
Record approval := mkApproval { isApproved : bool }.
Record t := mk { approvals : list approval }.
End Proposal.

(** Umi-side parameters of the SDK instruction factory; a Umi public key
    is a base58 string. *)
Module TransferParams.
Record t := mk
  { asset : string; owner : string; delegate : string; collection : string;
    updateAuthority : string; newOwner : string; payer : string;
    systemProgram : string; sysvarRent : string; log : string }.
End TransferParams.

(** Every call into the RPC connection or the Safe SDK can fail and is
    an oracle of the [World]; the conversions of the SDK path
    ([fromWeb3JsPublicKey], [toWeb3JsInstruction]) are folded into the
    factory oracle. *)
Module SafeRetrieval.

(** Events the script makes visible: RPC reads, SDK calls, instruction
    construction, Safe SDK calls, timers and console output. *)
Inductive Event :=
| GetBlockHeight
| GetAccountInfo (address : PublicKey)
| UmiCreateTransferV1 (params : TransferParams.t)
| NewTransactionInstruction (ix : TransactionInstruction)
| CreateProposal (instructions : list TransactionInstruction)
| ExecuteProposal (proposalAddress : PublicKey)
| FetchSafe
| FetchProposal (proposalAddress : PublicKey)
| Sleep (ms : Q)
| ConsoleLog (msg : string)
| ConsoleError (msg : string).

(** Everything outside the script: the process environment, the
    addresses parsed at load time and the answers of the SDKs.  Answers
    of repeated calls are indexed by the number of earlier calls of the
    same kind.  [SAFE_ADDRESS], [NFT_ASSET_ADDRESS] and
    [DESTINATION_WALLET] are held as parsed by lines 79-81.  The
    collection address stays in [env] as a string, because the builder
    reads [process.env.NFT_COLLECTION_ADDRESS] itself (lines 191-198);
    the parse of line 82, which a world must survive before any
    function of the script runs, is [NFT_COLLECTION_ADDRESS] and
    [loaded] below. *)
Record World := mkWorld
  { env : gmap string string;
    SAFE_ADDRESS : PublicKey;
    NFT_ASSET_ADDRESS : PublicKey;
    DESTINATION_WALLET : PublicKey;
    (* createUmi && web3JsRpc && web3JsEddsa && mplCorePlugin *)
    umiFactories : bool;
    (* fromWeb3JsPublicKey && toWeb3JsInstruction *)
    umiAdapters : bool;
    (* the SDK factory followed by toWeb3JsInstruction, when imported *)
    createTransferV1Instruction :
      option (TransferParams.t -> option Z -> Result TransactionInstruction);
    (* outcome of createUmi().use(...) *)
    createUmi : Result unit;
    getBlockHeight : Result Z;
    (* JSON.parse and Keypair.fromSecretKey of WALLET_PRIVATE_KEY *)
    Keypair_fromSecretKey : string -> Result PublicKey;
    getAccountInfo : nat -> PublicKey -> Result (option AccountInfo.t);
    safeProgramId : PublicKey;
    findProgramAddress : list Buffer -> PublicKey -> Result (PublicKey * Z);
    safe_createProposal : list TransactionInstruction -> Result (PublicKey * string);
    safe_executeProposal : nat -> PublicKey -> Result string;
    safe_fetchSafe : Result SafeAccount.t;
    safe_fetchProposal : PublicKey -> Result Proposal.t }.

(** Script state: the trace so far, the mutable global [umiContext]
    (truthy or null) and the call counters that index the oracles. *)
Record State := mkState
  { trace : list Event;
    umiContext : bool;
    accountReads : nat;
    executions : nat }.

Definition emit (e : Event) : Eff State unit :=
  modify (fun s => mkState (trace s ++ [e]) (umiContext s) (accountReads s) (executions s)).

Definition console_log (msg : string) : Eff State unit := emit (ConsoleLog msg).
Definition console_error (msg : string) : Eff State unit := emit (ConsoleError msg).
Definition sleep (ms : Q) : Eff State unit := emit (Sleep ms).

Definition set_umiContext (b : bool) : Eff State unit :=
  modify (fun s => mkState (trace s) b (accountReads s) (executions s)).

(** The for-loop of [executeProposal] either leaves through [return]
    or runs out of the fuel given to its model. *)
Inductive LoopExit :=
| OutOfFuel
| Returned (txid : option string).

(** [5000 * Math.pow(1.5, attempt - 1)], in exact rational arithmetic. *)
Definition waitTime (attempt : Z) : Q := (5000 * (3 # 2) ^ (attempt - 1))%Q.

(** The [transferParams] object of the SDK path (lines 224-235), every
    key converted to its Umi form. *)
Definition umiTransferParams
    (safeSignerAddress assetAddress destination collectionAddress : PublicKey)
  : TransferParams.t :=
  let umiOwner := PublicKey.toBase58 safeSignerAddress in
  TransferParams.mk
    (PublicKey.toBase58 assetAddress)
    umiOwner
    "11111111111111111111111111111111"
    (PublicKey.toBase58 collectionAddress)
    umiOwner
    (PublicKey.toBase58 destination)
    umiOwner
    (PublicKey.toBase58 SystemProgram_programId)
    (PublicKey.toBase58 SYSVAR_RENT_PUBKEY)
    (PublicKey.toBase58 SYSVAR_INSTRUCTIONS_PUBKEY).

(** The [accounts] array of lines 271-292. *)
Definition accounts
    (safeSignerAddress assetAddress destination collectionAddress : PublicKey)
  : list AccountMeta :=
  [ (* 0. The asset account being transferred *)
    {| pubkey := assetAddress; isWritable := true; isSigner := false |};
    (* 1. The current owner (must be a signer) *)
    {| pubkey := safeSignerAddress; isWritable := false; isSigner := true |};
    (* 2. Delegate (null in this case) *)
    {| pubkey := PublicKey.default; isWritable := false; isSigner := false |};
    (* 3. Collection address *)
    {| pubkey := collectionAddress; isWritable := false; isSigner := false |};
    (* 4. Update authority (same as owner for safe transfers) *)
    {| pubkey := safeSignerAddress; isWritable := false; isSigner := false |};
    (* 5. New owner/destination *)
    {| pubkey := destination; isWritable := false; isSigner := false |};
    (* 6. Payer (same as owner for safe transfers, signs via CPI) *)
    {| pubkey := safeSignerAddress; isWritable := true; isSigner := true |};
    (* 7. System program *)
    {| pubkey := SystemProgram_programId; isWritable := false; isSigner := false |};
    (* 8. Rent sysvar *)
    {| pubkey := SYSVAR_RENT_PUBKEY; isWritable := false; isSigner := false |};
    (* 9. Instructions sysvar *)
    {| pubkey := SYSVAR_INSTRUCTIONS_PUBKEY; isWritable := false; isSigner := false |} ].

Section Script.

Variable w : World.

Definition connection_getAccountInfo (address : PublicKey)
  : Eff State (option AccountInfo.t) :=
  fun s =>
    (mkState (trace s ++ [GetAccountInfo address]) (umiContext s)
             (S (accountReads s)) (executions s),
     getAccountInfo w (accountReads s) address).

Definition safe_executeProposal_call (proposalAddress : PublicKey) : Eff State string :=
  fun s =>
    (mkState (trace s ++ [ExecuteProposal proposalAddress]) (umiContext s)
             (accountReads s) (S (executions s)),
     safe_executeProposal w (executions s) proposalAddress).

Definition setupConnection : Eff State PublicKey :=
  let* _ :=
    try_catch (emit GetBlockHeight >> liftR (getBlockHeight w))
      (fun error =>
         console_error "Error connecting to Helius RPC:" >>
         console_error "Please verify your API key is correct and has sufficient credits" >>
         throw (Error "Failed to connect to Helius RPC")) in
  try_catch
    (if negb (truthy (env w !! "WALLET_PRIVATE_KEY"))
     then throw (Error "WALLET_PRIVATE_KEY not found in environment variables")
     else liftR (Keypair_fromSecretKey w (default "" (env w !! "WALLET_PRIVATE_KEY"))))
    (fun error =>
       console_error "Error loading wallet from environment variables:" >>
       throw (Error
         "Failed to load wallet. Make sure WALLET_PRIVATE_KEY is correctly configured in .env file")).

Definition findSafeSignerAddress (safeAddress programId : PublicKey)
  : Eff State (PublicKey * Z) :=
  liftR (findProgramAddress w [utf8_encode "SafeSigner"; toBuffer safeAddress] programId).

(** Lines 257-305: the manual construction. *)
Definition manualInstruction
    (safeSignerAddress assetAddress destination collectionAddress : PublicKey)
  : Eff State TransactionInstruction :=
  console_log "Using custom instruction creation method" >>
  let transferDiscriminator : Buffer := [116; 97; 188; 150; 133; 175; 148; 44] in
  let someFlag : Buffer := [1] in
  let* amountValue :=
    match BN.toArrayLike_le 1 8 with
    | Some b => ret b
    | None => throw (Error "byte array longer than desired length")
    end in
  let instructionData := transferDiscriminator ++ someFlag ++ amountValue in
  let ix :=
    mkInstruction METAPLEX_CORE_PROGRAM_ID
      (accounts safeSignerAddress assetAddress destination collectionAddress)
      instructionData in
  emit (NewTransactionInstruction ix) >>
  ret ix.

Definition createMetaplexCoreTransferInstruction
    (safeSignerAddress assetAddress destination : PublicKey)
  : Eff State TransactionInstruction :=
  console_log "Creating Metaplex Core transfer instruction..." >>
  let configured := env w !! "NFT_COLLECTION_ADDRESS" in
  if negb (truthy configured)
     || bool_decide (configured = Some (PublicKey.toString PublicKey.default))
  then
    console_error "ERROR: NFT_COLLECTION_ADDRESS is not set or is invalid in your .env file." >>
    throw (Error "Missing or invalid NFT collection address configuration.")
  else
    let* collectionAddress := liftR (PublicKey.new (default "" configured)) in
    let manual :=
      manualInstruction safeSignerAddress assetAddress destination collectionAddress in
    let* context := gets umiContext in
    match createTransferV1Instruction w with
    | Some factory =>
        if context && umiAdapters w
        then
          try_catch
            (console_log "Using Metaplex Core SDK with proper Umi type conversion" >>
             let transferParams :=
               umiTransferParams safeSignerAddress assetAddress destination
                 collectionAddress in
             let amount := Some 1 in
             emit (UmiCreateTransferV1 transferParams) >>
             liftR (factory transferParams amount))
            (fun error =>
               console_error "Error in Umi instruction creation:" >>
               manual)
        else manual
    | None => manual
    end.

Definition verifyNFTInSafe (assetAddress : PublicKey) : Eff State bool :=
  try_catch
    (let* accountInfo := connection_getAccountInfo assetAddress in
     match accountInfo with
     | None =>
         console_error "Error: The specified NFT asset account does not exist!" >>
         ret false
     | Some info =>
         if negb (PublicKey.equals (AccountInfo.owner info) METAPLEX_CORE_PROGRAM_ID)
         then
           console_error "Error: The specified address is not owned by Metaplex Core!" >>
           ret false
         else ret true
     end)
    (fun error =>
       console_error "Error verifying NFT asset account:" >>
       ret false).

Definition createTransferProposal : Eff State PublicKey :=
  try_catch
    (let* ' (safeSignerAddress, _) := findSafeSignerAddress (SAFE_ADDRESS w) (safeProgramId w) in
     let* transferIx :=
       createMetaplexCoreTransferInstruction
         safeSignerAddress (NFT_ASSET_ADDRESS w) (DESTINATION_WALLET w) in
     let* ' (proposalAddress, _) :=
       (emit (CreateProposal [transferIx]) >> liftR (safe_createProposal w [transferIx])) in
     ret proposalAddress)
    (fun error =>
       console_error "Error creating transfer proposal:" >>
       throw error).

Fixpoint console_error_each (lines : list string) : Eff State unit :=
  match lines with
  | [] => ret tt
  | l :: rest => console_error l >> console_error_each rest
  end.

(** The body of [for (let attempt = 1; attempt <= maxRetries; attempt++)],
    started at [attempt]. *)
Fixpoint executeProposal_loop (fuel : nat) (proposalAddress : PublicKey)
    (maxRetries attempt : Z) : Eff State LoopExit :=
  match fuel with
  | O => ret OutOfFuel
  | S fuel' =>
      if attempt <=? maxRetries then
        try_catch
          (let* txid := safe_executeProposal_call proposalAddress in
           console_log "Proposal executed successfully! Txid:" >>
           ret (Returned (Some txid)))
          (fun error =>
             console_error (message error) >>
             match logs error with
             | Some lines => console_error "Error logs:" >> console_error_each lines
             | None => ret tt
             end >>
             if attempt <? maxRetries then
               sleep (waitTime attempt) >>
               executeProposal_loop fuel' proposalAddress maxRetries (attempt + 1)
             else throw error)
      else ret (Returned None)
  end.

Definition executeProposal (proposalAddress : PublicKey) (maxRetries : Z)
  : Eff State LoopExit :=
  executeProposal_loop (S (Z.to_nat maxRetries)) proposalAddress maxRetries 1.

(** [initializeSafe]: constructs the SDK object; no call leaves the
    process. *)
Definition initializeSafe : Eff State unit :=
  console_log "Initializing Snowflake Safe SDK..." >>
  console_log "Snowflake SDK initialized".

Definition initializeUmi : Eff State bool :=
  try_catch
    (if umiFactories w
     then liftR (createUmi w) >> ret true
     else ret false)
    (fun error =>
       console_error "Failed to initialize Umi context:" >>
       ret false).

Definition approvalCount (proposal : option Proposal.t) (safeAccount : SafeAccount.t) : Z :=
  match proposal with
  | Some p => Z.of_nat (length (List.filter Proposal.isApproved (Proposal.approvals p)))
  | None => SafeAccount.approvalsRequired safeAccount
  end.

Definition retrieveNFTFromSafe : Eff State unit :=
  try_catch
    (let* wallet := setupConnection in
     let* umi := initializeUmi in
     set_umiContext umi >>
     if negb umi then
       console_error
         "Aborting: Umi context failed to initialize. Cannot use Metaplex SDK path."
     else
       initializeSafe >>
       let* nftExists := verifyNFTInSafe (NFT_ASSET_ADDRESS w) in
       if negb nftExists then
         console_log "Aborting NFT transfer process due to NFT verification failure."
       else
         let existing := env w !! "EXISTING_PROPOSAL" in
         let* proposalAddress :=
           (if truthy existing then
              try_catch
                (liftR (PublicKey.new (default "" existing)))
                (fun error =>
                   console_error "Invalid existing proposal address. Creating a new one." >>
                   createTransferProposal)
            else createTransferProposal) in
         sleep 5000 >>
         let* safeAccount := (emit FetchSafe >> liftR (safe_fetchSafe w)) in
         let* proposal :=
           try_catch
             (let* p := (emit (FetchProposal proposalAddress) >>
                         liftR (safe_fetchProposal w proposalAddress)) in
              ret (Some p))
             (fun fetchError =>
                console_error "Error fetching proposal" >>
                ret None) in
         if SafeAccount.approvalsRequired safeAccount <=? approvalCount proposal safeAccount
         then
           let* _ := executeProposal proposalAddress 3 in
           try_catch
             (sleep 5000 >>
              let* nftAccountInfo := connection_getAccountInfo (NFT_ASSET_ADDRESS w) in
              match nftAccountInfo with
              | None => console_log "NFT account no longer exists. Transfer likely successful!"
              | Some info =>
                  if negb (PublicKey.equals (AccountInfo.owner info) METAPLEX_CORE_PROGRAM_ID)
                  then console_log "NFT account owner changed. Transfer likely successful!"
                  else
                    console_log
                      "NFT account still owned by Metaplex Core. Transfer might have failed or destination is wrong."
              end)
             (fun checkError =>
                console_error "Could not verify the NFT transfer status:") >>
           console_log "NFT retrieval process completed."
         else
           console_log "Share this proposal address with other owners" >>
           console_log "NFT retrieval process completed.")
    (fun error =>
       console_error "Error retrieving NFT from safe:" >>
       match logs error with
       | Some _ => console_error "Transaction Logs:"
       | None => ret tt
       end).

(** What the retry loop ends with when its last call is call number
    [last]: that call's transaction id, or its error rethrown. *)
Definition loop_answer (proposalAddress : PublicKey) (last : nat) : Result LoopExit :=
  match safe_executeProposal w last proposalAddress with
  | Ok txid => Ok (Returned (Some txid))
  | Throw error => Throw error
  end.

(** Lines 421-455: the collection lookup; the parsing of the account
    data is left as a placeholder in the source. *)
Definition getMetaplexNFTCollectionAddress (assetAddress : PublicKey)
  : Eff State (option PublicKey) :=
  try_catch
    (let* accountInfo := connection_getAccountInfo assetAddress in
     match accountInfo with
     | None => console_error "NFT asset account not found" >> ret None
     | Some info =>
         if 64 <=? AccountInfo.dataLength info then
           console_log "Attempting to parse collection data from NFT account" >>
           ret None
         else
           console_log "Could not find collection data in NFT account" >>
           ret None
     end)
    (fun error =>
       console_error "Error retrieving NFT collection data:" >>
       ret None).

(** The blocks of [retrieveNFTFromSafe], named so that they can be
    reasoned about one at a time. *)

(** Lines 507-522: reuse [EXISTING_PROPOSAL] or create a proposal. *)
Definition obtainProposal : Eff State PublicKey :=
  let existing := env w !! "EXISTING_PROPOSAL" in
  if truthy existing then
    try_catch
      (liftR (PublicKey.new (default "" existing)))
      (fun error =>
         console_error "Invalid existing proposal address. Creating a new one." >>
         createTransferProposal)
  else createTransferProposal.

(** Lines 564-594: the check after the execution. *)
Definition checkTransfer : Eff State unit :=
  try_catch
    (sleep 5000 >>
     let* nftAccountInfo := connection_getAccountInfo (NFT_ASSET_ADDRESS w) in
     match nftAccountInfo with
     | None => console_log "NFT account no longer exists. Transfer likely successful!"
     | Some info =>
         if negb (PublicKey.equals (AccountInfo.owner info) METAPLEX_CORE_PROGRAM_ID)
         then console_log "NFT account owner changed. Transfer likely successful!"
         else
           console_log
             "NFT account still owned by Metaplex Core. Transfer might have failed or destination is wrong."
     end)
    (fun checkError =>
       console_error "Could not verify the NFT transfer status:").

(** Lines 524-606: wait, read the Safe and the proposal, execute when
    the approvals suffice, check the transfer. *)
Definition executeWhenApproved (proposalAddress : PublicKey) : Eff State unit :=
  sleep 5000 >>
  let* safeAccount := (emit FetchSafe >> liftR (safe_fetchSafe w)) in
  let* proposal :=
    try_catch
      (let* p := (emit (FetchProposal proposalAddress) >>
                  liftR (safe_fetchProposal w proposalAddress)) in
       ret (Some p))
      (fun fetchError =>
         console_error "Error fetching proposal" >>
         ret None) in
  if SafeAccount.approvalsRequired safeAccount <=? approvalCount proposal safeAccount
  then
    let* _ := executeProposal proposalAddress 3 in
    checkTransfer >>
    console_log "NFT retrieval process completed."
  else
    console_log "Share this proposal address with other owners" >>
    console_log "NFT retrieval process completed.".

(** Lines 607-617: the outer [catch] block. *)
Definition reportFailure (error : JsError) : Eff State unit :=
  console_error "Error retrieving NFT from safe:" >>
  match logs error with
  | Some _ => console_error "Transaction Logs:"
  | None => ret tt
  end.

End Script.

(** Line 82, run when the module is loaded:
    [const NFT_COLLECTION_ADDRESS = new PublicKey(process.env.NFT_COLLECTION_ADDRESS)].
    With the variable absent [new PublicKey(undefined)] throws a
    TypeError; with a string that is not a key it throws the error of
    the parse. *)
Definition NFT_COLLECTION_ADDRESS (w : World) : Result PublicKey :=
  match env w !! "NFT_COLLECTION_ADDRESS" with
  | None => Throw (Error "Cannot read properties of undefined (reading '_bn')")
  | Some str => PublicKey.new str
  end.

(** The module loads, so that the functions of the script can run. *)
Definition loaded (w : World) : Prop :=
  exists collection, NFT_COLLECTION_ADDRESS w = Ok collection.

(** The process: the module-level parse of line 82, then the call
    [retrieveNFTFromSafe()] of line 621.  An exception at load time is
    not caught and ends the process before that call. *)
Definition main (w : World) : Eff State unit :=
  liftR (NFT_COLLECTION_ADDRESS w) >> retrieveNFTFromSafe w.

(** The configured collection as the guard of lines 190-197 rejects it:
    absent, empty, or the string of the all-zero key. *)
Definition collection_unset (w : World) : Prop :=
  env w !! "NFT_COLLECTION_ADDRESS" = None
  \/ env w !! "NFT_COLLECTION_ADDRESS" = Some ""
  \/ env w !! "NFT_COLLECTION_ADDRESS" = Some (PublicKey.toString PublicKey.default).

(** The SDK path does not deliver: a component is missing, so the
    guard of line 202 fails, or the factory throws and the [catch] of
    line 250 falls through to the manual construction. *)
Definition sdk_declines (w : World) (s : State)
    (safeSignerAddress assetAddress destination collectionAddress : PublicKey) : Prop :=
  forall factory,
    createTransferV1Instruction w = Some factory ->
    umiContext s = true ->
    umiAdapters w = true ->
    exists error,
      factory (umiTransferParams safeSignerAddress assetAddress destination collectionAddress)
              (Some 1) = Throw error.

(** The attempts and the waits of a trace, in order. *)
Definition is_timeline (e : Event) : bool :=
  match e with
  | ExecuteProposal _ | Sleep _ => true
  | _ => false
  end.

Definition timeline (events : list Event) : list Event := List.filter is_timeline events.

(** [attempt, wait, attempt, wait, ..., attempt]: [n] attempts starting
    with number [attempt], each but the last followed by its wait. *)
Fixpoint failing_timeline (proposalAddress : PublicKey) (n : nat) (attempt : Z)
  : list Event :=
  match n with
  | O => []
  | S O => [ExecuteProposal proposalAddress]
  | S m =>
      ExecuteProposal proposalAddress :: Sleep (waitTime attempt)
        :: failing_timeline proposalAddress m (attempt + 1)
  end.

Definition is_attempt (e : Event) : bool :=
  match e with ExecuteProposal _ => true | _ => false end.

(** Events after which an instruction exists or a write has been issued. *)
Definition builds_or_submits (e : Event) : bool :=
  match e with
  | UmiCreateTransferV1 _ | NewTransactionInstruction _
  | CreateProposal _ | ExecuteProposal _ => true
  | _ => false
  end.

(** The account check of [verifyNFTInSafe] does not pass on the first
    read: no account, an account of another program, or a failed read. *)
Definition verification_fails (w : World) : Prop :=
  getAccountInfo w 0 (NFT_ASSET_ADDRESS w) = Ok None
  \/ (exists info,
        getAccountInfo w 0 (NFT_ASSET_ADDRESS w) = Ok (Some info)
        /\ AccountInfo.owner info <> METAPLEX_CORE_PROGRAM_ID)
  \/ exists error, getAccountInfo w 0 (NFT_ASSET_ADDRESS w) = Throw error.

(** The instruction lists of the proposals a trace submits. *)
Fixpoint keys_of_proposal (events : list Event) : list (list TransactionInstruction) :=
  match events with
  | [] => []
  | CreateProposal instructions :: rest => instructions :: keys_of_proposal rest
  | _ :: rest => keys_of_proposal rest
  end.

(** Kinds of events. *)
Definition is_read (e : Event) : bool :=
  match e with GetAccountInfo _ => true | _ => false end.

Definition is_create (e : Event) : bool :=
  match e with CreateProposal _ => true | _ => false end.

Definition is_construction (e : Event) : bool :=
  match e with NewTransactionInstruction _ => true | _ => false end.

Definition is_sdk_construction (e : Event) : bool :=
  match e with UmiCreateTransferV1 _ => true | _ => false end.

Definition is_sleep (e : Event) : bool :=
  match e with Sleep _ => true | _ => false end.

(** Calls that leave the process: RPC reads and Safe SDK calls. *)
Definition is_network (e : Event) : bool :=
  match e with
  | GetBlockHeight | GetAccountInfo _ | CreateProposal _ | ExecuteProposal _
  | FetchSafe | FetchProposal _ => true
  | _ => false
  end.

(** Everything before the proposal is obtained goes well: the RPC
    answers, the wallet loads, Umi initialises and the asset account
    is owned by the Metaplex Core program. *)
Definition checks_pass (w : World) : Prop :=
  (exists height, getBlockHeight w = Ok height)
  /\ truthy (env w !! "WALLET_PRIVATE_KEY") = true
  /\ (exists wallet,
        Keypair_fromSecretKey w (default "" (env w !! "WALLET_PRIVATE_KEY")) = Ok wallet)
  /\ umiFactories w = true
  /\ createUmi w = Ok tt
  /\ exists info,
       getAccountInfo w 0 (NFT_ASSET_ADDRESS w) = Ok (Some info)
       /\ AccountInfo.owner info = METAPLEX_CORE_PROGRAM_ID.

(** The state [retrieveNFTFromSafe] is in once those checks passed. *)
Definition checked (w : World) : State :=
  mkState
    [GetBlockHeight;
     ConsoleLog "Initializing Snowflake Safe SDK...";
     ConsoleLog "Snowflake SDK initialized";
     GetAccountInfo (NFT_ASSET_ADDRESS w)]
    true 1 0.

(** Set-up fails before any account is read. *)
Definition setup_fails (w : World) : Prop :=
  (exists error, getBlockHeight w = Throw error)
  \/ truthy (env w !! "WALLET_PRIVATE_KEY") = false
  \/ (exists error,
        Keypair_fromSecretKey w (default "" (env w !! "WALLET_PRIVATE_KEY")) = Throw error)
  \/ umiFactories w = false
  \/ (exists error, createUmi w = Throw error).

(** State when [retrieveNFTFromSafe] starts: nothing has happened yet;
    [umiContext] holds what module loading left there. *)
Definition initial (umiAtLoad : bool) : State := mkState [] umiAtLoad 0 0.

End SafeRetrieval.

(** ** The direct transfer script, [metaplex-core-nft-transfer.js] *)

(** The fields of a fetched Umi [AssetV1] that the script reads. *)
Module Asset.
Record t := mk { name : string; owner : string; collection : option string }.
End Asset.

(** Input of the SDK's [transferV1]. *)
Module TransferV1Input.
Record t := mk
  { asset : string; authority : string; owner : string; newOwner : string;
    collection : option string; amount : Z }.
End TransferV1Input.

(** The RPC reads, the Umi client construction and the submission are
    the calls that can fail; conversions between key formats
    ([publicKey], [toBase58], [base58.serialize]) are total on the keys
    the script holds. *)
Module DirectTransfer.

(** What [transferNFT] returns: a boolean or the short-circuit message. *)
Inductive JsValue :=
| JsBool (b : bool)
| JsString (s : string).

Definition FetchResponse : Type := Result (option Asset.t).

Inductive Event :=
| GetBalance
| CreateUmi
| FetchAsset (address : string) (response : FetchResponse)
| SendAndConfirm (input : TransferV1Input.t)
| Sleep (ms : Q)
| ConsoleLog (msg : string)
| ConsoleWarn (msg : string)
| ConsoleError (msg : string).

Record World := mkWorld
  { wallet_publicKey : PublicKey;
    ASSET_ADDRESS : PublicKey;
    DESTINATION_WALLET : PublicKey;
    COLLECTION_ADDRESS : option PublicKey;
    getBalance : Result Z;
    (* createUmi(ENDPOINT).use(...).use(...), by call number *)
    createUmi : nat -> Result unit;
    (* fetchAsset(umi, address), by call number *)
    fetchAsset : nat -> string -> FetchResponse;
    (* transferV1(umi, input).sendAndConfirm(umi, options) *)
    sendAndConfirm : TransferV1Input.t -> Result Buffer }.

Record State := mkState { trace : list Event; fetches : nat; umis : nat }.

Definition initial : State := mkState [] 0 0.

Definition emit (e : Event) : Eff State unit :=
  modify (fun s => mkState (trace s ++ [e]) (fetches s) (umis s)).

Definition console_log (msg : string) : Eff State unit := emit (ConsoleLog msg).
Definition console_warn (msg : string) : Eff State unit := emit (ConsoleWarn msg).
Definition console_error (msg : string) : Eff State unit := emit (ConsoleError msg).
Definition sleep (ms : Q) : Eff State unit := emit (Sleep ms).

Fixpoint console_error_each (lines : list string) : Eff State unit :=
  match lines with
  | [] => ret tt
  | l :: rest => console_error l >> console_error_each rest
  end.

(** [asset && asset.owner.toString() === expected] on a fetched value. *)
Definition owned_by (expected : string) (asset : option Asset.t) : bool :=
  match asset with
  | Some a => String.eqb (Asset.owner a) expected
  | None => false
  end.

Section Script.

Variable w : World.

Definition umi_fetchAsset (address : string) : Eff State (option Asset.t) :=
  fun s =>
    let response := fetchAsset w (fetches s) address in
    (mkState (trace s ++ [FetchAsset address response]) (S (fetches s)) (umis s), response).

Definition createUmi_call : Eff State unit :=
  fun s => (mkState (trace s ++ [CreateUmi]) (fetches s) (S (umis s)), createUmi w (umis s)).

Definition verifyAssetOwnership (assetAddress expectedOwner : PublicKey) : Eff State bool :=
  try_catch
    (let* asset := umi_fetchAsset (PublicKey.toString assetAddress) in
     match asset with
     | None => console_log "Could not find asset" >> ret false
     | Some a => ret (String.eqb (Asset.owner a) (PublicKey.toString expectedOwner))
     end)
    (fun error =>
       console_error "Error verifying asset ownership:" >>
       ret false).

(** Lines 185-215: wait, then read the owner back. *)
Definition confirmTransfer : Eff State JsValue :=
  sleep 5000 >>
  let* isTransferred :=
    verifyAssetOwnership (ASSET_ADDRESS w) (DESTINATION_WALLET w) in
  if isTransferred then
    console_log "Transfer confirmed! Asset is now owned by the destination wallet." >>
    ret (JsBool true)
  else
    console_log "Asset transfer not confirmed." >>
    let* asset := umi_fetchAsset (PublicKey.toBase58 (ASSET_ADDRESS w)) in
    if owned_by (PublicKey.toBase58 (DESTINATION_WALLET w)) asset
    then console_log "On second check, transfer was successful!" >> ret (JsBool true)
    else ret (JsBool false).

(** Lines 216-249: the outer [catch] block. *)
Definition recoverFromError (error : JsError) : Eff State JsValue :=
  console_error "Transfer failed" >>
  console_error (message error) >>
  match logs error with
  | Some lines => console_error_each lines
  | None => ret tt
  end >>
  try_catch
    (createUmi_call >>
     sleep 5000 >>
     let* isTransferred :=
       verifyAssetOwnership (ASSET_ADDRESS w) (DESTINATION_WALLET w) in
     if isTransferred then ret (JsBool true) else ret (JsBool false))
    (fun verifyError =>
       console_error "Error while trying to verify final state:" >>
       ret (JsBool false)).

(** Lines 165-183: the submission; a client-side error is swallowed. *)
Definition submitTransfer (transferParams : TransferV1Input.t)
  : Eff State (option string) :=
  try_catch
    (let* signature :=
       (emit (SendAndConfirm transferParams) >>
        liftR (sendAndConfirm w transferParams)) in
     console_log "Transaction sent. Signature:" >>
     ret (Some (Base58.encode signature)))
    (fun error =>
       console_warn "Client-side error:" >>
       ret None).

Definition transferNFT : Eff State JsValue :=
  try_catch
    (let* balance := (emit GetBalance >> liftR (getBalance w)) in
     (* balance < 0.01 * 10 ** 9 *)
     if balance <? 10000000 then throw (Error "Low wallet balance") else
     createUmi_call >>
     let* asset := umi_fetchAsset (PublicKey.toBase58 (ASSET_ADDRESS w)) in
     match asset with
     | None => throw (Error "Asset not found on chain")
     | Some asset =>
         if String.eqb (Asset.owner asset) (PublicKey.toBase58 (DESTINATION_WALLET w))
         then
           console_log "No transfer needed." >>
           ret (JsString "No transfer needed - already owned by destination wallet")
         else if negb (String.eqb (Asset.owner asset)
                         (PublicKey.toBase58 (wallet_publicKey w)))
         then throw (Error "You are not the owner of this asset.")
         else
           let* collectionPubkey :=
             match COLLECTION_ADDRESS w, Asset.collection asset with
             | Some c, _ => ret (Some c)
             | None, Some c => let* k := liftR (PublicKey.new c) in ret (Some k)
             | None, None =>
                 console_log "No collection found for this asset." >> ret None
             end in
           let transferParams :=
             TransferV1Input.mk
               (PublicKey.toBase58 (ASSET_ADDRESS w))
               (PublicKey.toBase58 (wallet_publicKey w))
               (PublicKey.toBase58 (wallet_publicKey w))
               (PublicKey.toBase58 (DESTINATION_WALLET w))
               (PublicKey.toBase58 <$> collectionPubkey)
               1 in
           let* txSignature := submitTransfer transferParams in
           confirmTransfer
     end)
    recoverFromError.

End Script.

(** Observations on a finished trace. *)

Definition is_send (e : Event) : bool :=
  match e with SendAndConfirm _ => true | _ => false end.


(** Does this event read the asset and find it owned by [expected]? *)
Definition read_shows (expected : string) (e : Event) : bool :=
  match e with
  | FetchAsset _ (Ok asset) => owned_by expected asset
  | _ => false
  end.

Definition is_fetch (e : Event) : bool :=
  match e with FetchAsset _ _ => true | _ => false end.

Definition is_client (e : Event) : bool :=
  match e with CreateUmi => true | _ => false end.

(** JavaScript truthiness of what [transferNFT] resolves to. *)
Definition truthy_value (v : JsValue) : bool :=
  match v with
  | JsBool b => b
  | JsString s => negb (String.eqb s "")
  end.

(** Lines 252-261: [.then(result => process.exit(result ? 0 : 1))] and
    [.catch(err => process.exit(1))]. *)
Definition exitCode (outcome : Result JsValue) : Z :=
  match outcome with
  | Ok result => if truthy_value result then 0 else 1
  | Throw _ => 1
  end.

(** The first read of the asset does not let the transfer start: the
    asset is missing, or owned by neither the destination nor the
    wallet. *)
Definition verification_fails (w : World) : Prop :=
  fetchAsset w 0 (PublicKey.toBase58 (ASSET_ADDRESS w)) = Ok None
  \/ exists a,
       fetchAsset w 0 (PublicKey.toBase58 (ASSET_ADDRESS w)) = Ok (Some a)
       /\ Asset.owner a <> PublicKey.toBase58 (DESTINATION_WALLET w)
       /\ Asset.owner a <> PublicKey.toBase58 (wallet_publicKey w).

End DirectTransfer.

(** ** Concrete worlds used to run the scripts *)

Module Demo.

Definition asset : PublicKey := PublicKey.literal "So11111111111111111111111111111111111111112".
Definition signer : PublicKey := PublicKey.literal "TokenkegQfeZyiNwAJbNbGKPFXCWuBvf9Ss623VQ5DA".
Definition destination : PublicKey :=
  PublicKey.literal "ATokenGPvbdGVxr1b2hvZbsiqW5xWH25efTNsLJA8knL".
Definition collection_string : string := "Memo1UhkJRfHyvLMcVucJwxXeuD728EqVDDwQDxFMNo".
Definition collection : PublicKey := PublicKey.literal collection_string.
Definition proposal : PublicKey := PublicKey.literal "Vote111111111111111111111111111111111111111".

Definition rpc_down : JsError := Error "failed to get info about account".
Definition simulation_failed (attempt : nat) : JsError :=
  mkError "Transaction simulation failed"
          (Some ["Program log: attempt " +:+ pretty attempt]).

Definition env_unset : gmap string string := {[ "WALLET_PRIVATE_KEY" := "[1,2,3]" ]}.
Definition env_set : gmap string string :=
  <[ "NFT_COLLECTION_ADDRESS" := collection_string ]> env_unset.
(** The collection variable holds the string of the all-zero key. *)
Definition env_sentinel : gmap string string :=
  <[ "NFT_COLLECTION_ADDRESS" := "11111111111111111111111111111111" ]> env_unset.

(** The data of a Metaplex Core asset account held by [holder]: the
    key byte of an asset, the 32 bytes of its owner, then the rest of
    the record (zeroed here).  The script reads only its length. *)
Definition asset_data (holder : PublicKey) : Buffer :=
  1 :: toBuffer holder ++ repeat 0 167.

(** The asset account under the Metaplex Core program, the asset held
    by the Safe signer. *)
Definition core_account : Result (option AccountInfo.t) :=
  Ok (Some (AccountInfo.mk METAPLEX_CORE_PROGRAM_ID (asset_data signer))).

(** The same account with the asset held by a third party. *)
Definition stranger : PublicKey :=
  PublicKey.literal "Stake11111111111111111111111111111111111111".
Definition core_account_of_third_party : Result (option AccountInfo.t) :=
  Ok (Some (AccountInfo.mk METAPLEX_CORE_PROGRAM_ID (asset_data stranger))).

(** A Safe script world: the given environment and SDK factory, the
    given answer to the read of the asset account, a Safe whose signer
    address is [signer] and whose proposal execution always fails in
    simulation. *)
Definition safe_world
    (env : gmap string string)
    (factory : option (TransferParams.t -> option Z -> Result TransactionInstruction))
    (account : Result (option AccountInfo.t))
  : SafeRetrieval.World :=
  SafeRetrieval.mkWorld
    env signer asset destination
    true true factory (Ok tt) (Ok 250000000)
    (fun _ => Ok signer)
    (fun _ _ => account)
    signer
    (fun _ _ => Ok (signer, 255))
    (fun _ => Ok (proposal, "5sig"))
    (fun k _ => Throw (simulation_failed k))
    (Ok (SafeAccount.mk [signer] 1))
    (fun _ => Ok (Proposal.mk [Proposal.mkApproval true])).

(** A Safe whose proposal execution fails [failures] times in
    simulation and then succeeds. *)
Definition safe_world_recovering (failures : nat) : SafeRetrieval.World :=
  SafeRetrieval.mkWorld
    env_set signer asset destination
    true true None (Ok tt) (Ok 250000000)
    (fun _ => Ok signer)
    (fun _ _ => core_account)
    signer
    (fun _ _ => Ok (signer, 255))
    (fun _ => Ok (proposal, "5sig"))
    (fun k _ => if (k <? failures)%nat then Throw (simulation_failed k) else Ok "5txid")
    (Ok (SafeAccount.mk [signer] 1))
    (fun _ => Ok (Proposal.mk [Proposal.mkApproval true])).

(** The Metaplex libraries failed to load. *)
Definition safe_world_without_umi : SafeRetrieval.World :=
  SafeRetrieval.mkWorld
    env_set signer asset destination
    false false None (Ok tt) (Ok 250000000)
    (fun _ => Ok signer)
    (fun _ _ => core_account)
    signer
    (fun _ _ => Ok (signer, 255))
    (fun _ => Ok (proposal, "5sig"))
    (fun _ _ => Ok "5txid")
    (Ok (SafeAccount.mk [signer] 1))
    (fun _ => Ok (Proposal.mk [Proposal.mkApproval true])).

(** The Safe answers, but reading the proposal fails. *)
Definition safe_world_unread : SafeRetrieval.World :=
  SafeRetrieval.mkWorld
    env_set signer asset destination
    true true None (Ok tt) (Ok 250000000)
    (fun _ => Ok signer)
    (fun _ _ => core_account)
    signer
    (fun _ _ => Ok (signer, 255))
    (fun _ => Ok (proposal, "5sig"))
    (fun _ _ => Ok "5txid")
    (Ok (SafeAccount.mk [signer] 1))
    (fun _ => Throw rpc_down).

(** An SDK factory that answers a fixed instruction. *)
Definition sdk_instruction : TransactionInstruction :=
  mkInstruction METAPLEX_CORE_PROGRAM_ID [mkMeta asset true false] [14; 0].
Definition sdk_factory (params : TransferParams.t) (amount : option Z)
  : Result TransactionInstruction := Ok sdk_instruction.

Definition start : SafeRetrieval.State := SafeRetrieval.initial false.

(** A direct-transfer world: a funded wallet [signer], the answers of
    the successive asset reads, and the outcome of the submission. *)
Definition direct_world (reads : nat -> DirectTransfer.FetchResponse) (send : Result Buffer)
  : DirectTransfer.World :=
  DirectTransfer.mkWorld
    signer asset destination None
    (Ok 250000000)
    (fun _ => Ok tt)
    (fun k _ => reads k)
    (fun _ => send).

Definition held_by (holder : PublicKey) : DirectTransfer.FetchResponse :=
  Ok (Some (Asset.mk "Demo NFT" (PublicKey.toBase58 holder) None)).


(** The wallet holds the asset and keeps holding it. *)
Definition reads_unchanged (k : nat) : DirectTransfer.FetchResponse := held_by signer.

(** A third party holds the asset at the first read; the read of the
    error handler finds it with the destination. *)
Definition reads_foreign_then_destination (k : nat) : DirectTransfer.FetchResponse :=
  match k with
  | O => held_by collection
  | _ => held_by destination
  end.

Definition reads_missing (k : nat) : DirectTransfer.FetchResponse := Ok None.


Definition signature : Result Buffer := Ok [7; 21; 33].

(** A wallet [signer] with the given answers to the balance read and
    to the successive client constructions; the destination holds the
    asset at every read. *)
Definition direct_world_at_destination (balance : Result Z) (clients : nat -> Result unit)
  : DirectTransfer.World :=
  DirectTransfer.mkWorld
    signer asset destination None
    balance
    clients
    (fun _ _ => held_by destination)
    (fun _ => signature).

(** The first client construction fails, the later ones succeed. *)
Definition clients_failing_once (k : nat) : Result unit :=
  match k with
  | O => Throw (Error "Invalid endpoint")
  | _ => Ok tt
  end.

(** The same wallet with less than 0.01 SOL. *)
Definition direct_world_unfunded (reads : nat -> DirectTransfer.FetchResponse)
  : DirectTransfer.World :=
  DirectTransfer.mkWorld
    signer asset destination None
    (Ok 5000000)
    (fun _ => Ok tt)
    (fun k _ => reads k)
    (fun _ => signature).

(** The environment names a proposal created earlier. *)
Definition env_existing : gmap string string :=
  <[ "EXISTING_PROPOSAL" := "Vote111111111111111111111111111111111111111" ]> env_set.

(** The environment names something that is not an address. *)
Definition env_existing_invalid : gmap string string :=
  <[ "EXISTING_PROPOSAL" := "not a key 0OIl" ]> env_set.

(** A Safe of two owners that needs both approvals and has one. *)
Definition safe_world_unapproved : SafeRetrieval.World :=
  SafeRetrieval.mkWorld
    env_set signer asset destination
    true true None (Ok tt) (Ok 250000000)
    (fun _ => Ok signer)
    (fun _ _ => core_account)
    signer
    (fun _ _ => Ok (signer, 255))
    (fun _ => Ok (proposal, "5sig"))
    (fun _ _ => Ok "5txid")
    (Ok (SafeAccount.mk [signer; destination] 2))
    (fun _ => Ok (Proposal.mk [Proposal.mkApproval true; Proposal.mkApproval false])).

End Demo.

(** * Properties *)

(** ** Known addresses *)

Example default_string :
  PublicKey.toString PublicKey.default = "11111111111111111111111111111111".
Proof. vm_compute. reflexivity. Qed.

Example system_program_is_default : SystemProgram_programId = PublicKey.default.
Proof. vm_compute. reflexivity. Qed.

Example core_program_roundtrip :
  PublicKey.toString METAPLEX_CORE_PROGRAM_ID = "CoREENxT6tW1HoK8ypY1SxRMZTcVPm7R94rH4PZNhX7d"
  /\ length (toBuffer METAPLEX_CORE_PROGRAM_ID) = 32%nat.
Proof. vm_compute. split; reflexivity. Qed.

Example rent_roundtrip :
  PublicKey.toString SYSVAR_RENT_PUBKEY = "SysvarRent111111111111111111111111111111111"
  /\ PublicKey.toString SYSVAR_INSTRUCTIONS_PUBKEY = "Sysvar1nstructions1111111111111111111111111".
Proof. vm_compute. split; reflexivity. Qed.

(** ** Running the monad *)

Ltac run_eff :=
  unfold bind, ret, throw, try_catch, liftR, gets, modify.

Lemma bind_ok {S A B} (m : Eff S A) (k : A -> Eff S B) (s s' : S) (a : A) :
  m s = (s', Ok a) -> bind m k s = k a s'.
Proof. intros H. unfold bind. rewrite H. reflexivity. Qed.

Lemma bind_throw {S A B} (m : Eff S A) (k : A -> Eff S B) (s s' : S) (e : JsError) :
  m s = (s', Throw e) -> bind m k s = (s', Throw e).
Proof. intros H. unfold bind. rewrite H. reflexivity. Qed.

Lemma try_catch_bind {S A B} (m : Eff S A) (k : A -> Eff S B)
    (h : JsError -> Eff S B) (s : S) :
  try_catch (bind m k) h s =
  match m s with
  | (s', Ok a) => try_catch (k a) h s'
  | (s', Throw e) => h e s'
  end.
Proof. unfold try_catch, bind. destruct (m s) as [s' [a|e]]; reflexivity. Qed.

Lemma try_catch_throw {S A} (e : JsError) (h : JsError -> Eff S A) (s : S) :
  try_catch (throw e) h s = h e s.
Proof. reflexivity. Qed.

Lemma try_catch_ret {S A} (a : A) (h : JsError -> Eff S A) (s : S) :
  try_catch (ret a) h s = (s, Ok a).
Proof. reflexivity. Qed.

Lemma toArrayLike_one : BN.toArrayLike_le 1 8 = Some [1; 0; 0; 0; 0; 0; 0; 0].
Proof. vm_compute. reflexivity. Qed.

Lemma le_value_bytes (len : nat) (n : Z) :
  0 <= n < 256 ^ Z.of_nat len -> BN.le_value (BN.le_bytes len n) = n.
Proof.
  revert n. induction len as [|len IH]; intros n Hn.
  - simpl in *. lia.
  - cbn [BN.le_bytes BN.le_value].
    rewrite IH.
    + pose proof (Z.div_mod n 256). lia.
    + rewrite Nat2Z.inj_succ, Z.pow_succ_r in Hn by lia.
      split; [apply Z.div_pos; lia | apply Z.div_lt_upper_bound; lia].
Qed.

(** ** The instruction builder *)

Section Builder.

Import SafeRetrieval.

Variable w : World.

(** The manual construction always succeeds; it logs its banner,
    records the constructed instruction and touches nothing else. *)
Lemma manualInstruction_run (o a d c : PublicKey) (s : State) :
  manualInstruction o a d c s =
  (let ix :=
     mkInstruction METAPLEX_CORE_PROGRAM_ID (accounts o a d c)
       [116; 97; 188; 150; 133; 175; 148; 44; 1; 1; 0; 0; 0; 0; 0; 0; 0] in
   (mkState
      ((trace s ++ [ConsoleLog "Using custom instruction creation method"])
         ++ [NewTransactionInstruction ix])
      (umiContext s) (accountReads s) (executions s),
    Ok ix)).
Proof.
  unfold manualInstruction, console_log, emit. run_eff.
  rewrite toArrayLike_one. reflexivity.
Qed.

Lemma guard_unset :
  collection_unset w ->
  negb (truthy (env w !! "NFT_COLLECTION_ADDRESS"))
  || bool_decide (env w !! "NFT_COLLECTION_ADDRESS" = Some (PublicKey.toString PublicKey.default))
  = true.
Proof.
  intros [H | [H | H]]; rewrite H.
  - reflexivity.
  - reflexivity.
  - rewrite bool_decide_eq_true_2 by reflexivity. apply orb_true_r.
Qed.

Lemma guard_set (str : string) :
  env w !! "NFT_COLLECTION_ADDRESS" = Some str ->
  str <> "" ->
  str <> PublicKey.toString PublicKey.default ->
  negb (truthy (env w !! "NFT_COLLECTION_ADDRESS"))
  || bool_decide (env w !! "NFT_COLLECTION_ADDRESS" = Some (PublicKey.toString PublicKey.default))
  = false.
Proof.
  intros H Hne Hdef. rewrite H. cbn [truthy].
  destruct (String.eqb_spec str "") as [->|_]; [congruence|].
  rewrite bool_decide_eq_false_2 by congruence. reflexivity.
Qed.

(** With the collection unset the builder stops at the guard: two
    console lines, then the configuration error. *)
Lemma builder_unset (o a d : PublicKey) (s : State) :
  collection_unset w ->
  createMetaplexCoreTransferInstruction w o a d s =
  (mkState
     ((trace s ++ [ConsoleLog "Creating Metaplex Core transfer instruction..."])
        ++ [ConsoleError
              "ERROR: NFT_COLLECTION_ADDRESS is not set or is invalid in your .env file."])
     (umiContext s) (accountReads s) (executions s),
   Throw (Error "Missing or invalid NFT collection address configuration.")).
Proof.
  intros H. unfold createMetaplexCoreTransferInstruction.
  rewrite (guard_unset H).
  unfold console_log, console_error, emit. run_eff. reflexivity.
Qed.

(** With a usable collection and no SDK result, the builder returns
    the manually constructed instruction. *)
Lemma builder_manual (o a d c : PublicKey) (str : string) (s : State) :
  env w !! "NFT_COLLECTION_ADDRESS" = Some str ->
  str <> "" ->
  str <> PublicKey.toString PublicKey.default ->
  PublicKey.new str = Ok c ->
  sdk_declines w s o a d c ->
  snd (createMetaplexCoreTransferInstruction w o a d s) =
  Ok (mkInstruction METAPLEX_CORE_PROGRAM_ID (accounts o a d c)
        [116; 97; 188; 150; 133; 175; 148; 44; 1; 1; 0; 0; 0; 0; 0; 0; 0]).
Proof.
  intros Henv Hne Hdef Hnew Hsdk.
  unfold createMetaplexCoreTransferInstruction.
  rewrite (guard_set str Henv Hne Hdef), Henv. cbn [default from_option id].
  unfold console_log, console_error, emit. run_eff. rewrite Hnew.
  destruct (createTransferV1Instruction w) as [factory|] eqn:Hf;
    [|rewrite manualInstruction_run; reflexivity].
  cbn [umiContext].
  destruct (umiContext s) eqn:Hctx; cbn [andb];
    [|rewrite manualInstruction_run; reflexivity].
  destruct (umiAdapters w) eqn:Had; [|rewrite manualInstruction_run; reflexivity].
  destruct (Hsdk factory Hf Hctx Had) as [error Herr].
  cbn [trace umiContext accountReads executions]. rewrite Herr.
  rewrite manualInstruction_run. reflexivity.
Qed.

(** The builder never writes [umiContext], and its result depends on
    the state through [umiContext] only. *)
Lemma builder_state (o a d : PublicKey) (s s' : State) :
  umiContext s = umiContext s' ->
  umiContext (fst (createMetaplexCoreTransferInstruction w o a d s)) = umiContext s
  /\ snd (createMetaplexCoreTransferInstruction w o a d s)
     = snd (createMetaplexCoreTransferInstruction w o a d s').
Proof.
  intros Hctx. unfold createMetaplexCoreTransferInstruction.
  unfold console_log, console_error, emit. run_eff.
  destruct (negb _ || _); [split; reflexivity|].
  destruct (PublicKey.new _) as [c|e]; [|split; reflexivity].
  cbn [umiContext]. rewrite <- Hctx.
  destruct (createTransferV1Instruction w) as [factory|];
    [|rewrite !manualInstruction_run; split; reflexivity].
  destruct (umiContext s); cbn [andb];
    [|rewrite !manualInstruction_run; split; reflexivity].
  destruct (umiAdapters w); [|rewrite !manualInstruction_run; split; reflexivity].
  cbn [trace umiContext accountReads executions].
  destruct (factory _ _); [split; reflexivity|].
  rewrite !manualInstruction_run; split; reflexivity.
Qed.

End Builder.

(** ** The string of the all-zero key

    The guard of the builder compares strings.  Base58 has one string per
    byte sequence, so the only string that [new PublicKey] turns into the
    all-zero key is the one the guard compares with. *)

Section ZeroKey.

Import Base58.

Lemma leading_ones_split (s : string) :
  s = ones (fst (leading_ones s)) (snd (leading_ones s))
  /\ (snd (leading_ones s) = EmptyString
      \/ exists c r, snd (leading_ones s) = String c r /\ c <> "1"%char).
Proof.
  induction s as [|c r [IHeq IHrest]]; [split; [reflexivity | left; reflexivity]|].
  cbn [leading_ones].
  destruct (Ascii.eqb_spec c "1"%char) as [->|Hc].
  - destruct (leading_ones r) as [n rest]. cbn [fst snd ones] in *.
    split; [f_equal; exact IHeq | exact IHrest].
  - cbn [fst snd ones]. split; [reflexivity|]. right. eauto.
Qed.

Lemma index_from_bounds (c : ascii) (s : string) (i j : Z) :
  index_from c s i = Some j -> i <= j.
Proof.
  revert i. induction s as [|d r IH]; intros i; cbn [index_from]; [discriminate|].
  destruct (Ascii.eqb c d).
  - intros [= ->]. lia.
  - intros H. apply IH in H. lia.
Qed.

Lemma index_from_cons (c d : ascii) (r : string) (i : Z) :
  index_from c (String d r) i = if Ascii.eqb c d then Some i else index_from c r (i + 1).
Proof. reflexivity. Qed.

Lemma digit_positive (c : ascii) (d : Z) :
  c <> "1"%char -> digit c = Some d -> 1 <= d.
Proof.
  intros Hc. unfold digit, ALPHABET. rewrite index_from_cons.
  destruct (Ascii.eqb_spec c "1"%char) as [->|_]; [contradiction|].
  intros H. apply index_from_bounds in H. lia.
Qed.

Lemma digit_nonneg (c : ascii) (d : Z) : digit c = Some d -> 0 <= d.
Proof. unfold digit. apply index_from_bounds. Qed.

Lemma digits_value_grows (s : string) (acc v : Z) :
  0 <= acc -> digits_value s acc = Some v -> acc <= v.
Proof.
  revert acc. induction s as [|c r IH]; intros acc Hacc; cbn [digits_value].
  - intros [= ->]. lia.
  - destruct (digit c) as [d|] eqn:Hd; [|discriminate].
    pose proof (digit_nonneg c d Hd) as Hdigit.
    intros Hrest. apply IH in Hrest; lia.
Qed.

(** Bytes already produced stay at the end of the result. *)
Lemma be_bytes_aux_suffix (fuel : nat) (n : Z) (acc : Buffer) :
  exists front, be_bytes_aux fuel n acc = front ++ acc.
Proof.
  revert n acc. induction fuel as [|fuel IH]; intros n acc; cbn [be_bytes_aux].
  - exists []. reflexivity.
  - destruct (n <=? 0); [exists []; reflexivity|].
    destruct (IH (n / 256) (n mod 256 :: acc)) as [front ->].
    exists (front ++ [n mod 256]). rewrite <- app_assoc. reflexivity.
Qed.

Lemma be_bytes_aux_nonzero (fuel : nat) :
  forall (n : Z) (acc : Buffer),
    0 < n < 2 ^ Z.of_nat fuel ->
    exists b, In b (be_bytes_aux fuel n acc) /\ b <> 0.
Proof.
  induction fuel as [|fuel IH]; intros n acc Hn.
  - cbn in Hn. lia.
  - cbn [be_bytes_aux]. destruct (Z.leb_spec n 0) as [Hle|_]; [lia|].
    destruct (Z.eq_dec (n mod 256) 0) as [Hzero|Hbyte].
    + apply IH.
      pose proof (Z.div_mod n 256 ltac:(lia)) as Hdiv.
      rewrite Nat2Z.inj_succ, Z.pow_succ_r in Hn by lia.
      split; [lia|].
      apply Z.div_lt_upper_bound; lia.
    + destruct (be_bytes_aux_suffix fuel (n / 256) (n mod 256 :: acc)) as [front ->].
      exists (n mod 256). split; [|exact Hbyte].
      apply in_or_app. right. left. reflexivity.
Qed.

Lemma be_bytes_nonzero (n : Z) :
  0 < n -> exists b, In b (be_bytes n) /\ b <> 0.
Proof.
  intros Hn. unfold be_bytes. apply be_bytes_aux_nonzero.
  split; [exact Hn|].
  rewrite Nat2Z.inj_succ, Z2Nat.id by (apply Z.log2_nonneg).
  apply Z.log2_spec. exact Hn.
Qed.

Lemma decode_zero_key (s : string) :
  decode s = Some (repeat 0 32) ->
  s = "11111111111111111111111111111111".
Proof.
  unfold decode.
  destruct (leading_ones_split s) as [Hs Hrest].
  destruct (leading_ones s) as [zeroes rest]. cbn [fst snd] in *.
  destruct (digits_value rest 0) as [v|] eqn:Hv; [|discriminate].
  intros Hsome.
  assert (Hbytes : repeat 0 zeroes ++ be_bytes v = repeat 0 32) by congruence.
  clear Hsome.
  destruct Hrest as [-> | (c & r & -> & Hc)].
  - cbn in Hv. injection Hv as <-.
    change (be_bytes 0) with (@nil Z) in Hbytes. rewrite app_nil_r in Hbytes.
    apply (f_equal (@length Z)) in Hbytes. rewrite !repeat_length in Hbytes.
    subst zeroes s. reflexivity.
  - exfalso. cbn [digits_value] in Hv.
    destruct (digit c) as [d|] eqn:Hd; [|discriminate].
    pose proof (digit_positive c d Hc Hd) as Hpos.
    apply digits_value_grows in Hv; [|lia].
    destruct (be_bytes_nonzero v ltac:(lia)) as (b & Hin & Hb).
    assert (Hall : In b (repeat 0 32)).
    { rewrite <- Hbytes. apply in_or_app. right. exact Hin. }
    apply repeat_spec in Hall. contradiction.
Qed.

End ZeroKey.

Lemma new_default_key (str : string) :
  PublicKey.new str = Ok PublicKey.default ->
  str = PublicKey.toString PublicKey.default.
Proof.
  unfold PublicKey.new.
  destruct (Base58.decode str) as [bs|] eqn:Hdecode; [|discriminate].
  destruct (length bs =? 32)%nat; [|discriminate].
  intros [= ->]. rewrite default_string.
  apply decode_zero_key. exact Hdecode.
Qed.

(** C1 (as amended). Whenever the configured collection is set, is not
    the string of the unset sentinel and decodes to a key, and the SDK
    path does not deliver, the builder returns an instruction whose
    account list has exactly 10 entries in the order asset, current owner,
    delegate, collection, update authority, new owner, payer, system
    program, rent sysvar, instructions sysvar; the signers are exactly
    the current owner (index 1, not writable) and the payer (index 6,
    writable), the asset (index 0) is writable, and every other entry is
    neither signer nor writable.  The collection slot holds the
    configured collection. *)
Theorem builder_account_layout
    (w : SafeRetrieval.World) (s : SafeRetrieval.State)
    (owner asset destination collection : PublicKey) (str : string) :
  SafeRetrieval.env w !! "NFT_COLLECTION_ADDRESS" = Some str ->
  str <> "" ->
  str <> PublicKey.toString PublicKey.default ->
  PublicKey.new str = Ok collection ->
  SafeRetrieval.sdk_declines w s owner asset destination collection ->
  exists ix,
    snd (SafeRetrieval.createMetaplexCoreTransferInstruction w owner asset destination s) = Ok ix
    /\ length (keys ix) = 10%nat
    /\ pubkey <$> keys ix =
         [asset; owner; PublicKey.default; collection; owner; destination; owner;
          SystemProgram_programId; SYSVAR_RENT_PUBKEY; SYSVAR_INSTRUCTIONS_PUBKEY]
    /\ isSigner <$> keys ix =
         [false; true; false; false; false; false; true; false; false; false]
    /\ isWritable <$> keys ix =
         [true; false; false; false; false; false; true; false; false; false].
Proof.
  intros Henv Hne Hdef Hnew Hsdk.
  eexists. split; [exact (builder_manual w owner asset destination collection str s
                            Henv Hne Hdef Hnew Hsdk)|].
  cbn [keys SafeRetrieval.accounts]. repeat split.
Qed.

Lemma builder_account_layout_witness :
  SafeRetrieval.env (Demo.safe_world Demo.env_set None Demo.core_account)
    !! "NFT_COLLECTION_ADDRESS" = Some Demo.collection_string
  /\ exists ix,
       snd (SafeRetrieval.createMetaplexCoreTransferInstruction
              (Demo.safe_world Demo.env_set None Demo.core_account)
              Demo.signer Demo.asset Demo.destination Demo.start) = Ok ix
       /\ length (keys ix) = 10%nat
       /\ pubkey <$> keys ix =
            [Demo.asset; Demo.signer; PublicKey.default; Demo.collection; Demo.signer;
             Demo.destination; Demo.signer;
             SystemProgram_programId; SYSVAR_RENT_PUBKEY; SYSVAR_INSTRUCTIONS_PUBKEY]
       /\ isSigner <$> keys ix =
            [false; true; false; false; false; false; true; false; false; false]
       /\ isWritable <$> keys ix =
            [true; false; false; false; false; false; true; false; false; false].
Proof.
  split; [vm_compute; reflexivity|].
  apply (builder_account_layout
           (Demo.safe_world Demo.env_set None Demo.core_account) Demo.start
           Demo.signer Demo.asset Demo.destination Demo.collection Demo.collection_string).
  - vm_compute. reflexivity.
  - vm_compute. discriminate.
  - vm_compute. discriminate.
  - vm_compute. reflexivity.
  - intros factory Hf. vm_compute in Hf. discriminate.
Defined.

(** C1 as stated fails on both sides of the amendment.  The builder
    takes asset, owner and destination only and always requires a
    collection from the environment: when the variable holds the string
    of the unset key, which the module-level parse of line 82 accepts,
    it throws instead of producing ten accounts.  And with a collection
    configured and the SDK path delivering, it returns the SDK's
    instruction as it is, here one with a single account. *)
Lemma builder_layout_counterexample :
  (SafeRetrieval.loaded (Demo.safe_world Demo.env_sentinel None Demo.core_account)
   /\ snd (SafeRetrieval.createMetaplexCoreTransferInstruction
              (Demo.safe_world Demo.env_sentinel None Demo.core_account)
              Demo.signer Demo.asset Demo.destination Demo.start)
      = Throw (Error "Missing or invalid NFT collection address configuration.")
   /\ ~ exists ix,
          snd (SafeRetrieval.createMetaplexCoreTransferInstruction
                 (Demo.safe_world Demo.env_sentinel None Demo.core_account)
                 Demo.signer Demo.asset Demo.destination Demo.start) = Ok ix
          /\ length (keys ix) = 10%nat)
  /\ (SafeRetrieval.loaded
        (Demo.safe_world Demo.env_set (Some Demo.sdk_factory) Demo.core_account)
      /\ SafeRetrieval.env
           (Demo.safe_world Demo.env_set (Some Demo.sdk_factory) Demo.core_account)
           !! "NFT_COLLECTION_ADDRESS" = Some Demo.collection_string
      /\ snd (SafeRetrieval.createMetaplexCoreTransferInstruction
                 (Demo.safe_world Demo.env_set (Some Demo.sdk_factory) Demo.core_account)
                 Demo.signer Demo.asset Demo.destination (SafeRetrieval.initial true))
         = Ok Demo.sdk_instruction
      /\ length (keys Demo.sdk_instruction) = 1%nat).
Proof.
  assert (H : snd (SafeRetrieval.createMetaplexCoreTransferInstruction
            (Demo.safe_world Demo.env_sentinel None Demo.core_account)
            Demo.signer Demo.asset Demo.destination Demo.start)
     = Throw (Error "Missing or invalid NFT collection address configuration."))
    by (vm_compute; reflexivity).
  split.
  - split; [exists PublicKey.default; vm_compute; reflexivity|].
    split; [exact H|].
    intros [ix [Hix _]]. rewrite H in Hix. discriminate.
  - split; [exists Demo.collection; vm_compute; reflexivity|].
    split; [vm_compute; reflexivity|].
    split; [vm_compute; reflexivity | reflexivity].
Qed.

(** C2 (as amended). Every instruction the builder produces by its own
    construction (the SDK path not delivering) carries exactly 17 bytes
    of data: the 8-byte transfer discriminator, the flag byte 1, then
    exactly 8 bytes that are the little-endian encoding of the unsigned
    integer 1. *)
Theorem builder_instruction_data
    (w : SafeRetrieval.World) (s : SafeRetrieval.State)
    (owner asset destination : PublicKey) (ix : TransactionInstruction) :
  snd (SafeRetrieval.createMetaplexCoreTransferInstruction w owner asset destination s) = Ok ix ->
  (forall collection,
      PublicKey.new (default "" (SafeRetrieval.env w !! "NFT_COLLECTION_ADDRESS")) = Ok collection ->
      SafeRetrieval.sdk_declines w s owner asset destination collection) ->
  length (data ix) = 17%nat
  /\ take 8 (data ix) = [116; 97; 188; 150; 133; 175; 148; 44]
  /\ data ix !! 8%nat = Some 1
  /\ length (drop 9 (data ix)) = 8%nat
  /\ drop 9 (data ix) = BN.le_bytes 8 1
  /\ BN.le_value (drop 9 (data ix)) = 1.
Proof.
  intros Hrun Hsdk.
  assert (Hdata : data ix = [116; 97; 188; 150; 133; 175; 148; 44; 1; 1; 0; 0; 0; 0; 0; 0; 0]).
  { destruct (SafeRetrieval.env w !! "NFT_COLLECTION_ADDRESS") as [str|] eqn:Henv.
    - destruct (decide (str = "")) as [->|Hne].
      { rewrite (builder_unset w owner asset destination s) in Hrun
          by (right; left; exact Henv). discriminate. }
      destruct (decide (str = PublicKey.toString PublicKey.default)) as [->|Hdef].
      { rewrite (builder_unset w owner asset destination s) in Hrun
          by (right; right; exact Henv). discriminate. }
      destruct (PublicKey.new str) as [collection|e] eqn:Hnew.
      + rewrite (builder_manual w owner asset destination collection str s
                   Henv Hne Hdef Hnew (Hsdk collection Hnew)) in Hrun.
        injection Hrun as <-. reflexivity.
      + exfalso. revert Hrun.
        unfold SafeRetrieval.createMetaplexCoreTransferInstruction.
        rewrite (guard_set w str Henv Hne Hdef), Henv. cbn [default from_option id].
        unfold SafeRetrieval.console_log, SafeRetrieval.emit. run_eff.
        rewrite Hnew. discriminate.
    - rewrite (builder_unset w owner asset destination s) in Hrun
        by (left; exact Henv). discriminate. }
  rewrite Hdata. repeat split.
Qed.

Lemma builder_instruction_data_witness :
  exists ix,
    snd (SafeRetrieval.createMetaplexCoreTransferInstruction
           (Demo.safe_world Demo.env_set None Demo.core_account)
           Demo.signer Demo.asset Demo.destination Demo.start) = Ok ix
    /\ length (data ix) = 17%nat
    /\ take 8 (data ix) = [116; 97; 188; 150; 133; 175; 148; 44]
    /\ data ix !! 8%nat = Some 1
    /\ length (drop 9 (data ix)) = 8%nat
    /\ drop 9 (data ix) = BN.le_bytes 8 1
    /\ BN.le_value (drop 9 (data ix)) = 1.
Proof.
  eexists. split; [vm_compute; reflexivity|].
  apply (builder_instruction_data
           (Demo.safe_world Demo.env_set None Demo.core_account) Demo.start
           Demo.signer Demo.asset Demo.destination).
  - vm_compute. reflexivity.
  - intros collection _ factory Hf. vm_compute in Hf. discriminate.
Defined.

(** C2 as stated fails: when the SDK path delivers, the builder returns
    the SDK's instruction without looking at its data; here the data is
    two bytes, not the seventeen of the manual construction. *)
Lemma builder_sdk_data_counterexample :
  SafeRetrieval.loaded
    (Demo.safe_world Demo.env_set (Some Demo.sdk_factory) Demo.core_account)
  /\ exists ix,
       snd (SafeRetrieval.createMetaplexCoreTransferInstruction
              (Demo.safe_world Demo.env_set (Some Demo.sdk_factory) Demo.core_account)
              Demo.signer Demo.asset Demo.destination (SafeRetrieval.initial true))
       = Ok ix
       /\ data ix = [14; 0]
       /\ length (data ix) <> 17%nat
       /\ take 8 (data ix) <> [116; 97; 188; 150; 133; 175; 148; 44].
Proof.
  split; [exists Demo.collection; vm_compute; reflexivity|].
  exists Demo.sdk_instruction.
  split; [vm_compute; reflexivity|].
  split; [reflexivity|].
  split; cbn; discriminate.
Qed.

(** C4. The script's policy always requires a collection.  When the
    configured collection is absent, empty, equal to the string of the
    unset sentinel key, or any string that decodes to that key, the
    builder fails with the configuration error
    (["Missing or invalid NFT collection address configuration."])
    after two console lines only: no SDK call, no instruction
    constructed, no network call.  [createTransferProposal] then ends in
    an error without having built an instruction or submitted a
    proposal; that error is the configuration error unless deriving the
    signer address had already failed. *)
Theorem builder_rejects_unset_collection
    (w : SafeRetrieval.World) (s : SafeRetrieval.State)
    (owner asset destination : PublicKey) :
  SafeRetrieval.collection_unset w
  \/ (exists str,
        SafeRetrieval.env w !! "NFT_COLLECTION_ADDRESS" = Some str
        /\ PublicKey.new str = Ok PublicKey.default) ->
  SafeRetrieval.createMetaplexCoreTransferInstruction w owner asset destination s =
    (SafeRetrieval.mkState
       (SafeRetrieval.trace s ++
          [SafeRetrieval.ConsoleLog "Creating Metaplex Core transfer instruction...";
           SafeRetrieval.ConsoleError
             "ERROR: NFT_COLLECTION_ADDRESS is not set or is invalid in your .env file."])
       (SafeRetrieval.umiContext s) (SafeRetrieval.accountReads s) (SafeRetrieval.executions s),
     Throw (Error "Missing or invalid NFT collection address configuration."))
  /\ (exists events error,
        SafeRetrieval.createTransferProposal w s =
          (SafeRetrieval.mkState (SafeRetrieval.trace s ++ events)
             (SafeRetrieval.umiContext s) (SafeRetrieval.accountReads s)
             (SafeRetrieval.executions s),
           Throw error)
        /\ forallb (fun e => negb (SafeRetrieval.builds_or_submits e)) events = true
        /\ (error = Error "Missing or invalid NFT collection address configuration."
            \/ SafeRetrieval.findProgramAddress w
                 [utf8_encode "SafeSigner"; toBuffer (SafeRetrieval.SAFE_ADDRESS w)]
                 (SafeRetrieval.safeProgramId w) = Throw error)).
Proof.
  intros Hmissing.
  assert (Hunset : SafeRetrieval.collection_unset w).
  { destruct Hmissing as [Hunset | (str & Henv & Hnew)]; [exact Hunset|].
    right. right. rewrite Henv. f_equal. exact (new_default_key str Hnew). }
  clear Hmissing. split.
  - rewrite (builder_unset w owner asset destination s Hunset).
    rewrite <- app_assoc. reflexivity.
  - unfold SafeRetrieval.createTransferProposal, SafeRetrieval.findSafeSignerAddress.
    run_eff.
    destruct (SafeRetrieval.findProgramAddress w _ _) as [[signer bump]|e] eqn:Hpda.
    + rewrite (builder_unset w signer _ _ s Hunset).
      unfold SafeRetrieval.console_error, SafeRetrieval.emit. run_eff.
      cbn [SafeRetrieval.trace SafeRetrieval.umiContext SafeRetrieval.accountReads
             SafeRetrieval.executions].
      eexists. eexists. split; [rewrite <- !app_assoc; reflexivity|].
      split; [reflexivity|]. left. reflexivity.
    + unfold SafeRetrieval.console_error, SafeRetrieval.emit. run_eff.
      eexists. eexists. split; [reflexivity|].
      split; [reflexivity|]. right. reflexivity.
Qed.

Lemma builder_rejects_unset_collection_witness :
  SafeRetrieval.collection_unset (Demo.safe_world Demo.env_unset None Demo.core_account)
  /\ snd (SafeRetrieval.createMetaplexCoreTransferInstruction
            (Demo.safe_world Demo.env_unset None Demo.core_account)
            Demo.signer Demo.asset Demo.destination Demo.start)
     = Throw (Error "Missing or invalid NFT collection address configuration.").
Proof.
  assert (H : SafeRetrieval.collection_unset
                (Demo.safe_world Demo.env_unset None Demo.core_account))
    by (left; vm_compute; reflexivity).
  split; [exact H|].
  destruct (builder_rejects_unset_collection
              (Demo.safe_world Demo.env_unset None Demo.core_account) Demo.start
              Demo.signer Demo.asset Demo.destination (or_introl H)) as [Hrun _].
  rewrite Hrun. reflexivity.
Defined.

(** C8. The builder is deterministic: its result depends on the state
    through the global [umiContext] only, which it never writes, so a
    second call with the same arguments returns the same result as the
    first: the same program id, account list, flags and data bytes, or
    the same error. *)
Theorem builder_deterministic
    (w : SafeRetrieval.World) (s s' : SafeRetrieval.State)
    (owner asset destination : PublicKey) :
  SafeRetrieval.umiContext s = SafeRetrieval.umiContext s' ->
  snd (SafeRetrieval.createMetaplexCoreTransferInstruction w owner asset destination s)
  = snd (SafeRetrieval.createMetaplexCoreTransferInstruction w owner asset destination s')
  /\ snd (SafeRetrieval.createMetaplexCoreTransferInstruction w owner asset destination
            (fst (SafeRetrieval.createMetaplexCoreTransferInstruction
                    w owner asset destination s)))
     = snd (SafeRetrieval.createMetaplexCoreTransferInstruction w owner asset destination s).
Proof.
  intros Hctx. split.
  - apply (builder_state w owner asset destination s s' Hctx).
  - destruct (builder_state w owner asset destination s s eq_refl) as [Hkeep _].
    apply (builder_state w owner asset destination _ s Hkeep).
Qed.

Lemma builder_deterministic_witness :
  snd (SafeRetrieval.createMetaplexCoreTransferInstruction
         (Demo.safe_world Demo.env_set None Demo.core_account)
         Demo.signer Demo.asset Demo.destination Demo.start)
  = snd (SafeRetrieval.createMetaplexCoreTransferInstruction
           (Demo.safe_world Demo.env_set None Demo.core_account)
           Demo.signer Demo.asset Demo.destination
           (SafeRetrieval.mkState [SafeRetrieval.Sleep 5000] false 2 1))
  /\ snd (SafeRetrieval.createMetaplexCoreTransferInstruction
            (Demo.safe_world Demo.env_set None Demo.core_account)
            Demo.signer Demo.asset Demo.destination
            (fst (SafeRetrieval.createMetaplexCoreTransferInstruction
                    (Demo.safe_world Demo.env_set None Demo.core_account)
                    Demo.signer Demo.asset Demo.destination Demo.start)))
     = snd (SafeRetrieval.createMetaplexCoreTransferInstruction
              (Demo.safe_world Demo.env_set None Demo.core_account)
              Demo.signer Demo.asset Demo.destination Demo.start).
Proof.
  apply (builder_deterministic
           (Demo.safe_world Demo.env_set None Demo.core_account)
           Demo.start (SafeRetrieval.mkState [SafeRetrieval.Sleep 5000] false 2 1)
           Demo.signer Demo.asset Demo.destination).
  reflexivity.
Defined.

(** C10. Every instruction of the manual fallback construction carries
    the safe signer address given as current owner at account indices 1
    (current owner), 4 (update authority) and 6 (payer); the owner entry
    is a signer that is not writable, the payer entry a writable signer. *)
Theorem manual_builder_signer_slots
    (s : SafeRetrieval.State) (owner asset destination collection : PublicKey) :
  exists ix,
    snd (SafeRetrieval.manualInstruction owner asset destination collection s) = Ok ix
    /\ keys ix !! 1%nat = Some {| pubkey := owner; isWritable := false; isSigner := true |}
    /\ pubkey <$> keys ix !! 4%nat = Some owner
    /\ keys ix !! 6%nat = Some {| pubkey := owner; isWritable := true; isSigner := true |}.
Proof.
  rewrite manualInstruction_run. eexists. split; [reflexivity|].
  cbn [keys SafeRetrieval.accounts]. repeat split.
Qed.

(** ** The retry loop of [executeProposal] *)

Section Retry.

Import SafeRetrieval.

Variable w : World.

Lemma console_error_run (msg : string) (s : State) :
  console_error msg s =
  (mkState (trace s ++ [ConsoleError msg]) (umiContext s) (accountReads s) (executions s),
   Ok tt).
Proof. reflexivity. Qed.

Lemma console_error_each_run (lines : list string) (s : State) :
  console_error_each lines s =
  (mkState (trace s ++ (ConsoleError <$> lines))
     (umiContext s) (accountReads s) (executions s), Ok tt).
Proof.
  revert s. induction lines as [|l lines IH]; intros s.
  - cbn. rewrite app_nil_r. destruct s; reflexivity.
  - cbn [console_error_each]. unfold console_error, emit. run_eff.
    rewrite IH. cbn [trace umiContext accountReads executions fmap list_fmap].
    rewrite <- app_assoc. reflexivity.
Qed.

Lemma timeline_console_errors (lines : list string) :
  timeline (ConsoleError <$> lines) = [].
Proof. induction lines as [|l lines IH]; [reflexivity | exact IH]. Qed.

Lemma timeline_app (xs ys : list Event) :
  timeline (xs ++ ys) = timeline xs ++ timeline ys.
Proof. unfold timeline. apply List.filter_app. Qed.

(** What the [catch] block prints for the attached logs. *)
Lemma logs_run (error : JsError) (s : State) :
  exists printed,
    timeline printed = []
    /\ match logs error with
       | Some lines => console_error "Error logs:" >> console_error_each lines
       | None => ret tt
       end s
       = (mkState (trace s ++ printed) (umiContext s) (accountReads s) (executions s),
          Ok tt).
Proof.
  destruct (logs error) as [lines|].
  - exists (ConsoleError "Error logs:" :: (ConsoleError <$> lines)).
    split; [apply (timeline_console_errors lines)|].
    unfold console_error, emit. run_eff. rewrite console_error_each_run.
    cbn [trace umiContext accountReads executions].
    rewrite <- !app_assoc. reflexivity.
  - exists []. split; [reflexivity|].
    unfold ret. rewrite app_nil_r. destruct s; reflexivity.
Qed.

(** One failed attempt: the call is recorded, the error printed, and
    the loop goes on to wait and retry, or rethrows. *)
Lemma loop_step_failure (p : PublicKey) (maxRetries attempt : Z) (fuel : nat)
    (s : State) (error : JsError) :
  attempt <= maxRetries ->
  safe_executeProposal w (executions s) p = Throw error ->
  exists printed,
    timeline printed = []
    /\ executeProposal_loop w (S fuel) p maxRetries attempt s =
       (if attempt <? maxRetries
        then sleep (waitTime attempt) >>
             executeProposal_loop w fuel p maxRetries (attempt + 1)
        else throw error)
         (mkState (trace s ++ ExecuteProposal p :: printed) (umiContext s)
            (accountReads s) (S (executions s))).
Proof.
  intros Hle Hcall.
  destruct (logs_run error
              (mkState ((trace s ++ [ExecuteProposal p]) ++ [ConsoleError (message error)])
                 (umiContext s) (accountReads s) (S (executions s))))
    as [printed [Hquiet Hrun]].
  exists (ConsoleError (message error) :: printed). split; [exact Hquiet|].
  cbn [executeProposal_loop].
  destruct (Z.leb_spec attempt maxRetries) as [_|Hgt]; [|lia].
  unfold try_catch at 1. unfold bind at 1.
  unfold safe_executeProposal_call at 1. rewrite Hcall.
  rewrite (bind_ok _ _ _ _ _ (console_error_run _ _)).
  rewrite (bind_ok _ _ _ _ _ Hrun).
  cbn [trace umiContext accountReads executions].
  rewrite <- !app_assoc. reflexivity.
Qed.

Lemma loop_step_success (p : PublicKey) (maxRetries attempt : Z) (fuel : nat)
    (s : State) (txid : string) :
  attempt <= maxRetries ->
  safe_executeProposal w (executions s) p = Ok txid ->
  snd (executeProposal_loop w (S fuel) p maxRetries attempt s) = Ok (Returned (Some txid)).
Proof.
  intros Hle Hcall. cbn [executeProposal_loop].
  destruct (Z.leb_spec attempt maxRetries) as [_|Hgt]; [|lia].
  unfold safe_executeProposal_call, console_log, emit. run_eff.
  rewrite Hcall. reflexivity.
Qed.

(** The loop never runs out of the fuel [executeProposal] gives it. *)
Lemma executeProposal_loop_fuel (p : PublicKey) (maxRetries : Z) :
  forall (fuel : nat) (attempt : Z) (s : State),
    (Z.to_nat (maxRetries - attempt + 1) < fuel)%nat ->
    snd (executeProposal_loop w fuel p maxRetries attempt s) <> Ok OutOfFuel.
Proof.
  induction fuel as [|fuel IH]; intros attempt s Hfuel; [lia|].
  destruct (Z.le_gt_cases attempt maxRetries) as [Hle|Hgt].
  - destruct (safe_executeProposal w (executions s) p) as [txid|error] eqn:Hcall.
    + rewrite (loop_step_success p maxRetries attempt fuel s txid Hle Hcall).
      discriminate.
    + destruct (loop_step_failure p maxRetries attempt fuel s error Hle Hcall)
        as [printed [_ ->]].
      destruct (Z.ltb_spec attempt maxRetries) as [Hlt|Hge]; [|cbn; discriminate].
      unfold sleep, emit. run_eff. cbn [trace umiContext accountReads executions].
      apply IH. lia.
  - cbn [executeProposal_loop].
    destruct (Z.leb_spec attempt maxRetries) as [Hle|_]; [lia|]. cbn. discriminate.
Qed.

Lemma executeProposal_total (p : PublicKey) (maxRetries : Z) (s : State) :
  snd (executeProposal w p maxRetries s) <> Ok OutOfFuel.
Proof. unfold executeProposal. apply executeProposal_loop_fuel. lia. Qed.

(** A submitter that fails on every call. *)
Variable failure : nat -> JsError.
Variable p : PublicKey.
Hypothesis always_fails : forall k, safe_executeProposal w k p = Throw (failure k).

(** [S n] attempts remain: all of them are made, each but the last is
    followed by its wait, and the last error is rethrown. *)
Lemma loop_all_fail :
  forall (n fuel : nat) (attempt : Z) (s : State),
    (n < fuel)%nat ->
    exists events,
      executeProposal_loop w fuel p (attempt + Z.of_nat n) attempt s =
        (mkState (trace s ++ events) (umiContext s) (accountReads s)
           (executions s + S n),
         Throw (failure (executions s + n)))
      /\ timeline events = failing_timeline p (S n) attempt.
Proof.
  induction n as [|n IH]; intros fuel attempt s Hfuel.
  - destruct fuel as [|fuel]; [lia|].
    destruct (loop_step_failure p (attempt + Z.of_nat 0) attempt fuel s
                (failure (executions s)) ltac:(lia) (always_fails _))
      as [printed [Hquiet ->]].
    destruct (Z.ltb_spec attempt (attempt + Z.of_nat 0)) as [Hlt|_]; [lia|].
    exists (ExecuteProposal p :: printed). split.
    + unfold throw. rewrite !Nat.add_0_r, Nat.add_1_r. reflexivity.
    + change (timeline (ExecuteProposal p :: printed))
        with (ExecuteProposal p :: timeline printed).
      rewrite Hquiet. reflexivity.
  - destruct fuel as [|fuel]; [lia|].
    destruct (loop_step_failure p (attempt + Z.of_nat (S n)) attempt fuel s
                (failure (executions s)) ltac:(lia) (always_fails _))
      as [printed [Hquiet ->]].
    destruct (Z.ltb_spec attempt (attempt + Z.of_nat (S n))) as [_|Hge]; [|lia].
    unfold sleep, emit. run_eff. cbn [trace umiContext accountReads executions].
    replace (attempt + Z.of_nat (S n)) with (attempt + 1 + Z.of_nat n) by lia.
    destruct (IH fuel (attempt + 1)
                (mkState ((trace s ++ ExecuteProposal p :: printed)
                            ++ [Sleep (waitTime attempt)])
                   (umiContext s) (accountReads s) (S (executions s)))
                ltac:(lia)) as [events [-> Htimeline]].
    cbn [trace umiContext accountReads executions].
    exists ((ExecuteProposal p :: printed) ++ Sleep (waitTime attempt) :: events).
    split.
    + rewrite <- !app_assoc. cbn [app].
      replace (S (executions s) + S n)%nat with (executions s + S (S n))%nat by lia.
      replace (S (executions s) + n)%nat with (executions s + S n)%nat by lia.
      reflexivity.
    + rewrite timeline_app.
      change (timeline (ExecuteProposal p :: printed))
        with (ExecuteProposal p :: timeline printed).
      change (timeline (Sleep (waitTime attempt) :: events))
        with (Sleep (waitTime attempt) :: timeline events).
      rewrite Hquiet, Htimeline. reflexivity.
Qed.

End Retry.

Lemma attempts_of_failing_timeline (p : PublicKey) (n : nat) (attempt : Z) :
  length (List.filter SafeRetrieval.is_attempt (SafeRetrieval.failing_timeline p n attempt)) = n.
Proof.
  revert attempt. induction n as [|n IH]; intros attempt; [reflexivity|].
  destruct n as [|n]; [reflexivity|].
  change (SafeRetrieval.failing_timeline p (S (S n)) attempt)
    with (SafeRetrieval.ExecuteProposal p :: SafeRetrieval.Sleep (SafeRetrieval.waitTime attempt)
            :: SafeRetrieval.failing_timeline p (S n) (attempt + 1)).
  change (length (List.filter SafeRetrieval.is_attempt
                    (SafeRetrieval.ExecuteProposal p
                       :: SafeRetrieval.Sleep (SafeRetrieval.waitTime attempt)
                       :: SafeRetrieval.failing_timeline p (S n) (attempt + 1))))
    with (S (length (List.filter SafeRetrieval.is_attempt
                       (SafeRetrieval.failing_timeline p (S n) (attempt + 1))))).
  rewrite IH. reflexivity.
Qed.

Lemma attempts_in_timeline (events : list SafeRetrieval.Event) :
  List.filter SafeRetrieval.is_attempt (SafeRetrieval.timeline events)
  = List.filter SafeRetrieval.is_attempt events.
Proof.
  unfold SafeRetrieval.timeline.
  induction events as [|e events IH]; [reflexivity|].
  destruct e; cbn [List.filter SafeRetrieval.is_timeline SafeRetrieval.is_attempt];
    rewrite IH; reflexivity.
Qed.

Lemma waitTime_first : (SafeRetrieval.waitTime 1 == 5000)%Q.
Proof. reflexivity. Qed.

Lemma waitTime_grows (attempt : Z) :
  1 <= attempt ->
  (SafeRetrieval.waitTime attempt < SafeRetrieval.waitTime (attempt + 1))%Q.
Proof.
  intros Hattempt. unfold SafeRetrieval.waitTime.
  replace (attempt + 1 - 1) with ((attempt - 1) + 1) by lia.
  rewrite Qpower_plus by discriminate.
  assert (Hpos : (0 < (3 # 2) ^ (attempt - 1))%Q) by (apply Qpower_0_lt; reflexivity).
  change ((3 # 2) ^ 1)%Q with (3 # 2)%Q.
  set (x := ((3 # 2) ^ (attempt - 1))%Q) in *. lra.
Qed.

(** C3. For every attempt budget [N >= 1] and a submitter that fails on
    every call, [executeProposal] makes exactly [N] submission attempts,
    waits [5000 * 1.5^(attempt-1)] milliseconds after each attempt but
    the last (a strictly increasing delay), and after the [N]-th failure
    rethrows the error of that last attempt.  Delays are modelled in
    exact rational arithmetic. *)
Theorem executeProposal_exhausts_attempts
    (w : SafeRetrieval.World) (s : SafeRetrieval.State) (p : PublicKey)
    (N : Z) (failure : nat -> JsError) :
  1 <= N ->
  (forall k, SafeRetrieval.safe_executeProposal w k p = Throw (failure k)) ->
  exists events,
    SafeRetrieval.executeProposal w p N s =
      (SafeRetrieval.mkState (SafeRetrieval.trace s ++ events)
         (SafeRetrieval.umiContext s) (SafeRetrieval.accountReads s)
         (SafeRetrieval.executions s + Z.to_nat N),
       Throw (failure (SafeRetrieval.executions s + Z.to_nat N - 1)%nat))
    /\ length (List.filter SafeRetrieval.is_attempt events) = Z.to_nat N
    /\ SafeRetrieval.timeline events = SafeRetrieval.failing_timeline p (Z.to_nat N) 1
    /\ (SafeRetrieval.waitTime 1 == 5000)%Q
    /\ (forall attempt,
          1 <= attempt ->
          (SafeRetrieval.waitTime attempt < SafeRetrieval.waitTime (attempt + 1))%Q
          /\ (SafeRetrieval.waitTime (attempt + 1)
              == SafeRetrieval.waitTime attempt * (3 # 2))%Q).
Proof.
  intros HN Hfail.
  unfold SafeRetrieval.executeProposal.
  destruct (loop_all_fail w failure p Hfail (Z.to_nat N - 1) (S (Z.to_nat N)) 1 s
              ltac:(lia)) as [events [Hrun Htimeline]].
  replace (1 + Z.of_nat (Z.to_nat N - 1)) with N in Hrun by lia.
  replace (S (Z.to_nat N - 1)) with (Z.to_nat N) in * by lia.
  replace (SafeRetrieval.executions s + (Z.to_nat N - 1))%nat
    with (SafeRetrieval.executions s + Z.to_nat N - 1)%nat in Hrun by lia.
  exists events. split; [exact Hrun|].
  split; [rewrite <- attempts_in_timeline, Htimeline;
          apply attempts_of_failing_timeline|].
  split; [exact Htimeline|].
  split; [exact waitTime_first|].
  intros attempt Hattempt. split; [exact (waitTime_grows attempt Hattempt)|].
  unfold SafeRetrieval.waitTime.
  replace (attempt + 1 - 1) with ((attempt - 1) + 1) by lia.
  rewrite Qpower_plus by discriminate.
  change ((3 # 2) ^ 1)%Q with (3 # 2)%Q. ring.
Qed.

Lemma executeProposal_exhausts_attempts_witness :
  exists events,
    SafeRetrieval.executeProposal
      (Demo.safe_world Demo.env_set None Demo.core_account) Demo.proposal 3 Demo.start =
      (SafeRetrieval.mkState (SafeRetrieval.trace Demo.start ++ events) false 0%nat 3%nat,
       Throw (Demo.simulation_failed 2))
    /\ length (List.filter SafeRetrieval.is_attempt events) = 3%nat
    /\ SafeRetrieval.timeline events =
         [SafeRetrieval.ExecuteProposal Demo.proposal;
          SafeRetrieval.Sleep (SafeRetrieval.waitTime 1);
          SafeRetrieval.ExecuteProposal Demo.proposal;
          SafeRetrieval.Sleep (SafeRetrieval.waitTime 2);
          SafeRetrieval.ExecuteProposal Demo.proposal].
Proof.
  destruct (executeProposal_exhausts_attempts
              (Demo.safe_world Demo.env_set None Demo.core_account)
              Demo.start Demo.proposal 3 Demo.simulation_failed
              ltac:(lia) (fun k => eq_refl))
    as [events [Hrun [Hcount [Htimeline _]]]].
  exists events. split; [exact Hrun|]. split; [exact Hcount|exact Htimeline].
Defined.

(** C9. With a non-positive attempt budget ([maxRetries = 0] or below)
    the loop body of [executeProposal] never runs: no submission
    attempt, no event at all, and the function returns without a
    transaction id ([undefined]) and without raising an error. *)
Theorem executeProposal_without_budget
    (w : SafeRetrieval.World) (s : SafeRetrieval.State) (p : PublicKey) (maxRetries : Z) :
  maxRetries <= 0 ->
  SafeRetrieval.executeProposal w p maxRetries s = (s, Ok (SafeRetrieval.Returned None)).
Proof.
  intros Hbudget. unfold SafeRetrieval.executeProposal.
  replace (Z.to_nat maxRetries) with 0%nat by lia.
  cbn [SafeRetrieval.executeProposal_loop].
  destruct (Z.leb_spec 1 maxRetries) as [Hle|_]; [lia|]. reflexivity.
Qed.

Lemma executeProposal_without_budget_witness :
  SafeRetrieval.executeProposal
    (Demo.safe_world Demo.env_set None Demo.core_account) Demo.proposal 0 Demo.start
  = (Demo.start, Ok (SafeRetrieval.Returned None)).
Proof.
  apply (executeProposal_without_budget
           (Demo.safe_world Demo.env_set None Demo.core_account)
           Demo.start Demo.proposal 0).
  lia.
Defined.

(** ** The direct transfer *)

Section Direct.

Import DirectTransfer.

Variable w : World.

Let destination : string := PublicKey.toBase58 (DESTINATION_WALLET w).
Let address : string := PublicKey.toBase58 (ASSET_ADDRESS w).

Lemma direct_errors_run (lines : list string) (s : State) :
  console_error_each lines s =
  (mkState (trace s ++ (ConsoleError <$> lines)) (fetches s) (umis s), Ok tt).
Proof.
  revert s. induction lines as [|l lines IH]; intros s.
  - cbn. rewrite app_nil_r. destruct s; reflexivity.
  - cbn [console_error_each]. unfold console_error, emit. run_eff.
    rewrite IH. cbn [trace fetches umis fmap list_fmap].
    rewrite <- app_assoc. reflexivity.
Qed.

Lemma errors_not_send (lines : list string) :
  existsb is_send (ConsoleError <$> lines) = false.
Proof. induction lines as [|l lines IH]; [reflexivity | exact IH]. Qed.

Lemma errors_not_read (expected : string) (lines : list string) :
  existsb (read_shows expected) (ConsoleError <$> lines) = false.
Proof. induction lines as [|l lines IH]; [reflexivity | exact IH]. Qed.

(** [verifyAssetOwnership] makes one read and answers whether that
    read shows the destination as owner. *)
Lemma verify_run (s : State) :
  exists events,
    verifyAssetOwnership w (ASSET_ADDRESS w) (DESTINATION_WALLET w) s =
      (mkState (trace s ++ events) (S (fetches s)) (umis s),
       Ok (existsb (read_shows destination) events))
    /\ existsb is_send events = false.
Proof.
  unfold verifyAssetOwnership, umi_fetchAsset, console_log, console_error, emit.
  run_eff.
  destruct (fetchAsset w (fetches s) (PublicKey.toString (ASSET_ADDRESS w)))
    as [[a|]|e] eqn:Hread; cbn [trace fetches umis].
  - exists [FetchAsset (PublicKey.toString (ASSET_ADDRESS w)) (Ok (Some a))].
    split; [|reflexivity].
    cbn [existsb read_shows owned_by]. rewrite orb_false_r. reflexivity.
  - exists [FetchAsset (PublicKey.toString (ASSET_ADDRESS w)) (Ok None);
            ConsoleLog "Could not find asset"].
    split; [|reflexivity]. rewrite <- app_assoc. reflexivity.
  - exists [FetchAsset (PublicKey.toString (ASSET_ADDRESS w)) (Throw e);
            ConsoleError "Error verifying asset ownership:"].
    split; [|reflexivity]. rewrite <- app_assoc. reflexivity.
Qed.

(** The [catch] block never submits, always returns a boolean, and
    that boolean is whether its own read showed the destination. *)
Lemma recover_run (error : JsError) (s : State) :
  exists events fs us,
    recoverFromError w error s =
      (mkState (trace s ++ events) fs us,
       Ok (JsBool (existsb (read_shows destination) events)))
    /\ existsb is_send events = false.
Proof.
  unfold recoverFromError.
  rewrite (bind_ok _ _ _ _ _ (eq_refl : console_error "Transfer failed" s = _)).
  match goal with
  | |- context [bind (console_error (message error)) ?k ?st] =>
      rewrite (bind_ok (console_error (message error)) k st _ tt eq_refl)
  end.
  cbn [trace fetches umis].
  set (s1 := mkState _ _ _).
  assert (Hlogs : exists printed,
             match logs error with
             | Some lines => console_error_each lines
             | None => ret tt
             end s1 = (mkState (trace s1 ++ printed) (fetches s1) (umis s1), Ok tt)
             /\ existsb is_send printed = false
             /\ existsb (read_shows destination) printed = false).
  { destruct (logs error) as [lines|].
    - exists (ConsoleError <$> lines). rewrite direct_errors_run.
      split; [reflexivity|]. split; [apply errors_not_send | apply errors_not_read].
    - exists []. unfold ret. rewrite app_nil_r. destruct s1; repeat split. }
  destruct Hlogs as [printed [Hrun [Hsend Hread]]].
  rewrite (bind_ok _ _ _ _ _ Hrun). subst s1. cbn [trace fetches umis].
  unfold try_catch, createUmi_call. unfold bind at 1. cbn [trace fetches umis].
  destruct (createUmi w (umis s)) as [[]|e].
  - unfold sleep, emit. run_eff. cbn [trace fetches umis].
    match goal with
    | |- context [verifyAssetOwnership w _ _ ?st] =>
        destruct (verify_run st) as [events [Hverify Hquiet]]; rewrite Hverify
    end.
    cbn [trace fetches umis].
    exists (ConsoleError "Transfer failed" :: ConsoleError (message error)
              :: printed ++ CreateUmi :: Sleep 5000 :: events).
    eexists. eexists. split.
    + replace (existsb (read_shows destination)
                 (ConsoleError "Transfer failed" :: ConsoleError (message error)
                    :: printed ++ CreateUmi :: Sleep 5000 :: events))
        with (existsb (read_shows destination) events)
        by (cbn [existsb read_shows orb]; rewrite existsb_app, Hread; reflexivity).
      destruct (existsb (read_shows destination) events);
        rewrite <- !app_assoc; reflexivity.
    + cbn [existsb is_send orb]. rewrite existsb_app, Hsend. exact Hquiet.
  - unfold console_error, emit. run_eff. cbn [trace fetches umis].
    exists (ConsoleError "Transfer failed" :: ConsoleError (message error)
              :: printed ++ [CreateUmi;
                             ConsoleError "Error while trying to verify final state:"]).
    eexists. eexists. split.
    + replace (existsb (read_shows destination)
                 (ConsoleError "Transfer failed" :: ConsoleError (message error)
                    :: printed ++ [CreateUmi;
                         ConsoleError "Error while trying to verify final state:"]))
        with false
        by (cbn [existsb read_shows orb]; rewrite existsb_app, Hread; reflexivity).
      rewrite <- !app_assoc; reflexivity.
    + cbn [existsb is_send orb]. rewrite existsb_app, Hsend. reflexivity.
Qed.

(** After the submission: the wait and the reads.  No further
    submission; either a boolean that tells whether a read showed the
    destination, or an exception of the second read after no read
    showed it. *)
Lemma confirm_run (s : State) :
  exists events fs us,
    existsb is_send events = false
    /\ (confirmTransfer w s =
          (mkState (trace s ++ events) fs us,
           Ok (JsBool (existsb (read_shows destination) events)))
        \/ exists e,
             confirmTransfer w s = (mkState (trace s ++ events) fs us, Throw e)
             /\ existsb (read_shows destination) events = false).
Proof.
  unfold confirmTransfer.
  rewrite (bind_ok _ _ _ _ _ (eq_refl : sleep 5000 s = _)).
  match goal with
  | |- context [bind (verifyAssetOwnership w _ _) _ ?st] =>
      destruct (verify_run st) as [events [Hverify Hquiet]];
      rewrite (bind_ok _ _ _ _ _ Hverify)
  end.
  cbn [trace fetches umis].
  destruct (existsb (read_shows destination) events) eqn:Hshown.
  - exists (Sleep 5000 :: events
              ++ [ConsoleLog
                    "Transfer confirmed! Asset is now owned by the destination wallet."]).
    eexists. eexists. split.
    + cbn [existsb is_send orb]. rewrite existsb_app, Hquiet. reflexivity.
    + left. unfold console_log, emit. run_eff. cbn [trace fetches umis].
      replace (existsb (read_shows destination) (Sleep 5000 :: events ++ _)) with true
        by (cbn [existsb read_shows orb]; rewrite existsb_app, Hshown; reflexivity).
      rewrite <- !app_assoc. reflexivity.
  - unfold console_log, emit, umi_fetchAsset. run_eff. cbn [trace fetches umis].
    destruct (fetchAsset w (S (fetches s)) (PublicKey.toBase58 (ASSET_ADDRESS w)))
      as [asset|e] eqn:Hagain.
    + destruct (owned_by (PublicKey.toBase58 (DESTINATION_WALLET w)) asset) eqn:Howned.
      * exists (Sleep 5000 :: events
                  ++ [ConsoleLog "Asset transfer not confirmed.";
                      FetchAsset (PublicKey.toBase58 (ASSET_ADDRESS w)) (Ok asset);
                      ConsoleLog "On second check, transfer was successful!"]).
        eexists. eexists. split.
        -- cbn [existsb is_send orb]. rewrite existsb_app, Hquiet. reflexivity.
        -- left. cbn [trace fetches umis].
           replace (existsb (read_shows destination) (Sleep 5000 :: events ++ _)) with true
             by (cbn [existsb read_shows orb]; rewrite existsb_app, Hshown;
                 cbn [existsb read_shows orb]; fold destination in Howned;
                 rewrite Howned; reflexivity).
           rewrite <- !app_assoc. reflexivity.
      * exists (Sleep 5000 :: events
                  ++ [ConsoleLog "Asset transfer not confirmed.";
                      FetchAsset (PublicKey.toBase58 (ASSET_ADDRESS w)) (Ok asset)]).
        eexists. eexists. split.
        -- cbn [existsb is_send orb]. rewrite existsb_app, Hquiet. reflexivity.
        -- left. cbn [trace fetches umis].
           replace (existsb (read_shows destination) (Sleep 5000 :: events ++ _)) with false
             by (cbn [existsb read_shows orb]; rewrite existsb_app, Hshown;
                 cbn [existsb read_shows orb]; fold destination in Howned;
                 rewrite Howned; reflexivity).
           rewrite <- !app_assoc. reflexivity.
    + exists (Sleep 5000 :: events
                ++ [ConsoleLog "Asset transfer not confirmed.";
                    FetchAsset (PublicKey.toBase58 (ASSET_ADDRESS w)) (Throw e)]).
      eexists. eexists. split.
      * cbn [existsb is_send orb]. rewrite existsb_app, Hquiet. reflexivity.
      * right. exists e. split.
        -- rewrite <- !app_assoc. reflexivity.
        -- cbn [existsb read_shows orb]. rewrite existsb_app, Hshown. reflexivity.
Qed.

(** The submission records itself, swallows a client-side error and
    leaves the counters alone. *)
Lemma submit_run (params : TransferV1Input.t) (s : State) :
  exists printed signature,
    submitTransfer w params s =
      (mkState (trace s ++ SendAndConfirm params :: printed) (fetches s) (umis s),
       Ok signature)
    /\ existsb is_send printed = false
    /\ existsb (read_shows destination) printed = false.
Proof.
  unfold submitTransfer, console_log, console_warn, emit. run_eff.
  cbn [trace fetches umis].
  destruct (sendAndConfirm w params) as [signature|e]; cbn [trace fetches umis].
  - exists [ConsoleLog "Transaction sent. Signature:"]. eexists.
    split; [rewrite <- !app_assoc; reflexivity|]. split; reflexivity.
  - exists [ConsoleWarn "Client-side error:"]. eexists.
    split; [rewrite <- !app_assoc; reflexivity|]. split; reflexivity.
Qed.


(** From the submission on: the trace grows by the submission and
    what follows it, and the result is the boolean telling whether a
    read after the submission showed the destination as owner. *)
Lemma submission_outcome (params : TransferV1Input.t) (s : State) :
  exists rest fs us,
    try_catch (bind (submitTransfer w params) (fun _ => confirmTransfer w))
      (recoverFromError w) s
    = (mkState (trace s ++ SendAndConfirm params :: rest) fs us,
       Ok (JsBool (existsb (read_shows destination) rest))).
Proof.
  rewrite try_catch_bind.
  destruct (submit_run params s) as (printed & signature & -> & _ & Hprinted).
  unfold try_catch.
  match goal with
  | |- context [confirmTransfer w ?st] =>
      destruct (confirm_run st) as (events & fs & us & _ & [Hok | (e & Hthrow & Hnone)])
  end.
  - rewrite Hok. cbn [trace fetches umis].
    exists (printed ++ events), fs, us.
    rewrite existsb_app, Hprinted. cbn [orb].
    rewrite <- app_assoc. reflexivity.
  - rewrite Hthrow. cbn [trace fetches umis].
    match goal with
    | |- context [recoverFromError w e ?st] =>
        destruct (recover_run e st) as (events' & fs' & us' & -> & _)
    end.
    cbn [trace fetches umis].
    exists (printed ++ events ++ events'), fs', us'.
    rewrite !existsb_app, Hprinted, Hnone. cbn [orb].
    rewrite <- !app_assoc. reflexivity.
Qed.




End Direct.



(** C7 (as amended). When the script reaches its first read of the
    asset (the balance read answers at least 0.01 SOL and the client is
    set up) and that read shows the destination as owner, [transferNFT]
    short-circuits: it returns the "no transfer needed" message after
    four events, none of which is a submission. *)
Theorem transfer_short_circuits
    (w : DirectTransfer.World) (balance : Z) (asset : Asset.t) :
  DirectTransfer.getBalance w = Ok balance ->
  10000000 <= balance ->
  DirectTransfer.createUmi w 0 = Ok tt ->
  DirectTransfer.fetchAsset w 0 (PublicKey.toBase58 (DirectTransfer.ASSET_ADDRESS w))
    = Ok (Some asset) ->
  Asset.owner asset = PublicKey.toBase58 (DirectTransfer.DESTINATION_WALLET w) ->
  DirectTransfer.transferNFT w DirectTransfer.initial =
    (DirectTransfer.mkState
       [DirectTransfer.GetBalance; DirectTransfer.CreateUmi;
        DirectTransfer.FetchAsset
          (PublicKey.toBase58 (DirectTransfer.ASSET_ADDRESS w)) (Ok (Some asset));
        DirectTransfer.ConsoleLog "No transfer needed."]
       1 1,
     Ok (DirectTransfer.JsString "No transfer needed - already owned by destination wallet"))
  /\ existsb DirectTransfer.is_send
       (DirectTransfer.trace (fst (DirectTransfer.transferNFT w DirectTransfer.initial)))
     = false.
Proof.
  intros Hbalance Hfunded Humi Hread Howner.
  assert (Hrun : DirectTransfer.transferNFT w DirectTransfer.initial =
    (DirectTransfer.mkState
       [DirectTransfer.GetBalance; DirectTransfer.CreateUmi;
        DirectTransfer.FetchAsset
          (PublicKey.toBase58 (DirectTransfer.ASSET_ADDRESS w)) (Ok (Some asset));
        DirectTransfer.ConsoleLog "No transfer needed."]
       1 1,
     Ok (DirectTransfer.JsString "No transfer needed - already owned by destination wallet"))).
  { unfold DirectTransfer.transferNFT. rewrite try_catch_bind.
    change ((DirectTransfer.emit DirectTransfer.GetBalance
             >> liftR (DirectTransfer.getBalance w)) DirectTransfer.initial)
      with (DirectTransfer.mkState [DirectTransfer.GetBalance] 0 0,
            DirectTransfer.getBalance w).
    rewrite Hbalance.
    destruct (Z.ltb_spec balance 10000000) as [Hlow|_]; [lia|].
    rewrite try_catch_bind. unfold DirectTransfer.createUmi_call at 1.
    cbn [DirectTransfer.trace DirectTransfer.fetches DirectTransfer.umis app].
    rewrite Humi, try_catch_bind. unfold DirectTransfer.umi_fetchAsset at 1.
    cbn [DirectTransfer.trace DirectTransfer.fetches DirectTransfer.umis app].
    rewrite Hread, Howner, String.eqb_refl. reflexivity. }
  rewrite Hrun. split; reflexivity.
Qed.

Lemma transfer_short_circuits_witness :
  DirectTransfer.transferNFT
    (Demo.direct_world (fun _ => Demo.held_by Demo.destination) Demo.signature)
    DirectTransfer.initial =
    (DirectTransfer.mkState
       [DirectTransfer.GetBalance; DirectTransfer.CreateUmi;
        DirectTransfer.FetchAsset (PublicKey.toBase58 Demo.asset)
          (Demo.held_by Demo.destination);
        DirectTransfer.ConsoleLog "No transfer needed."]
       1 1,
     Ok (DirectTransfer.JsString "No transfer needed - already owned by destination wallet")).
Proof.
  apply (transfer_short_circuits
           (Demo.direct_world (fun _ => Demo.held_by Demo.destination) Demo.signature)
           250000000
           (Asset.mk "Demo NFT" (PublicKey.toBase58 Demo.destination) None)).
  - reflexivity.
  - lia.
  - reflexivity.
  - reflexivity.
  - reflexivity.
Defined.

(** C7 as stated fails: with the destination holding the asset at every
    read, a run that does not reach its first read of the asset does not
    report "no transfer needed".  The balance is under 0.01 SOL, or the
    balance read fails, or the first client cannot be built: each time
    the error is raised into the handler, whose own read shows the
    destination, and [transferNFT] returns [true].  Nothing is
    submitted. *)
Lemma transfer_short_circuits_counterexample :
  (snd (DirectTransfer.transferNFT
          (Demo.direct_world_at_destination (Ok 5000000) (fun _ => Ok tt))
          DirectTransfer.initial)
   = Ok (DirectTransfer.JsBool true)
   /\ existsb DirectTransfer.is_send
        (DirectTransfer.trace
           (fst (DirectTransfer.transferNFT
                   (Demo.direct_world_at_destination (Ok 5000000) (fun _ => Ok tt))
                   DirectTransfer.initial)))
      = false)
  /\ (snd (DirectTransfer.transferNFT
             (Demo.direct_world_at_destination (Throw Demo.rpc_down) (fun _ => Ok tt))
             DirectTransfer.initial)
      = Ok (DirectTransfer.JsBool true)
      /\ existsb DirectTransfer.is_send
           (DirectTransfer.trace
              (fst (DirectTransfer.transferNFT
                      (Demo.direct_world_at_destination (Throw Demo.rpc_down)
                         (fun _ => Ok tt))
                      DirectTransfer.initial)))
         = false)
  /\ (snd (DirectTransfer.transferNFT
             (Demo.direct_world_at_destination (Ok 250000000) Demo.clients_failing_once)
             DirectTransfer.initial)
      = Ok (DirectTransfer.JsBool true)
      /\ existsb DirectTransfer.is_send
           (DirectTransfer.trace
              (fst (DirectTransfer.transferNFT
                      (Demo.direct_world_at_destination (Ok 250000000)
                         Demo.clients_failing_once)
                      DirectTransfer.initial)))
         = false)
  /\ (forall balance clients k address,
        DirectTransfer.fetchAsset (Demo.direct_world_at_destination balance clients) k address
        = Demo.held_by Demo.destination)
  /\ DirectTransfer.JsBool true
     <> DirectTransfer.JsString "No transfer needed - already owned by destination wallet".
Proof.
  repeat split; try (vm_compute; reflexivity). discriminate.
Qed.

(** ** Pre-transfer verification *)

(** [verifyNFTInSafe] answers [false] on a failed check, after one read
    and one console error. *)
Lemma verifyNFTInSafe_rejects (w : SafeRetrieval.World) (s : SafeRetrieval.State) :
  SafeRetrieval.accountReads s = 0%nat ->
  SafeRetrieval.verification_fails w ->
  exists msg,
    SafeRetrieval.verifyNFTInSafe w (SafeRetrieval.NFT_ASSET_ADDRESS w) s =
      (SafeRetrieval.mkState
         (SafeRetrieval.trace s ++
            [SafeRetrieval.GetAccountInfo (SafeRetrieval.NFT_ASSET_ADDRESS w);
             SafeRetrieval.ConsoleError msg])
         (SafeRetrieval.umiContext s) 1 (SafeRetrieval.executions s),
       Ok false).
Proof.
  intros Hreads Hfails.
  unfold SafeRetrieval.verifyNFTInSafe, SafeRetrieval.connection_getAccountInfo,
    SafeRetrieval.console_error, SafeRetrieval.emit.
  run_eff. rewrite Hreads.
  destruct Hfails as [Hread | [(info & Hread & Hforeign) | (error & Hread)]];
    rewrite Hread;
    cbn [SafeRetrieval.trace SafeRetrieval.umiContext SafeRetrieval.accountReads
           SafeRetrieval.executions].
  - eexists. rewrite <- app_assoc. reflexivity.
  - unfold PublicKey.equals. rewrite bool_decide_eq_false_2 by exact Hforeign.
    cbn [negb SafeRetrieval.trace SafeRetrieval.umiContext SafeRetrieval.accountReads
           SafeRetrieval.executions].
    eexists. rewrite <- app_assoc. reflexivity.
  - eexists. rewrite <- app_assoc. reflexivity.
Qed.

(** A failed account check ends [retrieveNFTFromSafe] normally, before
    any instruction is built and before any proposal is created or
    executed. *)
Lemma retrieve_aborts (w : SafeRetrieval.World) (umiAtLoad : bool) :
  SafeRetrieval.verification_fails w ->
  snd (SafeRetrieval.retrieveNFTFromSafe w (SafeRetrieval.initial umiAtLoad)) = Ok tt
  /\ existsb SafeRetrieval.builds_or_submits
       (SafeRetrieval.trace
          (fst (SafeRetrieval.retrieveNFTFromSafe w (SafeRetrieval.initial umiAtLoad))))
     = false.
Proof.
  intros Hfails.
  pose (P := fun run : SafeRetrieval.State * Result unit =>
    snd run = Ok tt
    /\ existsb SafeRetrieval.builds_or_submits (SafeRetrieval.trace (fst run)) = false).
  change (P (SafeRetrieval.retrieveNFTFromSafe w (SafeRetrieval.initial umiAtLoad))).
  unfold SafeRetrieval.retrieveNFTFromSafe. rewrite try_catch_bind.
  unfold SafeRetrieval.setupConnection, SafeRetrieval.initializeUmi,
    SafeRetrieval.set_umiContext, SafeRetrieval.console_log,
    SafeRetrieval.console_error, SafeRetrieval.emit.
  unfold bind at 1. unfold try_catch at 1. unfold bind at 1.
  unfold modify at 1, liftR at 1.
  cbn [SafeRetrieval.initial SafeRetrieval.trace SafeRetrieval.umiContext
         SafeRetrieval.accountReads SafeRetrieval.executions app].
  destruct (SafeRetrieval.getBlockHeight w) as [height|e].
  2: { subst P. split; reflexivity. }
  unfold try_catch at 1.
  destruct (negb (truthy (SafeRetrieval.env w !! "WALLET_PRIVATE_KEY"))).
  { subst P. split; reflexivity. }
  unfold liftR at 1.
  destruct (SafeRetrieval.Keypair_fromSecretKey w _) as [wallet|e].
  2: { subst P. split; reflexivity. }
  rewrite try_catch_bind. unfold try_catch at 1.
  destruct (SafeRetrieval.umiFactories w).
  - unfold bind at 1, liftR at 1.
    destruct (SafeRetrieval.createUmi w) as [[]|e].
    + unfold ret at 1. rewrite try_catch_bind. unfold modify at 1.
      cbn [negb SafeRetrieval.trace SafeRetrieval.umiContext
             SafeRetrieval.accountReads SafeRetrieval.executions].
      rewrite try_catch_bind. unfold SafeRetrieval.initializeSafe at 1.
      unfold SafeRetrieval.console_log at 1 2, SafeRetrieval.emit at 1 2.
      unfold bind at 1, modify at 1 2.
      cbn [SafeRetrieval.trace SafeRetrieval.umiContext
             SafeRetrieval.accountReads SafeRetrieval.executions].
      rewrite try_catch_bind.
      match goal with
      | |- context [SafeRetrieval.verifyNFTInSafe w _ ?st] =>
          destruct (verifyNFTInSafe_rejects w st eq_refl Hfails) as [msg ->]
      end.
      subst P. split; reflexivity.
    + unfold bind at 1, modify at 1, ret at 1. rewrite try_catch_bind.
      subst P. split; reflexivity.
  - unfold ret at 1. rewrite try_catch_bind.
    subst P. split; reflexivity.
Qed.

(** ** Budgets: how many events of a kind a computation can emit *)

Section Budget.

Context {S E : Type} (tr : S -> list E) (p : E -> bool).

Lemma count_app (xs ys : list E) : count p (xs ++ ys) = (count p xs + count p ys)%nat.
Proof. unfold count. rewrite List.filter_app, length_app. reflexivity. Qed.

Lemma count_none (events : list E) :
  count p events = 0%nat <-> existsb p events = false.
Proof.
  unfold count. induction events as [|e events IH]; [split; reflexivity|].
  cbn [List.filter existsb]. destruct (p e); cbn [length orb].
  - split; discriminate.
  - exact IH.
Qed.

Lemma within_weaken {A} (n n' : nat) (m : Eff S A) :
  (n <= n')%nat -> within tr p n m -> within tr p n' m.
Proof.
  intros Hle Hm s. destruct (Hm s) as (events & Htrace & Hcount).
  exists events. split; [exact Htrace | lia].
Qed.

Lemma within_ret {A} (a : A) : within tr p 0 (ret a).
Proof. intros s. exists []. split; [symmetry; apply app_nil_r | apply Nat.le_refl]. Qed.

Lemma within_throw {A} (e : JsError) : within tr p 0 (@throw S A e).
Proof. intros s. exists []. split; [symmetry; apply app_nil_r | apply Nat.le_refl]. Qed.

Lemma within_liftR {A} (r : Result A) : within tr p 0 (liftR r).
Proof. intros s. exists []. split; [symmetry; apply app_nil_r | apply Nat.le_refl]. Qed.

Lemma within_gets {A} (f : S -> A) : within tr p 0 (gets f).
Proof. intros s. exists []. split; [symmetry; apply app_nil_r | apply Nat.le_refl]. Qed.

Lemma within_bind {A B} (n1 n2 : nat) (m : Eff S A) (k : A -> Eff S B) :
  within tr p n1 m -> (forall a, within tr p n2 (k a)) -> within tr p (n1 + n2) (bind m k).
Proof.
  intros Hm Hk s. unfold bind.
  destruct (Hm s) as (events1 & Htrace1 & Hcount1).
  destruct (m s) as [s1 [a|e]]; cbn [fst] in *.
  - destruct (Hk a s1) as (events2 & Htrace2 & Hcount2).
    exists (events1 ++ events2). rewrite Htrace2, Htrace1, app_assoc, count_app.
    split; [reflexivity | lia].
  - exists events1. split; [exact Htrace1 | lia].
Qed.

Lemma within_try_catch {A} (n1 n2 : nat) (m : Eff S A) (h : JsError -> Eff S A) :
  within tr p n1 m -> (forall e, within tr p n2 (h e)) ->
  within tr p (n1 + n2) (try_catch m h).
Proof.
  intros Hm Hh s. unfold try_catch.
  destruct (Hm s) as (events1 & Htrace1 & Hcount1).
  destruct (m s) as [s1 [a|e]]; cbn [fst] in *.
  - exists events1. split; [exact Htrace1 | lia].
  - destruct (Hh e s1) as (events2 & Htrace2 & Hcount2).
    exists (events1 ++ events2). rewrite Htrace2, Htrace1, app_assoc, count_app.
    split; [reflexivity | lia].
Qed.

Lemma within_if {A} (n1 n2 : nat) (c : bool) (a b : Eff S A) :
  within tr p n1 a -> within tr p n2 b ->
  within tr p (Nat.max n1 n2) (if c then a else b).
Proof.
  intros Ha Hb. destruct c.
  - apply (within_weaken n1); [lia | exact Ha].
  - apply (within_weaken n2); [lia | exact Hb].
Qed.

Lemma within_option {A B} (n1 n2 : nat) (o : option B) (f : B -> Eff S A) (g : Eff S A) :
  (forall b, within tr p n1 (f b)) -> within tr p n2 g ->
  within tr p (Nat.max n1 n2) (match o with Some b => f b | None => g end).
Proof.
  intros Hf Hg. destruct o as [b|].
  - apply (within_weaken n1); [lia | apply Hf].
  - apply (within_weaken n2); [lia | exact Hg].
Qed.

(** What follows a computation that always throws never runs. *)
Lemma within_bind_throws {A B} (n : nat) (m : Eff S A) (k : A -> Eff S B) :
  (forall s, exists s' e, m s = (s', Throw e)) ->
  within tr p n m -> within tr p n (bind m k).
Proof.
  intros Hthrows Hm s. unfold bind.
  destruct (Hm s) as (events & Htrace & Hcount).
  destruct (Hthrows s) as (s' & e & Hrun). rewrite Hrun in *.
  exists events. split; [exact Htrace | exact Hcount].
Qed.

(** A step that appends one event and may answer anything. *)
Lemma within_step {A} (e : E) (next : S -> S) (answer : S -> Result A) :
  (forall s, tr (next s) = tr s ++ [e]) ->
  within tr p (Nat.b2n (p e)) (fun s => (next s, answer s)).
Proof.
  intros Hnext s. exists [e]. split; [apply Hnext|].
  unfold count. cbn [List.filter]. destruct (p e); cbn; lia.
Qed.

(** A step that leaves the trace alone. *)
Lemma within_silent {A} (next : S -> S) (answer : S -> Result A) :
  (forall s, tr (next s) = tr s) ->
  within tr p 0 (fun s => (next s, answer s)).
Proof.
  intros Hnext s. exists []. cbn [fst].
  split; [rewrite Hnext, app_nil_r; reflexivity | apply Nat.le_refl].
Qed.

(** From a budget to the finished trace of a run that starts empty. *)
Lemma within_run {A} (n : nat) (m : Eff S A) (s : S) :
  tr s = [] -> within tr p n m -> (count p (tr (fst (m s))) <= n)%nat.
Proof.
  intros Hempty Hm. destruct (Hm s) as (events & -> & Hcount).
  rewrite Hempty. exact Hcount.
Qed.

End Budget.

(** ** Budgets of the Safe script *)

Ltac head_of t :=
  lazymatch t with
  | ?f _ => head_of f
  | _ => t
  end.

(** One appended event costs 1 when the predicate holds of it, else 0. *)
Ltac step_cost p e :=
  let b := eval lazy in (p e) in
  lazymatch b with
  | true => constr:(1%nat)
  | false => constr:(0%nat)
  end.

Ltac event_step e :=
  lazymatch goal with
  | |- within ?tr ?p _ _ =>
      let n := step_cost p e in
      apply (within_weaken tr p (Nat.b2n (p e)) n _ (Nat.le_refl n));
      apply (within_step tr p e); intros; reflexivity
  end.

(** ** The retry loop under an arbitrary submitter *)

Section RetryShape.

Import SafeRetrieval.

Variable w : World.
Variable pa : PublicKey.
Variable maxRetries : Z.

Lemma loop_step_success_run (attempt : Z) (fuel : nat) (s : State) (txid : string) :
  attempt <= maxRetries ->
  safe_executeProposal w (executions s) pa = Ok txid ->
  executeProposal_loop w (S fuel) pa maxRetries attempt s =
  (mkState (trace s ++ [ExecuteProposal pa;
                        ConsoleLog "Proposal executed successfully! Txid:"])
     (umiContext s) (accountReads s) (S (executions s)),
   Ok (Returned (Some txid))).
Proof.
  intros Hle Hcall. cbn [executeProposal_loop].
  destruct (Z.leb_spec attempt maxRetries) as [_|Hgt]; [|lia].
  unfold safe_executeProposal_call, console_log, emit. run_eff.
  rewrite Hcall. cbn [trace umiContext accountReads executions].
  rewrite <- app_assoc. reflexivity.
Qed.

(** Whatever the submitter does, the loop makes [k >= 1] calls, waits
    after each but the last, stops at the first success, and gives up
    only when the budget is used up. *)
Lemma loop_shape :
  forall (fuel : nat) (attempt : Z) (s : State),
    attempt <= maxRetries ->
    (Z.to_nat (maxRetries - attempt + 1) <= fuel)%nat ->
    exists (k : nat) (events : list Event),
      (1 <= k <= Z.to_nat (maxRetries - attempt + 1))%nat
      /\ executeProposal_loop w fuel pa maxRetries attempt s =
         (mkState (trace s ++ events) (umiContext s) (accountReads s)
            (executions s + k),
          loop_answer w pa (executions s + k - 1))
      /\ timeline events = failing_timeline pa k attempt
      /\ (forall j, (j < k - 1)%nat ->
            exists error, safe_executeProposal w (executions s + j) pa = Throw error)
      /\ ((exists error,
             safe_executeProposal w (executions s + k - 1) pa = Throw error) ->
          k = Z.to_nat (maxRetries - attempt + 1)).
Proof.
  induction fuel as [|fuel IH]; intros attempt s Hle Hfuel; [lia|].
  destruct (safe_executeProposal w (executions s) pa) as [txid|error] eqn:Hcall.
  - exists 1%nat, [ExecuteProposal pa; ConsoleLog "Proposal executed successfully! Txid:"].
    split; [lia|].
    split.
    { rewrite (loop_step_success_run attempt fuel s txid Hle Hcall).
      unfold loop_answer.
      replace (executions s + 1 - 1)%nat with (executions s) by lia.
      rewrite Hcall, Nat.add_1_r. reflexivity. }
    split; [reflexivity|].
    split; [intros j Hj; lia|].
    intros [error Herror].
    replace (executions s + 1 - 1)%nat with (executions s) in Herror by lia.
    congruence.
  - destruct (loop_step_failure w pa maxRetries attempt fuel s error Hle Hcall)
      as [printed [Hquiet ->]].
    destruct (Z.ltb_spec attempt maxRetries) as [Hlt|Hge].
    + unfold sleep, emit. run_eff. cbn [trace umiContext accountReads executions].
      destruct (IH (attempt + 1)
                  (mkState ((trace s ++ ExecuteProposal pa :: printed)
                              ++ [Sleep (waitTime attempt)])
                     (umiContext s) (accountReads s) (S (executions s)))
                  ltac:(lia) ltac:(lia))
        as (k & events & Hk & -> & Htimeline & Hbefore & Hlast).
      cbn [trace umiContext accountReads executions] in *.
      exists (S k), ((ExecuteProposal pa :: printed) ++ Sleep (waitTime attempt) :: events).
      split; [lia|].
      split.
      { rewrite <- !app_assoc. cbn [app].
        replace (S (executions s) + k)%nat with (executions s + S k)%nat by lia.
        reflexivity. }
      split.
      { rewrite timeline_app.
        change (timeline (ExecuteProposal pa :: printed))
          with (ExecuteProposal pa :: timeline printed).
        change (timeline (Sleep (waitTime attempt) :: events))
          with (Sleep (waitTime attempt) :: timeline events).
        rewrite Hquiet, Htimeline.
        destruct k as [|k]; [lia|]. reflexivity. }
      split.
      { intros j Hj. destruct j as [|j].
        - exists error. rewrite Nat.add_0_r. exact Hcall.
        - destruct (Hbefore j ltac:(lia)) as [e He]. exists e.
          replace (executions s + S j)%nat with (S (executions s) + j)%nat by lia.
          exact He. }
      intros [e He].
      replace (executions s + S k - 1)%nat with (S (executions s) + k - 1)%nat in He by lia.
      rewrite (Hlast (ex_intro _ e He)). lia.
    + exists 1%nat, (ExecuteProposal pa :: printed).
      split; [lia|].
      split.
      { unfold throw, loop_answer.
        replace (executions s + 1 - 1)%nat with (executions s) by lia.
        rewrite Hcall, Nat.add_1_r. reflexivity. }
      split.
      { change (timeline (ExecuteProposal pa :: printed))
          with (ExecuteProposal pa :: timeline printed).
        rewrite Hquiet. reflexivity. }
      split; [intros j Hj; lia|].
      intros _. lia.
Qed.

End RetryShape.

Lemma sleeps_of_failing_timeline (p : PublicKey) (n : nat) (attempt : Z) :
  length (List.filter SafeRetrieval.is_sleep (SafeRetrieval.failing_timeline p n attempt))
  = (n - 1)%nat.
Proof.
  revert attempt. induction n as [|n IH]; intros attempt; [reflexivity|].
  destruct n as [|n]; [reflexivity|].
  change (SafeRetrieval.failing_timeline p (S (S n)) attempt)
    with (SafeRetrieval.ExecuteProposal p :: SafeRetrieval.Sleep (SafeRetrieval.waitTime attempt)
            :: SafeRetrieval.failing_timeline p (S n) (attempt + 1)).
  change (length (List.filter SafeRetrieval.is_sleep
                    (SafeRetrieval.ExecuteProposal p
                       :: SafeRetrieval.Sleep (SafeRetrieval.waitTime attempt)
                       :: SafeRetrieval.failing_timeline p (S n) (attempt + 1))))
    with (S (length (List.filter SafeRetrieval.is_sleep
                       (SafeRetrieval.failing_timeline p (S n) (attempt + 1))))).
  rewrite IH. lia.
Qed.

Lemma sleeps_in_timeline (events : list SafeRetrieval.Event) :
  List.filter SafeRetrieval.is_sleep (SafeRetrieval.timeline events)
  = List.filter SafeRetrieval.is_sleep events.
Proof.
  unfold SafeRetrieval.timeline.
  induction events as [|e events IH]; [reflexivity|].
  destruct e; cbn [List.filter SafeRetrieval.is_timeline SafeRetrieval.is_sleep];
    rewrite IH; reflexivity.
Qed.

Section RetryBudget.

Import SafeRetrieval.

Variable w : World.
Variable p : Event -> bool.
Hypothesis quiet_sleep : forall ms, p (Sleep ms) = false.
Hypothesis quiet_log : forall msg, p (ConsoleLog msg) = false.
Hypothesis quiet_error : forall msg, p (ConsoleError msg) = false.

Lemma emit_quiet (e : Event) : p e = false -> within trace p 0 (emit e).
Proof.
  intros He. apply (within_weaken trace p (Nat.b2n (p e)) 0).
  - rewrite He. apply Nat.le_refl.
  - apply (within_step trace p e). intros; reflexivity.
Qed.

Lemma console_error_each_quiet (lines : list string) :
  within trace p 0 (console_error_each lines).
Proof.
  induction lines as [|l lines IH]; [apply within_ret|].
  cbn [console_error_each].
  apply (within_bind trace p 0 0); [apply emit_quiet, quiet_error | intros _; exact IH].
Qed.

Lemma loop_budget (pa : PublicKey) (maxRetries : Z) :
  forall (fuel : nat) (attempt : Z),
    within trace p
      (Nat.b2n (p (ExecuteProposal pa)) * Z.to_nat (maxRetries - attempt + 1))
      (executeProposal_loop w fuel pa maxRetries attempt).
Proof.
  induction fuel as [|fuel IH]; intros attempt.
  { eapply within_weaken; [|apply within_ret]. apply Nat.le_0_l. }
  cbn [executeProposal_loop].
  destruct (Z.leb_spec attempt maxRetries) as [Hle|Hgt].
  2: { eapply within_weaken; [|apply within_ret]. apply Nat.le_0_l. }
  eapply within_weaken.
  2: { eapply within_try_catch.
       - eapply within_bind.
         + apply (within_step trace p (ExecuteProposal pa)). intros; reflexivity.
         + intros txid. eapply within_bind;
             [apply emit_quiet, quiet_log | intros; apply within_ret].
       - intros error. eapply within_bind; [apply emit_quiet, quiet_error|].
         intros _. eapply within_bind.
         + eapply within_option;
             [intros lines; eapply within_bind;
                [apply emit_quiet, quiet_error | intros; apply console_error_each_quiet]
             | apply within_ret].
         + intros _. eapply within_if.
           * eapply within_bind; [apply emit_quiet, quiet_sleep | intros; apply IH].
           * apply within_throw. }
  destruct (p (ExecuteProposal pa)); cbn [Nat.b2n]; lia.
Qed.

Lemma executeProposal_budget (pa : PublicKey) (maxRetries : Z) :
  within trace p (Nat.b2n (p (ExecuteProposal pa)) * Z.to_nat maxRetries)
    (executeProposal w pa maxRetries).
Proof.
  unfold executeProposal. eapply within_weaken; [|apply loop_budget].
  replace (maxRetries - 1 + 1) with maxRetries by lia. apply Nat.le_refl.
Qed.

End RetryBudget.

Section DirectQuiet.

Import DirectTransfer.

Variable p : Event -> bool.
Hypothesis quiet_error : forall msg, p (ConsoleError msg) = false.

Lemma direct_errors_quiet (lines : list string) :
  within trace p 0 (console_error_each lines).
Proof.
  induction lines as [|l lines IH]; [apply within_ret|].
  cbn [console_error_each].
  apply (within_bind trace p 0 0); [|intros _; exact IH].
  apply (within_weaken trace p (Nat.b2n (p (ConsoleError l))) 0).
  - rewrite quiet_error. apply Nat.le_refl.
  - apply (within_step trace p (ConsoleError l)). intros; reflexivity.
Qed.

End DirectQuiet.

(** ** Budgets of the blocks of the Safe script *)

Ltac safe_loop_cost p pa maxRetries :=
  let c := step_cost p (SafeRetrieval.ExecuteProposal pa) in
  apply (within_weaken SafeRetrieval.trace p
           (Nat.b2n (p (SafeRetrieval.ExecuteProposal pa)) * Z.to_nat maxRetries)
           (c * Z.to_nat maxRetries) _ (Nat.le_refl _));
  apply executeProposal_budget; intros; reflexivity.

(** A read of the asset records its answer, so its event is not known
    beforehand; it costs 1 for a predicate true of every read and 0 for
    one false of every read. *)
Lemma direct_fetch_step (p : DirectTransfer.Event -> bool) (w : DirectTransfer.World)
    (address : string) (n : nat) :
  (forall response, (Nat.b2n (p (DirectTransfer.FetchAsset address response)) <= n)%nat) ->
  within DirectTransfer.trace p n (DirectTransfer.umi_fetchAsset w address).
Proof.
  intros Hcost s.
  exists [DirectTransfer.FetchAsset address
            (DirectTransfer.fetchAsset w (DirectTransfer.fetches s) address)].
  split; [reflexivity|].
  unfold count. cbn [List.filter].
  specialize (Hcost (DirectTransfer.fetchAsset w (DirectTransfer.fetches s) address)).
  destruct (p _); cbn in *; lia.
Qed.

(** Structural budget search; [hook] is tried first at every node. *)
Ltac safe_spend_with hook :=
  first
    [ hook
    | lazymatch goal with
      | |- within _ _ _ (ret _) => apply within_ret
      | |- within _ _ _ (throw _) => apply within_throw
      | |- within _ _ _ (liftR _) => apply within_liftR
      | |- within _ _ _ (gets _) => apply within_gets
      | |- within _ _ _ (bind _ _) =>
          eapply within_bind; [safe_spend_with hook | intros; safe_spend_with hook]
      | |- within _ _ _ (try_catch _ _) =>
          eapply within_try_catch; [safe_spend_with hook | intros; safe_spend_with hook]
      | |- within _ _ _ (match _ with Some _ => _ | None => _ end) =>
          eapply within_option; [intros; safe_spend_with hook | safe_spend_with hook]
      | |- within _ _ _ (if _ then _ else _) =>
          eapply within_if; [safe_spend_with hook | safe_spend_with hook]
      | |- within _ _ _ (match ?x with (_, _) => _ end) => destruct x; safe_spend_with hook
      | |- within _ ?p _ (SafeRetrieval.executeProposal _ ?pa ?maxRetries) =>
          safe_loop_cost p pa maxRetries
      | |- within _ _ _ (SafeRetrieval.emit ?e) =>
          unfold SafeRetrieval.emit, modify; event_step e
      | |- within _ _ _ (SafeRetrieval.connection_getAccountInfo _ ?a) =>
          unfold SafeRetrieval.connection_getAccountInfo;
          event_step (SafeRetrieval.GetAccountInfo a)
      | |- within _ _ _ (SafeRetrieval.set_umiContext _) =>
          unfold SafeRetrieval.set_umiContext, modify;
          apply (within_silent SafeRetrieval.trace); intros; reflexivity
      | |- within _ _ _ (DirectTransfer.emit ?e) =>
          unfold DirectTransfer.emit, modify; event_step e
      | |- within _ _ _ (DirectTransfer.umi_fetchAsset ?w ?a) =>
          first [ apply (direct_fetch_step _ w a 0); intros; apply Nat.le_refl
                | apply (direct_fetch_step _ w a 1); intros; cbn; lia ]
      | |- within _ _ _ (DirectTransfer.createUmi_call _) =>
          unfold DirectTransfer.createUmi_call; event_step DirectTransfer.CreateUmi
      | |- within _ _ _ (DirectTransfer.console_error_each _) =>
          apply direct_errors_quiet; intros; reflexivity
      | |- within _ _ _ ?m => let h := head_of m in unfold h; safe_spend_with hook
      end ].

Ltac safe_spend_all := safe_spend_with ltac:(fail).

Ltac safe_budget_all :=
  eapply within_weaken; [| safe_spend_all]; vm_compute; lia.

Section SafeBudget.

Import SafeRetrieval.

Variable w : World.

(** The builder stays in the process whatever path it takes. *)
Lemma builder_offline (o a d : PublicKey) :
  within trace is_network 0 (createMetaplexCoreTransferInstruction w o a d).
Proof. safe_budget_all. Qed.

Lemma builder_one_construction (o a d : PublicKey) :
  within trace is_construction 1 (createMetaplexCoreTransferInstruction w o a d).
Proof. safe_budget_all. Qed.

Lemma retrieve_attempts : within trace is_attempt 3 (retrieveNFTFromSafe w).
Proof. safe_budget_all. Qed.

Lemma retrieve_creates : within trace is_create 1 (retrieveNFTFromSafe w).
Proof. safe_budget_all. Qed.

Lemma retrieve_reads : within trace is_read 2 (retrieveNFTFromSafe w).
Proof. safe_budget_all. Qed.

Lemma retrieve_constructions : within trace is_construction 1 (retrieveNFTFromSafe w).
Proof. safe_budget_all. Qed.

End SafeBudget.

(** ** More on the instruction builder *)

(** X1. When every SDK component is present and the factory delivers,
    the builder returns the factory's instruction unchanged and never
    constructs the manual one: the run adds its banner, the SDK banner
    and the one factory call. *)
Theorem builder_prefers_sdk
    (w : SafeRetrieval.World) (s : SafeRetrieval.State)
    (owner asset destination collection : PublicKey) (str : string)
    (factory : TransferParams.t -> option Z -> Result TransactionInstruction)
    (ix : TransactionInstruction) :
  SafeRetrieval.env w !! "NFT_COLLECTION_ADDRESS" = Some str ->
  str <> "" ->
  str <> PublicKey.toString PublicKey.default ->
  PublicKey.new str = Ok collection ->
  SafeRetrieval.createTransferV1Instruction w = Some factory ->
  SafeRetrieval.umiContext s = true ->
  SafeRetrieval.umiAdapters w = true ->
  factory (SafeRetrieval.umiTransferParams owner asset destination collection) (Some 1)
    = Ok ix ->
  SafeRetrieval.createMetaplexCoreTransferInstruction w owner asset destination s =
    (SafeRetrieval.mkState
       (SafeRetrieval.trace s ++
          [SafeRetrieval.ConsoleLog "Creating Metaplex Core transfer instruction...";
           SafeRetrieval.ConsoleLog "Using Metaplex Core SDK with proper Umi type conversion";
           SafeRetrieval.UmiCreateTransferV1
             (SafeRetrieval.umiTransferParams owner asset destination collection)])
       true (SafeRetrieval.accountReads s) (SafeRetrieval.executions s),
     Ok ix).
Proof.
  intros Henv Hne Hdef Hnew Hfactory Hctx Hadapters Hcall.
  unfold SafeRetrieval.createMetaplexCoreTransferInstruction.
  rewrite (guard_set w str Henv Hne Hdef), Henv. cbn [default from_option id].
  unfold SafeRetrieval.console_log, SafeRetrieval.emit. run_eff.
  rewrite Hnew, Hfactory.
  cbn [SafeRetrieval.trace SafeRetrieval.umiContext SafeRetrieval.accountReads
         SafeRetrieval.executions].
  rewrite Hctx, Hadapters. cbn [andb]. rewrite Hcall.
  cbn [SafeRetrieval.trace SafeRetrieval.umiContext SafeRetrieval.accountReads
         SafeRetrieval.executions].
  rewrite <- !app_assoc. reflexivity.
Qed.

Lemma builder_prefers_sdk_witness :
  snd (SafeRetrieval.createMetaplexCoreTransferInstruction
         (Demo.safe_world Demo.env_set (Some Demo.sdk_factory) Demo.core_account)
         Demo.signer Demo.asset Demo.destination (SafeRetrieval.initial true))
  = Ok Demo.sdk_instruction.
Proof.
  rewrite (builder_prefers_sdk
             (Demo.safe_world Demo.env_set (Some Demo.sdk_factory) Demo.core_account)
             (SafeRetrieval.initial true)
             Demo.signer Demo.asset Demo.destination Demo.collection Demo.collection_string
             Demo.sdk_factory Demo.sdk_instruction).
  - reflexivity.
  - vm_compute. reflexivity.
  - vm_compute. discriminate.
  - vm_compute. discriminate.
  - vm_compute. reflexivity.
  - reflexivity.
  - reflexivity.
  - reflexivity.
  - reflexivity.
Defined.

(** The module-level parse of line 82 decides whether the script runs
    at all: a world in which it throws never reaches
    [retrieveNFTFromSafe], and so never reaches the builder. *)
Lemma main_stops_at_load (w : SafeRetrieval.World) (s : SafeRetrieval.State) :
  ~ SafeRetrieval.loaded w ->
  exists error, SafeRetrieval.main w s = (s, Throw error).
Proof.
  intros Hload. unfold SafeRetrieval.main, bind, liftR.
  destruct (SafeRetrieval.NFT_COLLECTION_ADDRESS w) as [collection|error] eqn:Hparse.
  - exfalso. apply Hload. exists collection. exact Hparse.
  - exists error. reflexivity.
Qed.

Lemma main_runs_when_loaded (w : SafeRetrieval.World) (s : SafeRetrieval.State) :
  SafeRetrieval.loaded w ->
  SafeRetrieval.main w s = SafeRetrieval.retrieveNFTFromSafe w s.
Proof.
  intros [collection Hparse]. unfold SafeRetrieval.main, bind, liftR.
  rewrite Hparse. reflexivity.
Qed.

(** An absent, empty or malformed collection variable stops the module
    at load time. *)
Lemma unparsable_collection_not_loaded (w : SafeRetrieval.World) :
  SafeRetrieval.env w !! "NFT_COLLECTION_ADDRESS" = None
  \/ SafeRetrieval.env w !! "NFT_COLLECTION_ADDRESS" = Some ""
  \/ (exists str error,
        SafeRetrieval.env w !! "NFT_COLLECTION_ADDRESS" = Some str
        /\ PublicKey.new str = Throw error) ->
  ~ SafeRetrieval.loaded w.
Proof.
  unfold SafeRetrieval.loaded, SafeRetrieval.NFT_COLLECTION_ADDRESS.
  intros [Henv | [Henv | (str & error & Henv & Hparse)]] [collection Hload];
    rewrite Henv in Hload.
  - discriminate.
  - vm_compute in Hload. discriminate.
  - congruence.
Qed.

(** X2. Once the module has loaded, the builder has two outcomes only.
    It throws the configuration error exactly when the collection
    variable holds the string of the all-zero key; otherwise the variable
    parses to a key other than the all-zero key, the parse of line 198
    cannot fail, and the builder returns an instruction: the one the SDK
    factory delivered, or else the manual one for that collection. *)
Theorem builder_outcomes_once_loaded
    (w : SafeRetrieval.World) (s : SafeRetrieval.State)
    (owner asset destination : PublicKey) :
  SafeRetrieval.loaded w ->
  (SafeRetrieval.env w !! "NFT_COLLECTION_ADDRESS" = Some (PublicKey.toString PublicKey.default)
   /\ snd (SafeRetrieval.createMetaplexCoreTransferInstruction w owner asset destination s)
      = Throw (Error "Missing or invalid NFT collection address configuration."))
  \/ (exists str collection ix,
        SafeRetrieval.env w !! "NFT_COLLECTION_ADDRESS" = Some str
        /\ str <> PublicKey.toString PublicKey.default
        /\ PublicKey.new str = Ok collection
        /\ collection <> PublicKey.default
        /\ snd (SafeRetrieval.createMetaplexCoreTransferInstruction w owner asset destination s)
           = Ok ix
        /\ ((exists factory,
               SafeRetrieval.createTransferV1Instruction w = Some factory
               /\ SafeRetrieval.umiContext s = true
               /\ SafeRetrieval.umiAdapters w = true
               /\ factory
                    (SafeRetrieval.umiTransferParams owner asset destination collection)
                    (Some 1)
                  = Ok ix)
            \/ (SafeRetrieval.sdk_declines w s owner asset destination collection
                /\ ix = mkInstruction METAPLEX_CORE_PROGRAM_ID
                          (SafeRetrieval.accounts owner asset destination collection)
                          [116; 97; 188; 150; 133; 175; 148; 44;
                           1; 1; 0; 0; 0; 0; 0; 0; 0]))).
Proof.
  intros [collection Hload]. unfold SafeRetrieval.NFT_COLLECTION_ADDRESS in Hload.
  destruct (SafeRetrieval.env w !! "NFT_COLLECTION_ADDRESS") as [str|] eqn:Henv;
    [|discriminate].
  destruct (decide (str = PublicKey.toString PublicKey.default)) as [->|Hdef].
  { left. split; [reflexivity|].
    rewrite (builder_unset w owner asset destination s) by (right; right; exact Henv).
    reflexivity. }
  right.
  assert (Hne : str <> "").
  { intros ->. vm_compute in Hload. discriminate. }
  assert (Hkey : collection <> PublicKey.default).
  { intros ->. apply new_default_key in Hload. contradiction. }
  assert (Hmanual :
            SafeRetrieval.sdk_declines w s owner asset destination collection ->
            exists ix,
              snd (SafeRetrieval.createMetaplexCoreTransferInstruction w owner asset
                     destination s) = Ok ix
              /\ SafeRetrieval.sdk_declines w s owner asset destination collection
              /\ ix = mkInstruction METAPLEX_CORE_PROGRAM_ID
                        (SafeRetrieval.accounts owner asset destination collection)
                        [116; 97; 188; 150; 133; 175; 148; 44;
                         1; 1; 0; 0; 0; 0; 0; 0; 0]).
  { intros Hsdk. eexists.
    split; [exact (builder_manual w owner asset destination collection str s
                     Henv Hne Hdef Hload Hsdk)|].
    split; [exact Hsdk | reflexivity]. }
  exists str, collection.
  destruct (SafeRetrieval.createTransferV1Instruction w) as [factory|] eqn:Hfactory.
  2: { destruct Hmanual as (ix & Hrun & Hsdk & Hix); [intros f Hf; congruence|].
       exists ix. repeat (split; [first [assumption | reflexivity]|]). right. split; assumption. }
  destruct (SafeRetrieval.umiContext s) eqn:Hctx.
  2: { destruct Hmanual as (ix & Hrun & Hsdk & Hix); [intros f _ Hc; congruence|].
       exists ix. repeat (split; [first [assumption | reflexivity]|]). right. split; assumption. }
  destruct (SafeRetrieval.umiAdapters w) eqn:Hadapters.
  2: { destruct Hmanual as (ix & Hrun & Hsdk & Hix); [intros f _ _ Ha; congruence|].
       exists ix. repeat (split; [first [assumption | reflexivity]|]). right. split; assumption. }
  destruct (factory (SafeRetrieval.umiTransferParams owner asset destination collection)
              (Some 1)) as [ix|error] eqn:Hcall.
  2: { destruct Hmanual as (ix & Hrun & Hsdk & Hix).
       { intros f Hf _ _. assert (f = factory) as -> by congruence.
         exists error. exact Hcall. }
       exists ix. repeat (split; [first [assumption | reflexivity]|]). right. split; assumption. }
  exists ix. repeat (split; [first [assumption | reflexivity]|]).
  split.
  - unfold SafeRetrieval.createMetaplexCoreTransferInstruction.
    rewrite (guard_set w str Henv Hne Hdef), Henv. cbn [default from_option id].
    unfold SafeRetrieval.console_log, SafeRetrieval.emit. run_eff.
    rewrite Hload, Hfactory.
    cbn [SafeRetrieval.trace SafeRetrieval.umiContext SafeRetrieval.accountReads
           SafeRetrieval.executions].
    rewrite Hctx, Hadapters. cbn [andb]. rewrite Hcall. reflexivity.
  - left. exists factory. repeat split; assumption.
Qed.

Lemma builder_outcomes_once_loaded_witness :
  snd (SafeRetrieval.createMetaplexCoreTransferInstruction
         (Demo.safe_world Demo.env_sentinel None Demo.core_account)
         Demo.signer Demo.asset Demo.destination Demo.start)
  = Throw (Error "Missing or invalid NFT collection address configuration.")
  /\ exists ix,
       snd (SafeRetrieval.createMetaplexCoreTransferInstruction
              (Demo.safe_world Demo.env_set None Demo.core_account)
              Demo.signer Demo.asset Demo.destination Demo.start)
       = Ok ix
       /\ ix = mkInstruction METAPLEX_CORE_PROGRAM_ID
                 (SafeRetrieval.accounts Demo.signer Demo.asset Demo.destination
                    Demo.collection)
                 [116; 97; 188; 150; 133; 175; 148; 44; 1; 1; 0; 0; 0; 0; 0; 0; 0].
Proof.
  split.
  - destruct (builder_outcomes_once_loaded
                (Demo.safe_world Demo.env_sentinel None Demo.core_account) Demo.start
                Demo.signer Demo.asset Demo.destination)
      as [[_ Hthrows] | (str & collection & ix & Henv & Hdef & _)].
    + exists PublicKey.default. vm_compute. reflexivity.
    + exact Hthrows.
    + exfalso. apply Hdef. vm_compute in Henv. injection Henv as <-.
      vm_compute. reflexivity.
  - destruct (builder_outcomes_once_loaded
                (Demo.safe_world Demo.env_set None Demo.core_account) Demo.start
                Demo.signer Demo.asset Demo.destination)
      as [[Henv _] | (str & collection & ix & Henv & _ & Hkey & _ & Hrun
                        & [(factory & Hfactory & _) | [_ Hix]])].
    + exists Demo.collection. vm_compute. reflexivity.
    + vm_compute in Henv. discriminate.
    + vm_compute in Hfactory. discriminate.
    + exists ix. split; [exact Hrun|]. rewrite Hix.
      assert (Hsame : collection = Demo.collection).
      { vm_compute in Henv. injection Henv as <-.
        assert (Hdemo : PublicKey.new "Memo1UhkJRfHyvLMcVucJwxXeuD728EqVDDwQDxFMNo"
                        = Ok Demo.collection) by (vm_compute; reflexivity).
        congruence. }
      rewrite Hsame. reflexivity.
Defined.

(** X3. Whatever the environment, the SDK and the start state, the
    builder only appends to the trace, makes no call that leaves the
    process (no RPC read, no Safe SDK call), consults the SDK factory at
    most once and constructs at most one instruction by hand. *)
Theorem builder_stays_offline
    (w : SafeRetrieval.World) (owner asset destination : PublicKey) :
  within SafeRetrieval.trace SafeRetrieval.is_network 0
    (SafeRetrieval.createMetaplexCoreTransferInstruction w owner asset destination)
  /\ within SafeRetrieval.trace SafeRetrieval.is_sdk_construction 1
       (SafeRetrieval.createMetaplexCoreTransferInstruction w owner asset destination)
  /\ within SafeRetrieval.trace SafeRetrieval.is_construction 1
       (SafeRetrieval.createMetaplexCoreTransferInstruction w owner asset destination).
Proof.
  split; [apply builder_offline|].
  split; [safe_budget_all | apply builder_one_construction].
Qed.

(** X4. [createTransferProposal] derives the Safe signer from the seeds
    ["SafeSigner"] and the Safe address, builds the instruction for that
    signer, the configured asset and destination, and submits a proposal
    holding exactly that one instruction.  It returns the address the
    SDK answers; when the SDK call fails it logs and rethrows the same
    error. *)
Theorem createTransferProposal_submits_built_instruction
    (w : SafeRetrieval.World) (s s1 : SafeRetrieval.State)
    (signer : PublicKey) (bump : Z) (ix : TransactionInstruction) :
  SafeRetrieval.findProgramAddress w
    [utf8_encode "SafeSigner"; toBuffer (SafeRetrieval.SAFE_ADDRESS w)]
    (SafeRetrieval.safeProgramId w) = Ok (signer, bump) ->
  SafeRetrieval.createMetaplexCoreTransferInstruction w signer
    (SafeRetrieval.NFT_ASSET_ADDRESS w) (SafeRetrieval.DESTINATION_WALLET w) s
    = (s1, Ok ix) ->
  SafeRetrieval.createTransferProposal w s =
    match SafeRetrieval.safe_createProposal w [ix] with
    | Ok (proposalAddress, _) =>
        (SafeRetrieval.mkState
           (SafeRetrieval.trace s1 ++ [SafeRetrieval.CreateProposal [ix]])
           (SafeRetrieval.umiContext s1) (SafeRetrieval.accountReads s1)
           (SafeRetrieval.executions s1),
         Ok proposalAddress)
    | Throw error =>
        (SafeRetrieval.mkState
           (SafeRetrieval.trace s1 ++
              [SafeRetrieval.CreateProposal [ix];
               SafeRetrieval.ConsoleError "Error creating transfer proposal:"])
           (SafeRetrieval.umiContext s1) (SafeRetrieval.accountReads s1)
           (SafeRetrieval.executions s1),
         Throw error)
    end.
Proof.
  intros Hpda Hbuild.
  unfold SafeRetrieval.createTransferProposal, SafeRetrieval.findSafeSignerAddress.
  rewrite try_catch_bind. unfold liftR at 1. rewrite Hpda.
  rewrite try_catch_bind, Hbuild, try_catch_bind.
  unfold SafeRetrieval.emit, SafeRetrieval.console_error. run_eff.
  cbn [SafeRetrieval.trace SafeRetrieval.umiContext SafeRetrieval.accountReads
         SafeRetrieval.executions].
  destruct (SafeRetrieval.safe_createProposal w [ix]) as [[proposalAddress signature]|error];
    unfold SafeRetrieval.emit, SafeRetrieval.console_error; run_eff;
    cbn [SafeRetrieval.trace SafeRetrieval.umiContext SafeRetrieval.accountReads
           SafeRetrieval.executions];
    rewrite <- ?app_assoc; reflexivity.
Qed.

Lemma createTransferProposal_submits_built_instruction_witness :
  exists ix,
    SafeRetrieval.keys_of_proposal
      (SafeRetrieval.trace
         (fst (SafeRetrieval.createTransferProposal
                 (Demo.safe_world Demo.env_set None Demo.core_account) Demo.start)))
    = [[ix]]
    /\ keys ix = SafeRetrieval.accounts Demo.signer Demo.asset Demo.destination Demo.collection
    /\ snd (SafeRetrieval.createTransferProposal
              (Demo.safe_world Demo.env_set None Demo.core_account) Demo.start)
       = Ok Demo.proposal.
Proof.
  eexists.
  rewrite (createTransferProposal_submits_built_instruction
             (Demo.safe_world Demo.env_set None Demo.core_account) Demo.start
             (fst (SafeRetrieval.createMetaplexCoreTransferInstruction
                     (Demo.safe_world Demo.env_set None Demo.core_account)
                     Demo.signer Demo.asset Demo.destination Demo.start))
             Demo.signer 255
             (mkInstruction METAPLEX_CORE_PROGRAM_ID
                (SafeRetrieval.accounts Demo.signer Demo.asset Demo.destination Demo.collection)
                [116; 97; 188; 150; 133; 175; 148; 44; 1; 1; 0; 0; 0; 0; 0; 0; 0])).
  - split; [vm_compute; reflexivity|]. split; reflexivity.
  - reflexivity.
  - vm_compute. reflexivity.
Defined.

(** ** Account checks and connection set-up *)

(** X5. [verifyNFTInSafe] never throws and makes exactly one account
    read; it answers [true] exactly when that read found an account
    owned by the Metaplex Core program. *)
Theorem verifyNFTInSafe_sound_and_complete
    (w : SafeRetrieval.World) (s : SafeRetrieval.State) (asset : PublicKey) :
  exists events answer,
    SafeRetrieval.verifyNFTInSafe w asset s =
      (SafeRetrieval.mkState
         (SafeRetrieval.trace s ++ SafeRetrieval.GetAccountInfo asset :: events)
         (SafeRetrieval.umiContext s) (S (SafeRetrieval.accountReads s))
         (SafeRetrieval.executions s),
       Ok answer)
    /\ existsb SafeRetrieval.is_network events = false
    /\ (answer = true <->
        exists info,
          SafeRetrieval.getAccountInfo w (SafeRetrieval.accountReads s) asset = Ok (Some info)
          /\ AccountInfo.owner info = METAPLEX_CORE_PROGRAM_ID).
Proof.
  unfold SafeRetrieval.verifyNFTInSafe, SafeRetrieval.connection_getAccountInfo,
    SafeRetrieval.console_error, SafeRetrieval.emit.
  run_eff.
  destruct (SafeRetrieval.getAccountInfo w (SafeRetrieval.accountReads s) asset)
    as [[info|]|error];
    cbn [SafeRetrieval.trace SafeRetrieval.umiContext SafeRetrieval.accountReads
           SafeRetrieval.executions].
  - unfold PublicKey.equals.
    destruct (decide (AccountInfo.owner info = METAPLEX_CORE_PROGRAM_ID)) as [Hcore|Hother].
    + rewrite bool_decide_eq_true_2 by exact Hcore. cbn [negb].
      exists [], true. split; [reflexivity|]. split; [reflexivity|].
      split; [intros _; exists info; split; [reflexivity | exact Hcore] | reflexivity].
    + rewrite bool_decide_eq_false_2 by exact Hother.
      cbn [negb SafeRetrieval.trace SafeRetrieval.umiContext SafeRetrieval.accountReads
             SafeRetrieval.executions].
      eexists. exists false. split; [rewrite <- app_assoc; reflexivity|].
      split; [reflexivity|].
      split; [discriminate|]. intros (info' & [= <-] & Hcore). contradiction.
  - eexists. exists false. split; [rewrite <- app_assoc; reflexivity|].
    split; [reflexivity|].
    split; [discriminate|]. intros (info & Hread & _). discriminate.
  - eexists. exists false. split; [rewrite <- app_assoc; reflexivity|].
    split; [reflexivity|].
    split; [discriminate|]. intros (info & Hread & _). discriminate.
Qed.

(** X6. [getMetaplexNFTCollectionAddress] never yields a collection: it
    makes one account read and returns [null] whether the account is
    missing, short, at least 64 bytes long, or the read fails. *)
Theorem getMetaplexNFTCollectionAddress_always_null
    (w : SafeRetrieval.World) (s : SafeRetrieval.State) (asset : PublicKey) :
  exists events,
    SafeRetrieval.getMetaplexNFTCollectionAddress w asset s =
      (SafeRetrieval.mkState
         (SafeRetrieval.trace s ++ SafeRetrieval.GetAccountInfo asset :: events)
         (SafeRetrieval.umiContext s) (S (SafeRetrieval.accountReads s))
         (SafeRetrieval.executions s),
       Ok None)
    /\ existsb SafeRetrieval.is_network events = false.
Proof.
  unfold SafeRetrieval.getMetaplexNFTCollectionAddress,
    SafeRetrieval.connection_getAccountInfo,
    SafeRetrieval.console_error, SafeRetrieval.console_log, SafeRetrieval.emit.
  run_eff.
  destruct (SafeRetrieval.getAccountInfo w (SafeRetrieval.accountReads s) asset)
    as [[info|]|error];
    [destruct (64 <=? AccountInfo.dataLength info)| |];
    cbn [SafeRetrieval.trace SafeRetrieval.umiContext SafeRetrieval.accountReads
           SafeRetrieval.executions];
    eexists; (split; [rewrite <- app_assoc; reflexivity | reflexivity]).
Qed.

(** X7. [setupConnection] replaces every failure by one of two fixed
    errors: a failed block-height read gives "Failed to connect to
    Helius RPC" and the wallet key is then never parsed; a missing,
    empty or unusable [WALLET_PRIVATE_KEY] gives the "Failed to load
    wallet" error.  It succeeds exactly when the read succeeds and the
    key parses, returning the parsed wallet. *)
Theorem setupConnection_outcomes (w : SafeRetrieval.World) (s : SafeRetrieval.State) :
  snd (SafeRetrieval.setupConnection w s) =
    match SafeRetrieval.getBlockHeight w with
    | Throw _ => Throw (Error "Failed to connect to Helius RPC")
    | Ok _ =>
        match SafeRetrieval.env w !! "WALLET_PRIVATE_KEY" with
        | None | Some "" =>
            Throw (Error
              "Failed to load wallet. Make sure WALLET_PRIVATE_KEY is correctly configured in .env file")
        | Some key =>
            match SafeRetrieval.Keypair_fromSecretKey w key with
            | Ok wallet => Ok wallet
            | Throw _ =>
                Throw (Error
                  "Failed to load wallet. Make sure WALLET_PRIVATE_KEY is correctly configured in .env file")
            end
        end
    end
  /\ within SafeRetrieval.trace SafeRetrieval.is_network 1 (SafeRetrieval.setupConnection w).
Proof.
  split; [|safe_budget_all].
  unfold SafeRetrieval.setupConnection, SafeRetrieval.console_error, SafeRetrieval.emit.
  run_eff.
  destruct (SafeRetrieval.getBlockHeight w) as [height|error]; [|reflexivity].
  destruct (SafeRetrieval.env w !! "WALLET_PRIVATE_KEY") as [key|]; [|reflexivity].
  cbn [truthy default from_option id].
  destruct key as [|c key]; [reflexivity|].
  cbn [String.eqb negb].
  destruct (SafeRetrieval.Keypair_fromSecretKey w (String c key)) as [wallet|error];
    reflexivity.
Qed.

(** X8. Whatever the submitter answers, with a budget [N >= 1]
    [executeProposal] makes [k] calls with [1 <= k <= N], each but the
    last followed by its wait of [5000 * 1.5^(attempt-1)] ms; every call
    before the last failed; the result is the transaction id of the last
    call, or its error rethrown, and a rethrown error means that all [N]
    calls were made.  The model's loop fuel is never exhausted. *)
Theorem executeProposal_any_submitter
    (w : SafeRetrieval.World) (s : SafeRetrieval.State) (p : PublicKey) (N : Z) :
  1 <= N ->
  exists (k : nat) (events : list SafeRetrieval.Event),
    (1 <= k <= Z.to_nat N)%nat
    /\ SafeRetrieval.executeProposal w p N s =
       (SafeRetrieval.mkState (SafeRetrieval.trace s ++ events)
          (SafeRetrieval.umiContext s) (SafeRetrieval.accountReads s)
          (SafeRetrieval.executions s + k),
        SafeRetrieval.loop_answer w p (SafeRetrieval.executions s + k - 1))
    /\ SafeRetrieval.timeline events = SafeRetrieval.failing_timeline p k 1
    /\ count SafeRetrieval.is_attempt events = k
    /\ (forall j, (j < k - 1)%nat ->
          exists error,
            SafeRetrieval.safe_executeProposal w (SafeRetrieval.executions s + j) p
            = Throw error)
    /\ ((exists error,
           SafeRetrieval.safe_executeProposal w (SafeRetrieval.executions s + k - 1) p
           = Throw error) ->
        k = Z.to_nat N)
    /\ snd (SafeRetrieval.executeProposal w p N s) <> Ok SafeRetrieval.OutOfFuel.
Proof.
  intros HN. unfold SafeRetrieval.executeProposal.
  destruct (loop_shape w p N (S (Z.to_nat N)) 1 s ltac:(lia) ltac:(lia))
    as (k & events & Hk & Hrun & Htimeline & Hbefore & Hlast).
  replace (N - 1 + 1) with N in * by lia.
  exists k, events. split; [exact Hk|]. split; [exact Hrun|].
  split; [exact Htimeline|].
  split.
  { unfold count. rewrite <- attempts_in_timeline, Htimeline.
    apply attempts_of_failing_timeline. }
  split; [exact Hbefore|]. split; [exact Hlast|].
  apply (executeProposal_total w p N s).
Qed.

Lemma executeProposal_any_submitter_witness :
  exists (k : nat) (events : list SafeRetrieval.Event),
    (1 <= k <= 3)%nat
    /\ SafeRetrieval.executeProposal
         (Demo.safe_world_recovering 1) Demo.proposal 3 Demo.start =
       (SafeRetrieval.mkState (SafeRetrieval.trace Demo.start ++ events) false 0%nat k,
        SafeRetrieval.loop_answer (Demo.safe_world_recovering 1) Demo.proposal (k - 1)).
Proof.
  destruct (executeProposal_any_submitter
              (Demo.safe_world_recovering 1) Demo.start Demo.proposal 3 ltac:(lia))
    as (k & events & Hk & Hrun & _).
  exists k, events. split; [exact Hk | exact Hrun].
Defined.

(** X9. If the first [k - 1] calls fail and call [k] succeeds, with
    [k] within the budget, [executeProposal] returns the transaction id
    of call [k] after exactly [k] calls and [k - 1] waits, and makes no
    further call. *)
Theorem executeProposal_first_success
    (w : SafeRetrieval.World) (s : SafeRetrieval.State) (p : PublicKey) (N : Z)
    (k : nat) (txid : string) :
  (1 <= k)%nat ->
  Z.of_nat k <= N ->
  (forall j, (j < k - 1)%nat ->
     exists error,
       SafeRetrieval.safe_executeProposal w (SafeRetrieval.executions s + j) p = Throw error) ->
  SafeRetrieval.safe_executeProposal w (SafeRetrieval.executions s + k - 1) p = Ok txid ->
  exists events,
    SafeRetrieval.executeProposal w p N s =
      (SafeRetrieval.mkState (SafeRetrieval.trace s ++ events)
         (SafeRetrieval.umiContext s) (SafeRetrieval.accountReads s)
         (SafeRetrieval.executions s + k),
       Ok (SafeRetrieval.Returned (Some txid)))
    /\ SafeRetrieval.timeline events = SafeRetrieval.failing_timeline p k 1
    /\ count SafeRetrieval.is_attempt events = k
    /\ count SafeRetrieval.is_sleep events = (k - 1)%nat.
Proof.
  intros Hk HN Hfail Hsuccess. unfold SafeRetrieval.executeProposal.
  destruct (loop_shape w p N (S (Z.to_nat N)) 1 s ltac:(lia) ltac:(lia))
    as (k' & events & Hk' & Hrun & Htimeline & Hbefore & Hlast).
  replace (N - 1 + 1) with N in * by lia.
  assert (Hsame : k' = k).
  { destruct (Nat.lt_trichotomy k' k) as [Hlt | [Heq | Hgt]]; [|exact Heq|].
    - destruct (Hfail (k' - 1)%nat ltac:(lia)) as [error Herror].
      replace (SafeRetrieval.executions s + (k' - 1))%nat
        with (SafeRetrieval.executions s + k' - 1)%nat in Herror by lia.
      pose proof (Hlast (ex_intro _ error Herror)). lia.
    - destruct (Hbefore (k - 1)%nat ltac:(lia)) as [error Herror].
      replace (SafeRetrieval.executions s + (k - 1))%nat
        with (SafeRetrieval.executions s + k - 1)%nat in Herror by lia.
      congruence. }
  subst k'. exists events.
  split.
  { rewrite Hrun. unfold SafeRetrieval.loop_answer. rewrite Hsuccess. reflexivity. }
  split; [exact Htimeline|].
  split.
  { unfold count. rewrite <- attempts_in_timeline, Htimeline.
    apply attempts_of_failing_timeline. }
  unfold count. rewrite <- sleeps_in_timeline, Htimeline.
  apply sleeps_of_failing_timeline.
Qed.

Lemma executeProposal_first_success_witness :
  exists events,
    SafeRetrieval.executeProposal (Demo.safe_world_recovering 1) Demo.proposal 3 Demo.start =
      (SafeRetrieval.mkState (SafeRetrieval.trace Demo.start ++ events) false 0%nat 2%nat,
       Ok (SafeRetrieval.Returned (Some "5txid")))
    /\ SafeRetrieval.timeline events =
         [SafeRetrieval.ExecuteProposal Demo.proposal;
          SafeRetrieval.Sleep (SafeRetrieval.waitTime 1);
          SafeRetrieval.ExecuteProposal Demo.proposal].
Proof.
  destruct (executeProposal_first_success
              (Demo.safe_world_recovering 1) Demo.start Demo.proposal 3 2 "5txid")
    as (events & Hrun & Htimeline & _).
  - lia.
  - lia.
  - intros j Hj. assert (j = 0%nat) as -> by lia. eexists. reflexivity.
  - reflexivity.
  - exists events. split; [exact Hrun | exact Htimeline].
Defined.

(** ** The whole Safe script *)

Section Retrieve.

Import SafeRetrieval.

Variable w : World.

(** [retrieveNFTFromSafe] in terms of its blocks. *)
Lemma retrieve_blocks :
  retrieveNFTFromSafe w =
  try_catch
    (let* wallet := setupConnection w in
     let* umi := initializeUmi w in
     set_umiContext umi >>
     if negb umi then
       console_error
         "Aborting: Umi context failed to initialize. Cannot use Metaplex SDK path."
     else
       initializeSafe >>
       let* nftExists := verifyNFTInSafe w (NFT_ASSET_ADDRESS w) in
       if negb nftExists then
         console_log "Aborting NFT transfer process due to NFT verification failure."
       else
         let* proposalAddress := obtainProposal w in
         executeWhenApproved w proposalAddress)
    reportFailure.
Proof. reflexivity. Qed.

Lemma reportFailure_total (error : JsError) (s : State) :
  snd (reportFailure error s) = Ok tt.
Proof. unfold reportFailure. destruct (logs error); reflexivity. Qed.

Lemma retrieve_total (s : State) : snd (retrieveNFTFromSafe w s) = Ok tt.
Proof.
  rewrite retrieve_blocks. unfold try_catch.
  match goal with |- context [let (_, _) := ?body s in _] => destruct (body s) as [s' [[]|e]] end.
  - reflexivity.
  - apply reportFailure_total.
Qed.

(** Once the checks pass, the script is at the proposal block. *)
Lemma retrieve_after_checks (umiAtLoad : bool) :
  checks_pass w ->
  retrieveNFTFromSafe w (initial umiAtLoad) =
  try_catch (bind (obtainProposal w) (executeWhenApproved w)) reportFailure (checked w).
Proof.
  intros ([height Hrpc] & Hkey & [wallet Hwallet] & Hfactories & Humi & info & Hread & Hcore).
  rewrite retrieve_blocks. rewrite try_catch_bind.
  assert (Hsetup : setupConnection w (initial umiAtLoad) =
                   (mkState [GetBlockHeight] umiAtLoad 0 0, Ok wallet)).
  { unfold setupConnection, console_error, emit. run_eff.
    rewrite Hrpc, Hkey. cbn [negb]. rewrite Hwallet. reflexivity. }
  rewrite Hsetup, try_catch_bind.
  assert (Hinit : initializeUmi w (mkState [GetBlockHeight] umiAtLoad 0 0) =
                  (mkState [GetBlockHeight] umiAtLoad 0 0, Ok true)).
  { unfold initializeUmi. run_eff. rewrite Hfactories, Humi. reflexivity. }
  rewrite Hinit, try_catch_bind.
  unfold set_umiContext at 1, modify at 1.
  cbn [negb trace umiContext accountReads executions].
  rewrite try_catch_bind.
  unfold initializeSafe at 1, console_log at 1 2, emit at 1 2, bind at 1, modify at 1 2.
  cbn [trace umiContext accountReads executions app].
  rewrite try_catch_bind.
  assert (Hverify : verifyNFTInSafe w (NFT_ASSET_ADDRESS w)
                      (mkState [GetBlockHeight;
                                ConsoleLog "Initializing Snowflake Safe SDK...";
                                ConsoleLog "Snowflake SDK initialized"] true 0 0)
                    = (checked w, Ok true)).
  { unfold verifyNFTInSafe, connection_getAccountInfo. run_eff.
    cbn [trace umiContext accountReads executions app].
    rewrite Hread. unfold PublicKey.equals.
    rewrite bool_decide_eq_true_2 by exact Hcore. reflexivity. }
  rewrite Hverify. reflexivity.
Qed.

End Retrieve.

(** ** Failed verification *)

Section Handler.

Import DirectTransfer.

Variable w : World.

(** The [catch] block of [transferNFT] on an error that carries no
    logs: two console errors and the construction of a client; when
    that construction throws, [false] without a read; otherwise the
    wait, one read of the asset through [verifyAssetOwnership], and
    whether that read shows the destination as owner. *)
Lemma recover_exact (error : JsError) (s : State) :
  logs error = None ->
  recoverFromError w error s =
  match createUmi w (umis s) with
  | Throw _ =>
      (mkState
         (trace s ++
            [ConsoleError "Transfer failed"; ConsoleError (message error); CreateUmi;
             ConsoleError "Error while trying to verify final state:"])
         (fetches s) (S (umis s)),
       Ok (JsBool false))
  | Ok _ =>
      (mkState
         (trace s ++
            [ConsoleError "Transfer failed"; ConsoleError (message error); CreateUmi;
             Sleep 5000;
             FetchAsset (PublicKey.toBase58 (ASSET_ADDRESS w))
               (fetchAsset w (fetches s) (PublicKey.toBase58 (ASSET_ADDRESS w)))]
            ++ match fetchAsset w (fetches s) (PublicKey.toBase58 (ASSET_ADDRESS w)) with
               | Ok (Some _) => []
               | Ok None => [ConsoleLog "Could not find asset"]
               | Throw _ => [ConsoleError "Error verifying asset ownership:"]
               end)
         (S (fetches s)) (S (umis s)),
       Ok (JsBool
             (read_shows (PublicKey.toBase58 (DESTINATION_WALLET w))
                (FetchAsset (PublicKey.toBase58 (ASSET_ADDRESS w))
                   (fetchAsset w (fetches s) (PublicKey.toBase58 (ASSET_ADDRESS w)))))))
  end.
Proof.
  intros Hlogs.
  unfold recoverFromError. rewrite Hlogs.
  unfold verifyAssetOwnership, createUmi_call, umi_fetchAsset, sleep,
    console_error, console_log, emit.
  run_eff. cbn [trace fetches umis].
  destruct (createUmi w (umis s)) as [[]|e].
  - change (PublicKey.toString (ASSET_ADDRESS w))
      with (PublicKey.toBase58 (ASSET_ADDRESS w)).
    change (PublicKey.toString (DESTINATION_WALLET w))
      with (PublicKey.toBase58 (DESTINATION_WALLET w)).
    cbn [trace fetches umis].
    destruct (fetchAsset w (fetches s) (PublicKey.toBase58 (ASSET_ADDRESS w)))
      as [[a|]|e]; cbn [trace fetches umis read_shows owned_by];
      [destruct (Asset.owner a =? PublicKey.toBase58 (DESTINATION_WALLET w))%string| |];
      rewrite <- ?app_assoc; reflexivity.
  - cbn [trace fetches umis]. rewrite <- ?app_assoc. reflexivity.
Qed.

(** A failed first read raises its error straight into the [catch]
    block. *)
Lemma transfer_raises (balance : Z) (error : JsError) :
  getBalance w = Ok balance ->
  10000000 <= balance ->
  createUmi w 0 = Ok tt ->
  (fetchAsset w 0 (PublicKey.toBase58 (ASSET_ADDRESS w)) = Ok None
   /\ error = Error "Asset not found on chain")
  \/ (exists asset,
        fetchAsset w 0 (PublicKey.toBase58 (ASSET_ADDRESS w)) = Ok (Some asset)
        /\ Asset.owner asset <> PublicKey.toBase58 (DESTINATION_WALLET w)
        /\ Asset.owner asset <> PublicKey.toBase58 (wallet_publicKey w)
        /\ error = Error "You are not the owner of this asset.") ->
  transferNFT w initial =
  recoverFromError w error
    (mkState
       [GetBalance; CreateUmi;
        FetchAsset (PublicKey.toBase58 (ASSET_ADDRESS w))
          (fetchAsset w 0 (PublicKey.toBase58 (ASSET_ADDRESS w)))]
       1 1).
Proof.
  intros Hbalance Hfunded Humi Hfails.
  unfold transferNFT. rewrite try_catch_bind.
  change ((emit GetBalance >> liftR (getBalance w)) initial)
    with (mkState [GetBalance] 0 0, getBalance w).
  rewrite Hbalance.
  destruct (Z.ltb_spec balance 10000000) as [Hlow|_]; [lia|].
  rewrite try_catch_bind. unfold createUmi_call at 1.
  cbn [trace fetches umis app].
  rewrite Humi, try_catch_bind. unfold umi_fetchAsset at 1.
  cbn [trace fetches umis app].
  destruct Hfails as [[Hread ->] | (asset & Hread & Hother & Hforeign & ->)];
    rewrite Hread.
  - rewrite try_catch_throw. reflexivity.
  - apply String.eqb_neq in Hother, Hforeign. rewrite Hother, Hforeign.
    cbn [negb]. rewrite try_catch_throw. reflexivity.
Qed.

End Handler.

(** C6 (as amended). When the pre-transfer verification fails, no
    transfer instruction is built and no submission is attempted, but
    the operation does not fail with an error.

    In the direct script, once the balance read and the client
    construction have gone through, an asset that is not found, or that
    is held by neither the wallet nor the destination, raises the
    script's error into its own [catch] block.  That block prints the
    error and builds a client; if that fails it returns [false] without
    reading; otherwise it waits five seconds, reads the asset once and
    returns [true] exactly when that read shows the destination as
    owner.  The run is exactly these events.

    In the Safe script an asset account that is not found, is not owned
    by the Metaplex Core program or cannot be read makes
    [verifyNFTInSafe] log the failure and answer [false], and the run
    ends normally with nothing built or submitted.  That is the script's
    only verification: once the set-up went through and the account is
    found under the Metaplex Core program, the run is at the proposal
    block, whatever the account's data says about the asset's owner. *)
Theorem verification_failure_aborts :
  (forall (w : DirectTransfer.World) (balance : Z),
      DirectTransfer.getBalance w = Ok balance ->
      10000000 <= balance ->
      DirectTransfer.createUmi w 0 = Ok tt ->
      DirectTransfer.verification_fails w ->
      exists error,
        ((DirectTransfer.fetchAsset w 0 (PublicKey.toBase58 (DirectTransfer.ASSET_ADDRESS w))
          = Ok None
          /\ error = Error "Asset not found on chain")
         \/ ((exists asset,
                DirectTransfer.fetchAsset w 0
                  (PublicKey.toBase58 (DirectTransfer.ASSET_ADDRESS w))
                = Ok (Some asset))
             /\ error = Error "You are not the owner of this asset."))
        /\ DirectTransfer.transferNFT w DirectTransfer.initial
           = match DirectTransfer.createUmi w 1 with
             | Throw _ =>
                 (DirectTransfer.mkState
                    ([DirectTransfer.GetBalance; DirectTransfer.CreateUmi;
                      DirectTransfer.FetchAsset
                        (PublicKey.toBase58 (DirectTransfer.ASSET_ADDRESS w))
                        (DirectTransfer.fetchAsset w 0
                           (PublicKey.toBase58 (DirectTransfer.ASSET_ADDRESS w)))]
                       ++ [DirectTransfer.ConsoleError "Transfer failed";
                           DirectTransfer.ConsoleError (message error);
                           DirectTransfer.CreateUmi;
                           DirectTransfer.ConsoleError
                             "Error while trying to verify final state:"])
                    1 2,
                  Ok (DirectTransfer.JsBool false))
             | Ok _ =>
                 (DirectTransfer.mkState
                    ([DirectTransfer.GetBalance; DirectTransfer.CreateUmi;
                      DirectTransfer.FetchAsset
                        (PublicKey.toBase58 (DirectTransfer.ASSET_ADDRESS w))
                        (DirectTransfer.fetchAsset w 0
                           (PublicKey.toBase58 (DirectTransfer.ASSET_ADDRESS w)))]
                       ++ [DirectTransfer.ConsoleError "Transfer failed";
                           DirectTransfer.ConsoleError (message error);
                           DirectTransfer.CreateUmi;
                           DirectTransfer.Sleep 5000;
                           DirectTransfer.FetchAsset
                             (PublicKey.toBase58 (DirectTransfer.ASSET_ADDRESS w))
                             (DirectTransfer.fetchAsset w 1
                                (PublicKey.toBase58 (DirectTransfer.ASSET_ADDRESS w)))]
                       ++ match DirectTransfer.fetchAsset w 1
                                  (PublicKey.toBase58 (DirectTransfer.ASSET_ADDRESS w)) with
                          | Ok (Some _) => []
                          | Ok None => [DirectTransfer.ConsoleLog "Could not find asset"]
                          | Throw _ =>
                              [DirectTransfer.ConsoleError "Error verifying asset ownership:"]
                          end)
                    2 2,
                  Ok (DirectTransfer.JsBool
                        (DirectTransfer.read_shows
                           (PublicKey.toBase58 (DirectTransfer.DESTINATION_WALLET w))
                           (DirectTransfer.FetchAsset
                              (PublicKey.toBase58 (DirectTransfer.ASSET_ADDRESS w))
                              (DirectTransfer.fetchAsset w 1
                                 (PublicKey.toBase58 (DirectTransfer.ASSET_ADDRESS w)))))))
             end
        /\ existsb DirectTransfer.is_send
             (DirectTransfer.trace (fst (DirectTransfer.transferNFT w DirectTransfer.initial)))
           = false)
  /\ (forall (w : SafeRetrieval.World) (umiAtLoad : bool),
        SafeRetrieval.verification_fails w ->
        snd (SafeRetrieval.retrieveNFTFromSafe w (SafeRetrieval.initial umiAtLoad)) = Ok tt
        /\ existsb SafeRetrieval.builds_or_submits
             (SafeRetrieval.trace
                (fst (SafeRetrieval.retrieveNFTFromSafe w (SafeRetrieval.initial umiAtLoad))))
           = false
        /\ exists msg,
             SafeRetrieval.verifyNFTInSafe w (SafeRetrieval.NFT_ASSET_ADDRESS w)
               (SafeRetrieval.initial umiAtLoad)
             = (SafeRetrieval.mkState
                  [SafeRetrieval.GetAccountInfo (SafeRetrieval.NFT_ASSET_ADDRESS w);
                   SafeRetrieval.ConsoleError msg]
                  umiAtLoad 1 0,
                Ok false))
  /\ (forall (w : SafeRetrieval.World) (umiAtLoad : bool),
        SafeRetrieval.checks_pass w ->
        SafeRetrieval.retrieveNFTFromSafe w (SafeRetrieval.initial umiAtLoad)
        = try_catch
            (bind (SafeRetrieval.obtainProposal w) (SafeRetrieval.executeWhenApproved w))
            SafeRetrieval.reportFailure (SafeRetrieval.checked w)).
Proof.
  split; [|split].
  - intros w balance Hbalance Hfunded Humi Hfails.
    assert (Hraise : exists error,
      ((DirectTransfer.fetchAsset w 0 (PublicKey.toBase58 (DirectTransfer.ASSET_ADDRESS w))
        = Ok None
        /\ error = Error "Asset not found on chain")
       \/ ((exists asset,
              DirectTransfer.fetchAsset w 0
                (PublicKey.toBase58 (DirectTransfer.ASSET_ADDRESS w))
              = Ok (Some asset))
           /\ error = Error "You are not the owner of this asset."))
      /\ logs error = None
      /\ DirectTransfer.transferNFT w DirectTransfer.initial =
         DirectTransfer.recoverFromError w error
           (DirectTransfer.mkState
              [DirectTransfer.GetBalance; DirectTransfer.CreateUmi;
               DirectTransfer.FetchAsset
                 (PublicKey.toBase58 (DirectTransfer.ASSET_ADDRESS w))
                 (DirectTransfer.fetchAsset w 0
                    (PublicKey.toBase58 (DirectTransfer.ASSET_ADDRESS w)))]
              1 1)).
    { destruct Hfails as [Hread | (asset & Hread & Hother & Hforeign)].
      - exists (Error "Asset not found on chain").
        split; [left; split; [exact Hread | reflexivity]|].
        split; [reflexivity|].
        apply (transfer_raises w balance _ Hbalance Hfunded Humi).
        left. split; [exact Hread | reflexivity].
      - exists (Error "You are not the owner of this asset.").
        split; [right; split; [exists asset; exact Hread | reflexivity]|].
        split; [reflexivity|].
        apply (transfer_raises w balance _ Hbalance Hfunded Humi).
        right. exists asset. repeat split; assumption. }
    destruct Hraise as (error & Hwhich & Hlogs & Hrun).
    exists error. split; [exact Hwhich|].
    rewrite Hrun, (recover_exact w error _ Hlogs).
    cbn [DirectTransfer.umis DirectTransfer.fetches DirectTransfer.trace].
    split; [reflexivity|].
    destruct (DirectTransfer.createUmi w 1) as [[]|e]; [|reflexivity].
    cbn [fst DirectTransfer.trace]. rewrite !existsb_app.
    destruct (DirectTransfer.fetchAsset w 1 _) as [[a|]|e]; reflexivity.
  - intros w umiAtLoad Hfails.
    destruct (retrieve_aborts w umiAtLoad Hfails) as [Hresult Hquiet].
    split; [exact Hresult|]. split; [exact Hquiet|].
    destruct (verifyNFTInSafe_rejects w (SafeRetrieval.initial umiAtLoad) eq_refl Hfails)
      as [msg Hverify].
    exists msg. exact Hverify.
  - intros w umiAtLoad Hchecks. apply retrieve_after_checks. exact Hchecks.
Qed.

Lemma verification_failure_aborts_witness :
  (snd (DirectTransfer.transferNFT
          (Demo.direct_world Demo.reads_foreign_then_destination Demo.signature)
          DirectTransfer.initial)
   = Ok (DirectTransfer.JsBool true)
   /\ snd (DirectTransfer.transferNFT
             (Demo.direct_world Demo.reads_missing Demo.signature)
             DirectTransfer.initial)
      = Ok (DirectTransfer.JsBool false)
   /\ existsb DirectTransfer.is_send
        (DirectTransfer.trace
           (fst (DirectTransfer.transferNFT
                   (Demo.direct_world Demo.reads_missing Demo.signature)
                   DirectTransfer.initial)))
      = false)
  /\ (snd (SafeRetrieval.retrieveNFTFromSafe
             (Demo.safe_world Demo.env_set None (Ok None)) Demo.start) = Ok tt
      /\ existsb SafeRetrieval.builds_or_submits
           (SafeRetrieval.trace
              (fst (SafeRetrieval.retrieveNFTFromSafe
                      (Demo.safe_world Demo.env_set None (Ok None)) Demo.start)))
         = false)
  /\ SafeRetrieval.retrieveNFTFromSafe
       (Demo.safe_world Demo.env_set None Demo.core_account_of_third_party) Demo.start
     = try_catch
         (bind
            (SafeRetrieval.obtainProposal
               (Demo.safe_world Demo.env_set None Demo.core_account_of_third_party))
            (SafeRetrieval.executeWhenApproved
               (Demo.safe_world Demo.env_set None Demo.core_account_of_third_party)))
         SafeRetrieval.reportFailure
         (SafeRetrieval.checked
            (Demo.safe_world Demo.env_set None Demo.core_account_of_third_party)).
Proof.
  destruct verification_failure_aborts as (Hdirect & Hsafe & Hchecked).
  split; [|split].
  - destruct (Hdirect (Demo.direct_world Demo.reads_foreign_then_destination Demo.signature)
                250000000)
      as (error1 & _ & Hrun1 & _).
    { reflexivity. }
    { lia. }
    { reflexivity. }
    { right. eexists. split; [reflexivity|]. split; vm_compute; discriminate. }
    destruct (Hdirect (Demo.direct_world Demo.reads_missing Demo.signature) 250000000)
      as (error2 & _ & Hrun2 & Hquiet2).
    { reflexivity. }
    { lia. }
    { reflexivity. }
    { left. reflexivity. }
    rewrite Hrun1, Hrun2.
    split; [vm_compute; reflexivity|]. split; [vm_compute; reflexivity|].
    rewrite <- Hrun2. exact Hquiet2.
  - destruct (Hsafe (Demo.safe_world Demo.env_set None (Ok None)) false)
      as (Hresult & Hquiet & _).
    + left. reflexivity.
    + split; [exact Hresult | exact Hquiet].
  - apply (Hchecked (Demo.safe_world Demo.env_set None Demo.core_account_of_third_party)
             false).
    split; [eexists; reflexivity|].
    split; [vm_compute; reflexivity|].
    split; [eexists; reflexivity|].
    split; [reflexivity|].
    split; [reflexivity|].
    eexists. split; reflexivity.
Defined.

(** C6 as stated fails.  In the direct script a failed verification
    does not make the operation fail with an error: the wallet is not
    the owner at the first read, the handler's read finds the
    destination as owner, and [transferNFT] returns [true]; and when the
    wallet is not the owner because the destination already holds the
    asset, no error is raised at all.  In the Safe script a missing
    asset account ends the run normally; and an asset held by a third
    party is not detected: the account is found under the Metaplex Core
    program, its data is never parsed, and the run builds the transfer
    instruction with the Safe signer in the owner slot and submits the
    proposal. *)
Lemma verification_failure_counterexample :
  (DirectTransfer.verification_fails
     (Demo.direct_world Demo.reads_foreign_then_destination Demo.signature)
   /\ snd (DirectTransfer.transferNFT
             (Demo.direct_world Demo.reads_foreign_then_destination Demo.signature)
             DirectTransfer.initial) = Ok (DirectTransfer.JsBool true))
  /\ (DirectTransfer.fetchAsset
        (Demo.direct_world (fun _ => Demo.held_by Demo.destination) Demo.signature) 0
        (PublicKey.toBase58 Demo.asset)
      = Demo.held_by Demo.destination
      /\ PublicKey.toBase58 Demo.destination
         <> PublicKey.toBase58
              (DirectTransfer.wallet_publicKey
                 (Demo.direct_world (fun _ => Demo.held_by Demo.destination) Demo.signature))
      /\ snd (DirectTransfer.transferNFT
                (Demo.direct_world (fun _ => Demo.held_by Demo.destination) Demo.signature)
                DirectTransfer.initial)
         = Ok (DirectTransfer.JsString
                 "No transfer needed - already owned by destination wallet"))
  /\ (SafeRetrieval.verification_fails (Demo.safe_world Demo.env_set None (Ok None))
      /\ snd (SafeRetrieval.retrieveNFTFromSafe
                (Demo.safe_world Demo.env_set None (Ok None)) Demo.start) = Ok tt)
  /\ (SafeRetrieval.loaded
        (Demo.safe_world Demo.env_set None Demo.core_account_of_third_party)
      /\ SafeRetrieval.getAccountInfo
           (Demo.safe_world Demo.env_set None Demo.core_account_of_third_party) 0 Demo.asset
         = Ok (Some (AccountInfo.mk METAPLEX_CORE_PROGRAM_ID
                       (1 :: toBuffer Demo.stranger ++ repeat 0 167)))
      /\ SafeRetrieval.findProgramAddress
           (Demo.safe_world Demo.env_set None Demo.core_account_of_third_party)
           [utf8_encode "SafeSigner"; toBuffer Demo.signer] Demo.signer
         = Ok (Demo.signer, 255)
      /\ Demo.stranger <> Demo.signer
      /\ existsb SafeRetrieval.builds_or_submits
           (SafeRetrieval.trace
              (fst (SafeRetrieval.retrieveNFTFromSafe
                      (Demo.safe_world Demo.env_set None Demo.core_account_of_third_party)
                      Demo.start)))
         = true
      /\ exists ix,
           SafeRetrieval.keys_of_proposal
             (SafeRetrieval.trace
                (fst (SafeRetrieval.retrieveNFTFromSafe
                        (Demo.safe_world Demo.env_set None Demo.core_account_of_third_party)
                        Demo.start)))
           = [[ix]]
           /\ keys ix
              = SafeRetrieval.accounts Demo.signer Demo.asset Demo.destination
                  Demo.collection).
Proof.
  split; [|split; [|split]].
  - split.
    + right. eexists. split; [reflexivity|]. split; vm_compute; discriminate.
    + vm_compute. reflexivity.
  - split; [reflexivity|]. split; [vm_compute; discriminate | vm_compute; reflexivity].
  - split; [left; reflexivity | vm_compute; reflexivity].
  - split; [exists Demo.collection; vm_compute; reflexivity|].
    split; [reflexivity|]. split; [reflexivity|].
    split; [vm_compute; discriminate|].
    split; [vm_compute; reflexivity|].
    eexists. split; vm_compute; reflexivity.
Qed.

(** X10. [retrieveNFTFromSafe] never rejects: every error is caught and
    logged.  In a whole run it makes at most 3 proposal executions, at
    most 1 proposal creation, at most 2 asset-account reads, and
    constructs at most 1 instruction by hand, whatever the SDKs answer. *)
Theorem retrieve_resource_bounds (w : SafeRetrieval.World) (umiAtLoad : bool) :
  snd (SafeRetrieval.retrieveNFTFromSafe w (SafeRetrieval.initial umiAtLoad)) = Ok tt
  /\ (count SafeRetrieval.is_attempt
        (SafeRetrieval.trace
           (fst (SafeRetrieval.retrieveNFTFromSafe w (SafeRetrieval.initial umiAtLoad))))
      <= 3)%nat
  /\ (count SafeRetrieval.is_create
        (SafeRetrieval.trace
           (fst (SafeRetrieval.retrieveNFTFromSafe w (SafeRetrieval.initial umiAtLoad))))
      <= 1)%nat
  /\ (count SafeRetrieval.is_read
        (SafeRetrieval.trace
           (fst (SafeRetrieval.retrieveNFTFromSafe w (SafeRetrieval.initial umiAtLoad))))
      <= 2)%nat
  /\ (count SafeRetrieval.is_construction
        (SafeRetrieval.trace
           (fst (SafeRetrieval.retrieveNFTFromSafe w (SafeRetrieval.initial umiAtLoad))))
      <= 1)%nat.
Proof.
  split; [apply retrieve_total|].
  split; [apply within_run; [reflexivity | apply retrieve_attempts]|].
  split; [apply within_run; [reflexivity | apply retrieve_creates]|].
  split; [apply within_run; [reflexivity | apply retrieve_reads]|].
  apply within_run; [reflexivity | apply retrieve_constructions].
Qed.

(** X11. When set-up fails (the block-height read throws, the wallet
    key is missing or unusable, the Umi libraries are absent or Umi
    initialisation throws), the run ends normally without reading the
    asset account, without building an instruction and without creating
    or executing a proposal; the block-height read is its only call. *)
Theorem retrieve_stops_when_setup_fails (w : SafeRetrieval.World) (umiAtLoad : bool) :
  SafeRetrieval.setup_fails w ->
  snd (SafeRetrieval.retrieveNFTFromSafe w (SafeRetrieval.initial umiAtLoad)) = Ok tt
  /\ count SafeRetrieval.is_network
       (SafeRetrieval.trace
          (fst (SafeRetrieval.retrieveNFTFromSafe w (SafeRetrieval.initial umiAtLoad))))
     = 1%nat
  /\ count SafeRetrieval.is_read
       (SafeRetrieval.trace
          (fst (SafeRetrieval.retrieveNFTFromSafe w (SafeRetrieval.initial umiAtLoad))))
     = 0%nat
  /\ existsb SafeRetrieval.builds_or_submits
       (SafeRetrieval.trace
          (fst (SafeRetrieval.retrieveNFTFromSafe w (SafeRetrieval.initial umiAtLoad))))
     = false.
Proof.
  intros Hfails.
  pose (P := fun run : SafeRetrieval.State * Result unit =>
    snd run = Ok tt
    /\ count SafeRetrieval.is_network (SafeRetrieval.trace (fst run)) = 1%nat
    /\ count SafeRetrieval.is_read (SafeRetrieval.trace (fst run)) = 0%nat
    /\ existsb SafeRetrieval.builds_or_submits (SafeRetrieval.trace (fst run)) = false).
  change (P (SafeRetrieval.retrieveNFTFromSafe w (SafeRetrieval.initial umiAtLoad))).
  unfold SafeRetrieval.retrieveNFTFromSafe. rewrite try_catch_bind.
  unfold SafeRetrieval.setupConnection, SafeRetrieval.initializeUmi,
    SafeRetrieval.set_umiContext, SafeRetrieval.console_log,
    SafeRetrieval.console_error, SafeRetrieval.emit.
  unfold bind at 1. unfold try_catch at 1. unfold bind at 1.
  unfold modify at 1, liftR at 1.
  cbn [SafeRetrieval.initial SafeRetrieval.trace SafeRetrieval.umiContext
         SafeRetrieval.accountReads SafeRetrieval.executions app].
  destruct (SafeRetrieval.getBlockHeight w) as [height|e] eqn:Hrpc.
  2: { subst P. repeat split. }
  unfold try_catch at 1.
  destruct (truthy (SafeRetrieval.env w !! "WALLET_PRIVATE_KEY")) eqn:Hkey; cbn [negb].
  2: { subst P. repeat split. }
  unfold liftR at 1.
  destruct (SafeRetrieval.Keypair_fromSecretKey w _) as [wallet|e] eqn:Hwallet.
  2: { subst P. repeat split. }
  rewrite try_catch_bind. unfold try_catch at 1.
  destruct (SafeRetrieval.umiFactories w) eqn:Hfactories.
  - unfold bind at 1, liftR at 1.
    destruct (SafeRetrieval.createUmi w) as [[]|e] eqn:Humi.
    + exfalso.
      destruct Hfails as [[e He] | [Ht | [[e He] | [Hf | [e He]]]]]; congruence.
    + unfold bind at 1, modify at 1, ret at 1. rewrite try_catch_bind.
      subst P. repeat split.
  - unfold ret at 1. rewrite try_catch_bind.
    subst P. repeat split.
Qed.

Lemma retrieve_stops_when_setup_fails_witness :
  snd (SafeRetrieval.retrieveNFTFromSafe Demo.safe_world_without_umi Demo.start) = Ok tt
  /\ SafeRetrieval.trace
       (fst (SafeRetrieval.retrieveNFTFromSafe Demo.safe_world_without_umi Demo.start))
     = [SafeRetrieval.GetBlockHeight;
        SafeRetrieval.ConsoleError
          "Aborting: Umi context failed to initialize. Cannot use Metaplex SDK path."].
Proof.
  destruct (retrieve_stops_when_setup_fails Demo.safe_world_without_umi false)
    as [Hresult _].
  - right. right. right. left. reflexivity.
  - split; [exact Hresult | vm_compute; reflexivity].
Defined.

(** ** Proposal handling *)

Section Proposals.

Import SafeRetrieval.

Variable w : World.

Lemma obtainProposal_existing (p : PublicKey) (s : State) :
  truthy (env w !! "EXISTING_PROPOSAL") = true ->
  PublicKey.new (default "" (env w !! "EXISTING_PROPOSAL")) = Ok p ->
  obtainProposal w s = (s, Ok p).
Proof.
  intros Hset Hkey. unfold obtainProposal. cbv zeta. rewrite Hset.
  unfold try_catch, liftR. rewrite Hkey. reflexivity.
Qed.

(** With too few approvals the block reads the Safe and the proposal,
    prints how to continue and stops. *)
Lemma approvals_missing_run (safeAccount : SafeAccount.t) (proposal : Proposal.t)
    (q : PublicKey) (s : State) :
  safe_fetchSafe w = Ok safeAccount ->
  safe_fetchProposal w q = Ok proposal ->
  approvalCount (Some proposal) safeAccount < SafeAccount.approvalsRequired safeAccount ->
  executeWhenApproved w q s =
  (mkState
     (trace s ++
        [Sleep 5000; FetchSafe; FetchProposal q;
         ConsoleLog "Share this proposal address with other owners";
         ConsoleLog "NFT retrieval process completed."])
     (umiContext s) (accountReads s) (executions s),
   Ok tt).
Proof.
  intros Hsafe Hproposal Hfew.
  unfold executeWhenApproved, sleep, console_log, console_error, emit. run_eff.
  rewrite Hsafe.
  cbn [trace umiContext accountReads executions].
  rewrite Hproposal.
  destruct (Z.leb_spec (SafeAccount.approvalsRequired safeAccount)
              (approvalCount (Some proposal) safeAccount)) as [Hle|_]; [lia|].
  cbn [trace umiContext accountReads executions].
  rewrite <- !app_assoc. reflexivity.
Qed.

(** When the proposal cannot be read, the block goes on to execute. *)
Lemma unread_proposal_run (safeAccount : SafeAccount.t) (error : JsError)
    (q : PublicKey) (s : State) :
  safe_fetchSafe w = Ok safeAccount ->
  safe_fetchProposal w q = Throw error ->
  executeWhenApproved w q s =
  bind (executeProposal w q 3)
    (fun _ => checkTransfer w >> console_log "NFT retrieval process completed.")
    (mkState
       (trace s ++
          [Sleep 5000; FetchSafe; FetchProposal q; ConsoleError "Error fetching proposal"])
       (umiContext s) (accountReads s) (executions s)).
Proof.
  intros Hsafe Hproposal.
  unfold executeWhenApproved.
  rewrite (bind_ok _ _ _ _ _ (eq_refl : sleep 5000 s = _)).
  unfold bind at 1. unfold bind at 1, emit at 1, modify at 1, liftR at 1.
  rewrite Hsafe. unfold bind at 1, try_catch at 1, bind at 1.
  unfold bind at 1, emit at 1, modify at 1, liftR at 1.
  rewrite Hproposal.
  unfold bind at 1, console_error at 1, emit at 1, modify at 1, ret at 1.
  cbn [approvalCount trace umiContext accountReads executions].
  rewrite Z.leb_refl, <- !app_assoc. reflexivity.
Qed.

Lemma first_attempt_in_timeline (q : PublicKey) (k : nat) (events : list Event) :
  (1 <= k)%nat ->
  timeline events = failing_timeline q k 1 ->
  In (ExecuteProposal q) events.
Proof.
  intros Hk Htimeline.
  assert (Hin : In (ExecuteProposal q) (timeline events)).
  { rewrite Htimeline. destruct k as [|[|k]]; [lia | left; reflexivity | left; reflexivity]. }
  unfold timeline in Hin. apply List.filter_In in Hin as [Hin _]. exact Hin.
Qed.

(** A submitter that fails on every call makes [executeProposal] throw. *)
Lemma executeProposal_throws (q : PublicKey) (s : State) :
  (forall k, exists error, safe_executeProposal w k q = Throw error) ->
  exists s' error, executeProposal w q 3 s = (s', Throw error).
Proof.
  intros Hfails.
  pose (failure := fun k => match safe_executeProposal w k q with
                            | Throw error => error
                            | Ok _ => Error ""
                            end).
  assert (Hfailure : forall k, safe_executeProposal w k q = Throw (failure k)).
  { intros k. unfold failure. destruct (Hfails k) as [error ->]. reflexivity. }
  destruct (loop_all_fail w failure q Hfailure 2 4 1 s ltac:(lia)) as [events [Hrun _]].
  eexists. eexists. exact Hrun.
Qed.

Lemma failing_block_no_read (q : PublicKey) :
  (forall k, exists error, safe_executeProposal w k q = Throw error) ->
  within trace is_read 0 (executeWhenApproved w q).
Proof.
  intros Hfails. unfold executeWhenApproved.
  eapply within_weaken.
  2: { safe_spend_with
         ltac:(idtac; lazymatch goal with
               | |- within _ _ _ (bind (executeProposal _ _ _) _) =>
                   apply within_bind_throws;
                   [intros s; apply executeProposal_throws; exact Hfails
                   | safe_spend_all]
               end). }
  vm_compute. lia.
Qed.

End Proposals.

(** X12. With [EXISTING_PROPOSAL] set to a public key, once the checks
    pass the script goes straight to the approval block for that
    address: the whole run is that block run from the checked state, so
    no instruction is built and no proposal is created. *)
Theorem existing_proposal_is_reused
    (w : SafeRetrieval.World) (umiAtLoad : bool) (p : PublicKey) :
  SafeRetrieval.checks_pass w ->
  truthy (SafeRetrieval.env w !! "EXISTING_PROPOSAL") = true ->
  PublicKey.new (default "" (SafeRetrieval.env w !! "EXISTING_PROPOSAL")) = Ok p ->
  SafeRetrieval.retrieveNFTFromSafe w (SafeRetrieval.initial umiAtLoad)
  = try_catch (SafeRetrieval.executeWhenApproved w p) SafeRetrieval.reportFailure
      (SafeRetrieval.checked w)
  /\ count SafeRetrieval.is_create
       (SafeRetrieval.trace
          (fst (SafeRetrieval.retrieveNFTFromSafe w (SafeRetrieval.initial umiAtLoad))))
     = 0%nat
  /\ count SafeRetrieval.is_construction
       (SafeRetrieval.trace
          (fst (SafeRetrieval.retrieveNFTFromSafe w (SafeRetrieval.initial umiAtLoad))))
     = 0%nat
  /\ count SafeRetrieval.is_sdk_construction
       (SafeRetrieval.trace
          (fst (SafeRetrieval.retrieveNFTFromSafe w (SafeRetrieval.initial umiAtLoad))))
     = 0%nat.
Proof.
  intros Hchecks Hset Hkey.
  assert (Hrun : SafeRetrieval.retrieveNFTFromSafe w (SafeRetrieval.initial umiAtLoad)
                 = try_catch (SafeRetrieval.executeWhenApproved w p)
                     SafeRetrieval.reportFailure (SafeRetrieval.checked w)).
  { rewrite (retrieve_after_checks w umiAtLoad Hchecks), try_catch_bind.
    rewrite (obtainProposal_existing w p _ Hset Hkey). reflexivity. }
  split; [exact Hrun|]. rewrite Hrun.
  assert (Hcreate : within SafeRetrieval.trace SafeRetrieval.is_create 0
                      (try_catch (SafeRetrieval.executeWhenApproved w p)
                         SafeRetrieval.reportFailure)) by safe_budget_all.
  assert (Hbuild : within SafeRetrieval.trace SafeRetrieval.is_construction 0
                     (try_catch (SafeRetrieval.executeWhenApproved w p)
                        SafeRetrieval.reportFailure)) by safe_budget_all.
  assert (Hsdk : within SafeRetrieval.trace SafeRetrieval.is_sdk_construction 0
                   (try_catch (SafeRetrieval.executeWhenApproved w p)
                      SafeRetrieval.reportFailure)) by safe_budget_all.
  destruct (Hcreate (SafeRetrieval.checked w)) as (events1 & Htrace1 & Hcount1).
  destruct (Hbuild (SafeRetrieval.checked w)) as (events2 & Htrace2 & Hcount2).
  destruct (Hsdk (SafeRetrieval.checked w)) as (events3 & Htrace3 & Hcount3).
  rewrite Htrace1 in Htrace2, Htrace3. rewrite Htrace1.
  apply app_inv_head in Htrace2, Htrace3. subst events2 events3.
  rewrite !count_app.
  change (count SafeRetrieval.is_create (SafeRetrieval.trace (SafeRetrieval.checked w)))
    with 0%nat.
  change (count SafeRetrieval.is_construction (SafeRetrieval.trace (SafeRetrieval.checked w)))
    with 0%nat.
  change (count SafeRetrieval.is_sdk_construction
            (SafeRetrieval.trace (SafeRetrieval.checked w))) with 0%nat.
  lia.
Qed.

Lemma existing_proposal_is_reused_witness :
  SafeRetrieval.retrieveNFTFromSafe
    (Demo.safe_world Demo.env_existing None Demo.core_account) (SafeRetrieval.initial false)
  = try_catch
      (SafeRetrieval.executeWhenApproved
         (Demo.safe_world Demo.env_existing None Demo.core_account) Demo.proposal)
      SafeRetrieval.reportFailure
      (SafeRetrieval.checked (Demo.safe_world Demo.env_existing None Demo.core_account))
  /\ count SafeRetrieval.is_create
       (SafeRetrieval.trace
          (fst (SafeRetrieval.retrieveNFTFromSafe
                  (Demo.safe_world Demo.env_existing None Demo.core_account)
                  (SafeRetrieval.initial false))))
     = 0%nat
  /\ count SafeRetrieval.is_construction
       (SafeRetrieval.trace
          (fst (SafeRetrieval.retrieveNFTFromSafe
                  (Demo.safe_world Demo.env_existing None Demo.core_account)
                  (SafeRetrieval.initial false))))
     = 0%nat
  /\ count SafeRetrieval.is_sdk_construction
       (SafeRetrieval.trace
          (fst (SafeRetrieval.retrieveNFTFromSafe
                  (Demo.safe_world Demo.env_existing None Demo.core_account)
                  (SafeRetrieval.initial false))))
     = 0%nat.
Proof.
  apply (existing_proposal_is_reused
           (Demo.safe_world Demo.env_existing None Demo.core_account) false Demo.proposal).
  - split; [eexists; reflexivity|].
    split; [vm_compute; reflexivity|].
    split; [eexists; reflexivity|].
    split; [reflexivity|].
    split; [reflexivity|].
    eexists. split; reflexivity.
  - vm_compute. reflexivity.
  - vm_compute. reflexivity.
Defined.


(** X13. When the Safe can be read and every proposal read shows fewer
    approvals than the Safe requires, a whole run never calls
    [executeProposal]. *)
Theorem unapproved_proposal_is_not_executed
    (w : SafeRetrieval.World) (umiAtLoad : bool) (safeAccount : SafeAccount.t) :
  SafeRetrieval.safe_fetchSafe w = Ok safeAccount ->
  (forall q, exists proposal,
      SafeRetrieval.safe_fetchProposal w q = Ok proposal
      /\ SafeRetrieval.approvalCount (Some proposal) safeAccount
         < SafeAccount.approvalsRequired safeAccount) ->
  count SafeRetrieval.is_attempt
    (SafeRetrieval.trace
       (fst (SafeRetrieval.retrieveNFTFromSafe w (SafeRetrieval.initial umiAtLoad))))
  = 0%nat.
Proof.
  intros Hsafe Hfew.
  assert (Hblock : forall q,
             within SafeRetrieval.trace SafeRetrieval.is_attempt 0
               (SafeRetrieval.executeWhenApproved w q)).
  { intros q s. destruct (Hfew q) as (proposal & Hproposal & Hcount).
    rewrite (approvals_missing_run w safeAccount proposal q s Hsafe Hproposal Hcount).
    eexists. split; [reflexivity|]. vm_compute. lia. }
  assert (Hrun : within SafeRetrieval.trace SafeRetrieval.is_attempt 0
                   (SafeRetrieval.retrieveNFTFromSafe w)).
  { rewrite retrieve_blocks. eapply within_weaken.
    2: { safe_spend_with
           ltac:(idtac; lazymatch goal with
                 | |- within _ _ _ (SafeRetrieval.executeWhenApproved _ _) => apply Hblock
                 end). }
    vm_compute. lia. }
  pose proof (within_run SafeRetrieval.trace SafeRetrieval.is_attempt 0 _
                (SafeRetrieval.initial umiAtLoad) eq_refl Hrun).
  lia.
Qed.

Lemma unapproved_proposal_is_not_executed_witness :
  count SafeRetrieval.is_attempt
    (SafeRetrieval.trace
       (fst (SafeRetrieval.retrieveNFTFromSafe Demo.safe_world_unapproved
               (SafeRetrieval.initial false))))
  = 0%nat.
Proof.
  apply (unapproved_proposal_is_not_executed Demo.safe_world_unapproved false
           (SafeAccount.mk [Demo.signer; Demo.destination] 2)).
  - reflexivity.
  - intros q. eexists. split; [reflexivity|]. vm_compute. reflexivity.
Defined.


(** X14. When the Safe can be read but reading the proposal fails, the
    script assumes the proposal approved: the block logs the failure and
    then calls [executeProposal] for that address. *)
Theorem unread_proposal_is_executed
    (w : SafeRetrieval.World) (s : SafeRetrieval.State) (p : PublicKey)
    (safeAccount : SafeAccount.t) (error : JsError) :
  SafeRetrieval.safe_fetchSafe w = Ok safeAccount ->
  SafeRetrieval.safe_fetchProposal w p = Throw error ->
  exists rest,
    SafeRetrieval.trace (fst (SafeRetrieval.executeWhenApproved w p s))
    = SafeRetrieval.trace s ++
        [SafeRetrieval.Sleep 5000; SafeRetrieval.FetchSafe; SafeRetrieval.FetchProposal p;
         SafeRetrieval.ConsoleError "Error fetching proposal"] ++ rest
    /\ In (SafeRetrieval.ExecuteProposal p) rest
    /\ (1 <= count SafeRetrieval.is_attempt rest <= 3)%nat.
Proof.
  intros Hsafe Hproposal.
  rewrite (unread_proposal_run w safeAccount error p s Hsafe Hproposal).
  set (s0 := SafeRetrieval.mkState _ _ _ _).
  destruct (loop_shape w p 3 4 1 s0 ltac:(lia) ltac:(lia))
    as (k & events & Hk & Hrun & Htimeline & _).
  change (Z.to_nat (3 - 1 + 1)) with 3%nat in Hk.
  assert (Hattempts : count SafeRetrieval.is_attempt events = k).
  { unfold count. rewrite <- attempts_in_timeline, Htimeline.
    apply attempts_of_failing_timeline. }
  assert (Hafter : within SafeRetrieval.trace SafeRetrieval.is_attempt 0
                     (SafeRetrieval.checkTransfer w
                      >> SafeRetrieval.console_log "NFT retrieval process completed."))
    by safe_budget_all.
  unfold bind at 1.
  change (SafeRetrieval.executeProposal w p 3 s0)
    with (SafeRetrieval.executeProposal_loop w 4 p 3 1 s0).
  rewrite Hrun.
  destruct (SafeRetrieval.loop_answer w p _) as [exit|e].
  - match goal with
    | |- context [bind ?m ?k ?st] => destruct (Hafter st) as (more & Hmore & Hcount)
    end.
    exists (events ++ more). rewrite Hmore. cbn [SafeRetrieval.trace].
    subst s0. cbn [SafeRetrieval.trace]. rewrite <- !app_assoc.
    split; [reflexivity|].
    split; [apply in_or_app; left;
            apply (first_attempt_in_timeline p k events); [lia | exact Htimeline]|].
    rewrite count_app. lia.
  - exists events. cbn [fst SafeRetrieval.trace]. subst s0. cbn [SafeRetrieval.trace].
    rewrite <- !app_assoc.
    split; [reflexivity|].
    split; [apply (first_attempt_in_timeline p k events); [lia | exact Htimeline]|].
    lia.
Qed.

Lemma unread_proposal_is_executed_witness :
  exists rest,
    SafeRetrieval.trace
      (fst (SafeRetrieval.executeWhenApproved Demo.safe_world_unread Demo.proposal Demo.start))
    = SafeRetrieval.trace Demo.start ++
        [SafeRetrieval.Sleep 5000; SafeRetrieval.FetchSafe;
         SafeRetrieval.FetchProposal Demo.proposal;
         SafeRetrieval.ConsoleError "Error fetching proposal"] ++ rest
    /\ In (SafeRetrieval.ExecuteProposal Demo.proposal) rest
    /\ (1 <= count SafeRetrieval.is_attempt rest <= 3)%nat.
Proof.
  apply (unread_proposal_is_executed Demo.safe_world_unread Demo.start Demo.proposal
           (SafeAccount.mk [Demo.signer] 1) Demo.rpc_down).
  - reflexivity.
  - reflexivity.
Defined.

(** X15. When every execution call fails, the script gives up after
    the third failure without checking the transfer: a whole run reads
    the asset account at most once (the verification before the
    proposal), never after the execution. *)
Theorem failed_execution_is_not_checked (w : SafeRetrieval.World) (umiAtLoad : bool) :
  (forall q k, exists error, SafeRetrieval.safe_executeProposal w k q = Throw error) ->
  (count SafeRetrieval.is_read
     (SafeRetrieval.trace
        (fst (SafeRetrieval.retrieveNFTFromSafe w (SafeRetrieval.initial umiAtLoad))))
   <= 1)%nat.
Proof.
  intros Hfails.
  assert (Hrun : within SafeRetrieval.trace SafeRetrieval.is_read 1
                   (SafeRetrieval.retrieveNFTFromSafe w)).
  { rewrite retrieve_blocks. eapply within_weaken.
    2: { safe_spend_with
           ltac:(idtac; lazymatch goal with
                 | |- within _ _ _ (SafeRetrieval.executeWhenApproved _ ?q) =>
                     apply (failing_block_no_read w q (Hfails q))
                 end). }
    vm_compute. lia. }
  apply (within_run SafeRetrieval.trace SafeRetrieval.is_read 1 _
           (SafeRetrieval.initial umiAtLoad) eq_refl Hrun).
Qed.

Lemma failed_execution_is_not_checked_witness :
  (count SafeRetrieval.is_read
     (SafeRetrieval.trace
        (fst (SafeRetrieval.retrieveNFTFromSafe
                (Demo.safe_world Demo.env_set None Demo.core_account)
                (SafeRetrieval.initial false))))
   <= 1)%nat.
Proof.
  apply (failed_execution_is_not_checked
           (Demo.safe_world Demo.env_set None Demo.core_account) false).
  intros q k. eexists. reflexivity.
Defined.


(** ** More on the direct transfer *)

Section DirectRuns.

Import DirectTransfer.

Variable w : World.

(** [transferNFT] always resolves, to a boolean or to the
    short-circuit message, and what it resolves to is truthy exactly
    when some read of the run showed the destination as owner. *)
Lemma transfer_values :
  exists value,
    snd (transferNFT w initial) = Ok value
    /\ (value = JsBool true \/ value = JsBool false
        \/ value = JsString "No transfer needed - already owned by destination wallet")
    /\ truthy_value value
       = existsb (read_shows (PublicKey.toBase58 (DESTINATION_WALLET w)))
           (trace (fst (transferNFT w initial))).
Proof.
  pose (P := fun run : State * Result JsValue =>
    exists value,
      snd run = Ok value
      /\ (value = JsBool true \/ value = JsBool false
          \/ value = JsString "No transfer needed - already owned by destination wallet")
      /\ truthy_value value
         = existsb (read_shows (PublicKey.toBase58 (DESTINATION_WALLET w)))
             (trace (fst run))).
  assert (Hbool : forall pre events fs us,
             existsb (read_shows (PublicKey.toBase58 (DESTINATION_WALLET w))) pre = false ->
             P (mkState (pre ++ events) fs us,
                Ok (JsBool (existsb (read_shows (PublicKey.toBase58 (DESTINATION_WALLET w)))
                              events)))).
  { intros pre events fs us Hpre. eexists. split; [reflexivity|].
    split; [destruct (existsb _ events); auto|].
    cbn [fst trace truthy_value]. rewrite existsb_app, Hpre. reflexivity. }
  assert (Hrecovered : forall error st,
             existsb (read_shows (PublicKey.toBase58 (DESTINATION_WALLET w))) (trace st)
             = false ->
             P (recoverFromError w error st)).
  { intros error st Hpre.
    destruct (recover_run w error st) as (events & fs & us & -> & _).
    apply Hbool. exact Hpre. }
  assert (Hsent : forall params st,
             existsb (read_shows (PublicKey.toBase58 (DESTINATION_WALLET w))) (trace st)
             = false ->
             P (try_catch (bind (submitTransfer w params) (fun _ => confirmTransfer w))
                  (recoverFromError w) st)).
  { intros params st Hpre.
    destruct (submission_outcome w params st) as (rest & fs & us & ->).
    change (trace st ++ SendAndConfirm params :: rest)
      with (trace st ++ [SendAndConfirm params] ++ rest).
    rewrite app_assoc. apply Hbool.
    rewrite existsb_app, Hpre. reflexivity. }
  change (P (transferNFT w initial)).
  unfold transferNFT. rewrite try_catch_bind.
  change ((emit GetBalance >> liftR (getBalance w)) initial)
    with (mkState [GetBalance] 0 0, getBalance w).
  destruct (getBalance w) as [balance|e]; [|apply Hrecovered; reflexivity].
  destruct (balance <? 10000000);
    [rewrite try_catch_throw; apply Hrecovered; reflexivity|].
  rewrite try_catch_bind. unfold createUmi_call at 1. cbn [trace fetches umis app].
  destruct (createUmi w 0) as [[]|e]; [|apply Hrecovered; reflexivity].
  rewrite try_catch_bind. unfold umi_fetchAsset at 1. cbn [trace fetches umis app].
  destruct (fetchAsset w 0 (PublicKey.toBase58 (ASSET_ADDRESS w))) as [[asset|]|e];
    [| rewrite try_catch_throw; apply Hrecovered; reflexivity
     | apply Hrecovered; reflexivity].
  destruct (Asset.owner asset =? PublicKey.toBase58 (DESTINATION_WALLET w))%string
    eqn:Howner.
  { subst P. eexists. split; [reflexivity|]. split; [auto|].
    cbn. rewrite Howner. reflexivity. }
  assert (Hpre : forall more,
             existsb (read_shows (PublicKey.toBase58 (DESTINATION_WALLET w))) more = false ->
             existsb (read_shows (PublicKey.toBase58 (DESTINATION_WALLET w)))
               ([GetBalance; CreateUmi;
                 FetchAsset (PublicKey.toBase58 (ASSET_ADDRESS w)) (Ok (Some asset))]
                  ++ more)
             = false).
  { intros more Hmore. cbn. rewrite Howner. exact Hmore. }
  destruct (negb _);
    [rewrite try_catch_throw; apply Hrecovered; apply (Hpre []); reflexivity|].
  rewrite try_catch_bind.
  destruct (COLLECTION_ADDRESS w) as [c|].
  { unfold ret at 1. apply Hsent. apply (Hpre []). reflexivity. }
  destruct (Asset.collection asset) as [c|].
  - unfold bind at 1, liftR at 1.
    destruct (PublicKey.new c) as [k|e];
      [|apply Hrecovered; apply (Hpre []); reflexivity].
    unfold ret at 1. apply Hsent. apply (Hpre []). reflexivity.
  - unfold bind at 1, console_log at 1, emit at 1, modify at 1, ret at 1.
    cbn [trace fetches umis app]. apply Hsent. apply (Hpre [_]). reflexivity.
Qed.

(** With a balance under 0.01 SOL the error handler runs at once. *)
Lemma transfer_unfunded (balance : Z) :
  getBalance w = Ok balance ->
  balance < 10000000 ->
  transferNFT w initial
  = recoverFromError w (Error "Low wallet balance") (mkState [GetBalance] 0 0).
Proof.
  intros Hbalance Hlow.
  unfold transferNFT. rewrite try_catch_bind.
  change ((emit GetBalance >> liftR (getBalance w)) initial)
    with (mkState [GetBalance] 0 0, getBalance w).
  rewrite Hbalance.
  destruct (Z.ltb_spec balance 10000000) as [_|Hfunded]; [|lia].
  rewrite try_catch_throw. reflexivity.
Qed.


Lemma transfer_sends : within trace is_send 1 (transferNFT w).
Proof. safe_budget_all. Qed.

Lemma transfer_fetches : within trace is_fetch 4 (transferNFT w).
Proof. safe_budget_all. Qed.

Lemma transfer_clients : within trace is_client 2 (transferNFT w).
Proof. safe_budget_all. Qed.

End DirectRuns.

(** X16. [verifyAssetOwnership] never throws and makes exactly one read
    of the asset; it answers [true] exactly when that read found the
    asset and its owner string equals the expected owner's base58
    string.  A failed read and a missing asset both count as [false]. *)
Theorem verifyAssetOwnership_sound_and_complete
    (w : DirectTransfer.World) (s : DirectTransfer.State) (asset expected : PublicKey) :
  exists events answer,
    DirectTransfer.verifyAssetOwnership w asset expected s =
      (DirectTransfer.mkState
         (DirectTransfer.trace s ++
            DirectTransfer.FetchAsset (PublicKey.toString asset)
              (DirectTransfer.fetchAsset w (DirectTransfer.fetches s)
                 (PublicKey.toString asset))
            :: events)
         (S (DirectTransfer.fetches s)) (DirectTransfer.umis s),
       Ok answer)
    /\ existsb DirectTransfer.is_fetch events = false
    /\ existsb DirectTransfer.is_send events = false
    /\ (answer = true <->
        exists found,
          DirectTransfer.fetchAsset w (DirectTransfer.fetches s) (PublicKey.toString asset)
          = Ok (Some found)
          /\ Asset.owner found = PublicKey.toString expected).
Proof.
  unfold DirectTransfer.verifyAssetOwnership, DirectTransfer.umi_fetchAsset,
    DirectTransfer.console_log, DirectTransfer.console_error, DirectTransfer.emit.
  run_eff.
  destruct (DirectTransfer.fetchAsset w (DirectTransfer.fetches s) (PublicKey.toString asset))
    as [[found|]|error];
    cbn [DirectTransfer.trace DirectTransfer.fetches DirectTransfer.umis].
  - exists [], (Asset.owner found =? PublicKey.toString expected)%string.
    split; [reflexivity|]. split; [reflexivity|]. split; [reflexivity|].
    rewrite String.eqb_eq. split.
    + intros Howner. exists found. split; [reflexivity | exact Howner].
    + intros (found' & [= <-] & Howner). exact Howner.
  - eexists. exists false. split; [rewrite <- app_assoc; reflexivity|].
    split; [reflexivity|]. split; [reflexivity|].
    split; [discriminate | intros (found & Hread & _); discriminate].
  - eexists. exists false. split; [rewrite <- app_assoc; reflexivity|].
    split; [reflexivity|]. split; [reflexivity|].
    split; [discriminate | intros (found & Hread & _); discriminate].
Qed.

(** X17. [transferNFT] never rejects: it resolves to [true], to
    [false] or to the short-circuit message.  The process exits with
    status 0 exactly when some read of the asset made during the run
    showed the destination as owner, and with status 1 exactly when the
    function resolved to [false]; the [.catch] branch of the entry point
    is never taken. *)
Theorem transferNFT_exit_status (w : DirectTransfer.World) :
  exists value,
    snd (DirectTransfer.transferNFT w DirectTransfer.initial) = Ok value
    /\ (value = DirectTransfer.JsBool true \/ value = DirectTransfer.JsBool false
        \/ value = DirectTransfer.JsString
                     "No transfer needed - already owned by destination wallet")
    /\ (DirectTransfer.exitCode (snd (DirectTransfer.transferNFT w DirectTransfer.initial)) = 0
        <-> existsb
              (DirectTransfer.read_shows
                 (PublicKey.toBase58 (DirectTransfer.DESTINATION_WALLET w)))
              (DirectTransfer.trace
                 (fst (DirectTransfer.transferNFT w DirectTransfer.initial)))
            = true)
    /\ (DirectTransfer.exitCode (snd (DirectTransfer.transferNFT w DirectTransfer.initial)) = 1
        <-> value = DirectTransfer.JsBool false).
Proof.
  destruct (transfer_values w) as (value & Hrun & Hforms & Htruthy).
  exists value. split; [exact Hrun|]. split; [exact Hforms|].
  rewrite Hrun. cbn [DirectTransfer.exitCode]. rewrite <- Htruthy.
  destruct Hforms as [-> | [-> | ->]]; cbn; split; split;
    solve [reflexivity | discriminate | lia].
Qed.

(** X18. Whatever the RPC and the SDK answer, one run of [transferNFT]
    submits at most one transaction, reads the asset at most four times
    and builds at most two Umi clients. *)
Theorem transferNFT_resource_bounds (w : DirectTransfer.World) :
  (count DirectTransfer.is_send
     (DirectTransfer.trace (fst (DirectTransfer.transferNFT w DirectTransfer.initial)))
   <= 1)%nat
  /\ (count DirectTransfer.is_fetch
        (DirectTransfer.trace (fst (DirectTransfer.transferNFT w DirectTransfer.initial)))
      <= 4)%nat
  /\ (count DirectTransfer.is_client
        (DirectTransfer.trace (fst (DirectTransfer.transferNFT w DirectTransfer.initial)))
      <= 2)%nat.
Proof.
  split; [apply within_run; [reflexivity | apply transfer_sends]|].
  split; [apply within_run; [reflexivity | apply transfer_fetches]|].
  apply within_run; [reflexivity | apply transfer_clients].
Qed.


(** X20. With a wallet balance under 0.01 SOL (10,000,000 lamports)
    [transferNFT] builds no client of its own and submits nothing: the
    error handler runs straight after the balance read, and the read it
    makes decides the returned boolean. *)
Theorem low_balance_blocks_transfer (w : DirectTransfer.World) (balance : Z) :
  DirectTransfer.getBalance w = Ok balance ->
  balance < 10000000 ->
  exists events fs us,
    DirectTransfer.transferNFT w DirectTransfer.initial
    = (DirectTransfer.mkState (DirectTransfer.GetBalance :: events) fs us,
       Ok (DirectTransfer.JsBool
             (existsb
                (DirectTransfer.read_shows
                   (PublicKey.toBase58 (DirectTransfer.DESTINATION_WALLET w)))
                events)))
    /\ existsb DirectTransfer.is_send events = false
    /\ (count DirectTransfer.is_client events <= 1)%nat
    /\ (count DirectTransfer.is_fetch events <= 1)%nat.
Proof.
  intros Hbalance Hlow.
  rewrite (transfer_unfunded w balance Hbalance Hlow).
  destruct (recover_run w (Error "Low wallet balance")
              (DirectTransfer.mkState [DirectTransfer.GetBalance] 0 0))
    as (events & fs & us & Hrun & Hquiet).
  exists events, fs, us. split; [exact Hrun|]. split; [exact Hquiet|].
  assert (Hclients : within DirectTransfer.trace DirectTransfer.is_client 1
                       (DirectTransfer.recoverFromError w (Error "Low wallet balance")))
    by safe_budget_all.
  assert (Hreads : within DirectTransfer.trace DirectTransfer.is_fetch 1
                     (DirectTransfer.recoverFromError w (Error "Low wallet balance")))
    by safe_budget_all.
  destruct (Hclients (DirectTransfer.mkState [DirectTransfer.GetBalance] 0 0))
    as (events1 & Htrace1 & Hcount1).
  destruct (Hreads (DirectTransfer.mkState [DirectTransfer.GetBalance] 0 0))
    as (events2 & Htrace2 & Hcount2).
  rewrite Hrun in Htrace1, Htrace2. cbn [fst DirectTransfer.trace] in Htrace1, Htrace2.
  apply app_inv_head in Htrace1, Htrace2. subst events1 events2.
  split; assumption.
Qed.

Lemma low_balance_blocks_transfer_witness :
  exists events fs us,
    DirectTransfer.transferNFT (Demo.direct_world_unfunded Demo.reads_unchanged)
      DirectTransfer.initial
    = (DirectTransfer.mkState (DirectTransfer.GetBalance :: events) fs us,
       Ok (DirectTransfer.JsBool
             (existsb
                (DirectTransfer.read_shows
                   (PublicKey.toBase58
                      (DirectTransfer.DESTINATION_WALLET
                         (Demo.direct_world_unfunded Demo.reads_unchanged))))
                events)))
    /\ existsb DirectTransfer.is_send events = false
    /\ (count DirectTransfer.is_client events <= 1)%nat
    /\ (count DirectTransfer.is_fetch events <= 1)%nat.
Proof.
  apply (low_balance_blocks_transfer (Demo.direct_world_unfunded Demo.reads_unchanged) 5000000).
  - reflexivity.
  - lia.
Defined.

(** ** Umi initialisation and the proposal fallback *)

(** X21. [initializeUmi] never throws and makes no call that leaves the
    process; it answers a Umi instance exactly when the four factories
    were imported and the [createUmi().use(...)] chain succeeds, and it
    does not itself write the global [umiContext]. *)
Theorem initializeUmi_never_throws (w : SafeRetrieval.World) (s : SafeRetrieval.State) :
  snd (SafeRetrieval.initializeUmi w s)
  = Ok (SafeRetrieval.umiFactories w
        && match SafeRetrieval.createUmi w with Ok _ => true | Throw _ => false end)
  /\ SafeRetrieval.umiContext (fst (SafeRetrieval.initializeUmi w s))
     = SafeRetrieval.umiContext s
  /\ within SafeRetrieval.trace SafeRetrieval.is_network 0 (SafeRetrieval.initializeUmi w).
Proof.
  split; [|split; [|safe_budget_all]];
    unfold SafeRetrieval.initializeUmi, SafeRetrieval.console_error, SafeRetrieval.emit;
    run_eff;
    destruct (SafeRetrieval.umiFactories w); [|reflexivity| |reflexivity];
    run_eff; destruct (SafeRetrieval.createUmi w) as [[]|error]; reflexivity.
Qed.

(** X22. An [EXISTING_PROPOSAL] that is set but does not parse as a
    public key is not fatal: the parse error is dropped, one line is
    logged, and the proposal is created as if the variable were unset. *)
Theorem invalid_existing_proposal_creates_new
    (w : SafeRetrieval.World) (s : SafeRetrieval.State) (str : string) (error : JsError) :
  SafeRetrieval.env w !! "EXISTING_PROPOSAL" = Some str ->
  str <> "" ->
  PublicKey.new str = Throw error ->
  SafeRetrieval.obtainProposal w s
  = SafeRetrieval.createTransferProposal w
      (SafeRetrieval.mkState
         (SafeRetrieval.trace s ++
            [SafeRetrieval.ConsoleError
               "Invalid existing proposal address. Creating a new one."])
         (SafeRetrieval.umiContext s) (SafeRetrieval.accountReads s)
         (SafeRetrieval.executions s)).
Proof.
  intros Henv Hne Hkey.
  unfold SafeRetrieval.obtainProposal. cbv zeta. rewrite Henv.
  cbn [truthy default from_option id].
  apply String.eqb_neq in Hne. rewrite Hne. cbn [negb].
  unfold try_catch at 1, liftR at 1. rewrite Hkey.
  unfold SafeRetrieval.console_error, SafeRetrieval.emit. run_eff. reflexivity.
Qed.

Lemma invalid_existing_proposal_creates_new_witness :
  SafeRetrieval.obtainProposal
    (Demo.safe_world Demo.env_existing_invalid None Demo.core_account) Demo.start
  = SafeRetrieval.createTransferProposal
      (Demo.safe_world Demo.env_existing_invalid None Demo.core_account)
      (SafeRetrieval.mkState
         (SafeRetrieval.trace Demo.start ++
            [SafeRetrieval.ConsoleError
               "Invalid existing proposal address. Creating a new one."])
         (SafeRetrieval.umiContext Demo.start) (SafeRetrieval.accountReads Demo.start)
         (SafeRetrieval.executions Demo.start)).
Proof.
  apply (invalid_existing_proposal_creates_new
           (Demo.safe_world Demo.env_existing_invalid None Demo.core_account) Demo.start
           "not a key 0OIl" (Error "Non-base58 character")).
  - vm_compute. reflexivity.
  - discriminate.
  - vm_compute. reflexivity.
Defined.
